(** * docker-puller: the reconciliation engine, embedded and verified

    The repository carries two revisions of the program:
    - [V1]: [src/main.go], which restarts a container in place when the pull
      stream reports a newer image, with a [linux/amd64] fallback pull;
    - [V2]: the [main.go] reproduced in [src/README.md], which probes the
      [latest] tag and an optional [REGISTRY_TAG], compares image identities
      and creation timestamps, and recreates the container.

    The Docker Engine client, [net/http] and the clock-free parts of the Go
    library the program calls are an interface ([Runtime]); the program is
    written against it in a monad that threads the state of the outside world
    and records every call made and every [log.Printf] issued. *)

From Stdlib Require Import String Ascii ZArith List Lia Bool.
From stdpp Require Import base strings gmap list.
Import ListNotations.
Local Open Scope Z_scope.

(** ** Go's [strings] package, as far as the program uses it *)

Module Strings.

(** [strings.HasPrefix(s, prefix)] *)
Fixpoint HasPrefix (s p : string) {struct p} : bool :=
  match p with
  | EmptyString => true
  | String b p' =>
      match s with
      | EmptyString => false
      | String a s' => Ascii.eqb a b && HasPrefix s' p'
      end
  end.

(** [strings.Contains(s, substr)] *)
Fixpoint Contains (s sub : string) : bool :=
  HasPrefix s sub ||
  match s with
  | EmptyString => false
  | String _ s' => Contains s' sub
  end.

(** [strings.TrimPrefix(s, prefix)] *)
Definition TrimPrefix (s p : string) : string :=
  if HasPrefix s p
  then String.substring (String.length p) (String.length s - String.length p) s
  else s.

(** [strings.Split(s, sep)] for a separator of one byte. *)
Fixpoint Split (s : string) (sep : ascii) : list string :=
  match s with
  | EmptyString => [EmptyString]
  | String a s' =>
      if Ascii.eqb a sep then EmptyString :: Split s' sep
      else match Split s' sep with
           | h :: t => String a h :: t
           | [] => [String a EmptyString]
           end
  end.

End Strings.

(** ** The slice of the Docker SDK types the program reads *)

Record Container := {
  c_ID : string;
  c_Names : list string;
  c_Image : string;
  c_ImageID : string
}.

Record ImageInspect := {
  ii_ID : string;
  ii_RepoTags : list string;
  ii_Os : string;
  ii_Architecture : string;
  ii_Created : string
}.

(** The zero value the SDK returns next to a non-nil error. *)
Definition zeroImageInspect : ImageInspect :=
  {| ii_ID := ""; ii_RepoTags := []; ii_Os := ""; ii_Architecture := "";
     ii_Created := "" |}.

Record AuthConfig := {
  Username : string;
  Password : string;
  ServerAddress : string
}.

Definition zeroAuthConfig : AuthConfig :=
  {| Username := ""; Password := ""; ServerAddress := "" |}.

Record ImagePullOptions := {
  RegistryAuth : string;
  Platform : string
}.

Record ContainerListOptions := {
  All : bool;
  Filters : list (string * string)
}.

Record ImageRemoveOptions := {
  Force : bool;
  PruneChildren : bool
}.

(** [container.Config], [container.HostConfig], [network.EndpointSettings]. *)
Record Config := {
  cfg_Image : string;
  cfg_Env : list string;
  cfg_Cmd : list string;
  cfg_Labels : gmap string string
}.

Record HostConfig := {
  hc_Binds : list string;
  hc_Mounts : list (string * string);
  hc_NetworkMode : string;
  hc_RestartPolicy : string
}.

Record EndpointSettings := {
  es_NetworkID : string;
  es_Aliases : list string;
  es_IPAddress : string;
  es_MacAddress : string
}.

(** [types.ContainerJSON], the result of [ContainerInspect]. The struct
    embeds a pointer to [types.ContainerJSONBase], which holds [HostConfig],
    and has a pointer to [types.NetworkSettings], which holds [Networks]:
    either pointer is nil in an answer that lacks that part, and reading a
    field through it then panics. [Config] (and [HostConfig] inside the base)
    are pointers the program never reads through; it passes them on to
    [ContainerCreate], and the model passes on what they point to. *)
Record ContainerJSONBase := {
  cjb_Name : string;
  cjb_HostConfig : HostConfig
}.

Record NetworkSettings := {
  ns_Networks : gmap string EndpointSettings
}.

Record ContainerJSON := {
  cj_Base : option ContainerJSONBase;
  cj_Config : Config;
  cj_NetworkSettings : option NetworkSettings
}.

Record PruneReport := {
  ImagesDeleted : list string;
  SpaceReclaimed : Z
}.

(** One value read by [json.Decoder.Decode] from the pull stream. *)
Inductive StreamItem :=
| Decoded (Status Error : string)
| Undecodable (e : string).

(** A Go [(T, error)] result. *)
Inductive Result (T : Type) :=
| Success (v : T)
| Failure (e : string).
Arguments Success {T} v.
Arguments Failure {T} e.

(** Command-line flags, read once by [flag.Parse]. *)
Record Flags := {
  interval : Z;
  cleanup : bool;
  labelEnable : bool;
  verbose : bool;
  quiet : bool
}.

Definition enableLabel : string := "puller.update.enable".

(** ** What the program does to the outside world *)

(** Arguments of a [log.Printf]. *)
Inductive Val :=
| VStr (s : string)
| VInt (z : Z)
| VBool (b : bool)
| VErr (e : string)
| VTime (t : Z).

Inductive Event :=
| EvLog (format : string) (args : list Val)
| EvNewClient (r : Result unit)
| EvContainerList (opts : ContainerListOptions) (r : Result (list Container))
| EvImageInspect (ref : string) (r : Result ImageInspect)
| EvImagePull (ref : string) (opts : ImagePullOptions) (r : Result (list StreamItem))
| EvImageTag (src target : string) (r : Result unit)
| EvImageRemove (ref : string) (opts : ImageRemoveOptions) (r : Result unit)
| EvContainerInspect (id : string) (r : Result ContainerJSON)
| EvContainerStop (id : string) (timeout : Z) (r : Result unit)
| EvContainerRemove (id : string) (r : Result unit)
| EvContainerCreate (cfg : Config) (hc : HostConfig)
    (nets : gmap string EndpointSettings) (name : string) (r : Result string)
| EvContainerStart (id : string) (r : Result unit)
| EvContainerRestart (id : string) (timeout : Z) (r : Result unit)
| EvImagesPrune (r : Result PruneReport)
| EvHttpPost (url contentType body : string) (r : Result Z).

(** How a Go computation can end. *)
Inductive Outcome (A : Type) :=
| Done (a : A)
| Panicked (msg : string)
| Exited (code : Z)
| OutOfFuel.
Arguments Done {A} a.
Arguments Panicked {A} msg.
Arguments Exited {A} code.
Arguments OutOfFuel {A}.

(** The Docker Engine client and [http.Post], over a state [W] of the outside
    world (daemon, registry, network). *)
Class Runtime (W : Type) := {
  NewClientWithOpts : W -> Result unit * W;
  ContainerList : ContainerListOptions -> W -> Result (list Container) * W;
  ImageInspectWithRaw : string -> W -> Result ImageInspect * W;
  ImagePull : string -> ImagePullOptions -> W -> Result (list StreamItem) * W;
  ImageTag : string -> string -> W -> Result unit * W;
  ImageRemove : string -> ImageRemoveOptions -> W -> Result unit * W;
  ContainerInspect : string -> W -> Result ContainerJSON * W;
  ContainerStop : string -> Z -> W -> Result unit * W;
  ContainerRemove : string -> W -> Result unit * W;
  ContainerCreate : Config -> HostConfig -> gmap string EndpointSettings ->
                    string -> W -> Result string * W;
  ContainerStart : string -> W -> Result unit * W;
  ContainerRestart : string -> Z -> W -> Result unit * W;
  ImagesPrune : W -> Result PruneReport * W;
  http_Post : string -> string -> string -> W -> Result Z * W
}.

(** ** The monad: world state, a log of events, and abnormal ends *)

Definition M (W A : Type) : Type := W -> Outcome A * W * list Event.

Definition ret {W A} (a : A) : M W A := fun w => (Done a, w, []).

Definition bind {W A B} (m : M W A) (f : A -> M W B) : M W B :=
  fun w =>
    match m w with
    | (Done a, w1, e1) =>
        match f a w1 with
        | (o, w2, e2) => (o, w2, e1 ++ e2)
        end
    | (Panicked msg, w1, e1) => (Panicked msg, w1, e1)
    | (Exited c, w1, e1) => (Exited c, w1, e1)
    | (OutOfFuel, w1, e1) => (OutOfFuel, w1, e1)
    end.

Definition call {W R} (op : W -> R * W) (ev : R -> Event) : M W R :=
  fun w => match op w with (r, w') => (Done r, w', [ev r]) end.

Definition emit {W} (e : Event) : M W unit := fun w => (Done tt, w, [e]).

Definition panic {W A} (msg : string) : M W A := fun w => (Panicked msg, w, []).

Definition exit {W A} (code : Z) : M W A := fun w => (Exited code, w, []).

Definition out_of_fuel {W A} : M W A := fun w => (OutOfFuel, w, []).

Definition outcome {W A} (x : Outcome A * W * list Event) : Outcome A := fst (fst x).
Definition world {W A} (x : Outcome A * W * list Event) : W := snd (fst x).
Definition events {W A} (x : Outcome A * W * list Event) : list Event := snd x.

Declare Scope go_scope.
Delimit Scope go_scope with go.
Notation "x <- m ;; k" := (bind m (fun x => k))
  (at level 100, m at next level, right associativity) : go_scope.
Notation "m ;;; k" := (bind m (fun _ => k))
  (at level 100, right associativity) : go_scope.
Local Open Scope go_scope.

(** [time.NewTicker] on the [interval] flag times [time.Second]: the product
    is taken in [int64], and [NewTicker] panics on a duration that is not
    positive. *)
Definition wrap64 (z : Z) : Z := (z + 2 ^ 63) mod 2 ^ 64 - 2 ^ 63.

(** The messages of the panics raised by [c.Names[0]] on an empty slice and
    by reading a field through a nil pointer. *)
Definition indexOutOfRange : string :=
  "runtime error: index out of range [0] with length 0".


Definition nilDereference : string :=
  "runtime error: invalid memory address or nil pointer dereference".

Definition newTicker {W} (fl : Flags) : M W unit :=
  if wrap64 (interval fl * 1000000000) <=? 0
  then panic "non-positive interval for NewTicker"
  else ret tt.

(** ** Logging helpers of [main.go] (identical in both revisions) *)

Section Logging.
Context {W : Type}.
Variable fl : Flags.

Definition logInfo (format : string) (v : list Val) : M W unit :=
  if negb (quiet fl) then emit (EvLog ("[INFO] " +:+ format) v) else ret tt.

Definition logVerbose (format : string) (v : list Val) : M W unit :=
  if verbose fl && negb (quiet fl)
  then emit (EvLog ("[VERBOSE] " +:+ format) v) else ret tt.

Definition logWarn (format : string) (v : list Val) : M W unit :=
  emit (EvLog ("[WARN] " +:+ format) v).

Definition logError (format : string) (v : list Val) : M W unit :=
  emit (EvLog ("[ERROR] " +:+ format) v).

Definition logUpdate (format : string) (v : list Val) : M W unit :=
  emit (EvLog ("[UPDATE] " +:+ format) v).

(** [log.Fatal]/[log.Fatalf]: print, then [os.Exit(1)]. *)
Definition logFatal {A} (format : string) (v : list Val) : M W A :=
  emit (EvLog format v) ;;; exit 1.
End Logging.

Section Notify.
Context {W : Type} `{Runtime W}.
Variable fl : Flags.

Definition notify (url message : string) : M W unit :=
  if String.eqb url "" then ret tt
  else
    r <- call (http_Post url "text/plain" message)
              (EvHttpPost url "text/plain" message) ;;
    match r with
    | Failure e => logError "Error sending notification: %v" [VErr e]
    | Success status =>
        if 400 <=? status
        then logWarn "Notification failed with status: %d" [VInt status]
        else logVerbose fl "Notification sent successfully" []
    end.

(** The cleanup block that ends the body of the second loop of
    [checkContainers], the same in both revisions. *)
Definition pruneImages (notificationURL : string) : M W unit :=
  if cleanup fl then
    logVerbose fl "Cleaning up old images" [] ;;;
    rp <- call ImagesPrune EvImagesPrune ;;
    match rp with
    | Failure e =>
        let msg := "Error pruning old images: " +:+ e in
        logWarn msg [] ;;;
        notify notificationURL msg
    | Success pruned =>
        if (0 <? length (ImagesDeleted pruned))%nat then
          logInfo fl "Cleaned up %d images, reclaimed %d bytes"
            [VInt (Z.of_nat (length (ImagesDeleted pruned))); VInt (SpaceReclaimed pruned)]
        else ret tt
    end
  else ret tt.
End Notify.

(** ** Revision 2: the [main.go] reproduced in [src/README.md]

    Identity and timestamp comparison, the [latest]/[REGISTRY_TAG] probe and
    the stop/remove/create/start recreation. *)

Module V2.
Section Program.
Context {W : Type} `{Runtime W}.
Variable fl : Flags.
(** [time.Parse(time.RFC3339Nano, s)]: the instant, in nanoseconds since the
    epoch, or the parse error. *)
Variable time_Parse : string -> Result Z.
(** [json.Marshal] on an [AuthConfig] and [base64.URLEncoding.EncodeToString]. *)
Variable json_Marshal : AuthConfig -> string.
Variable base64_EncodeToString : string -> string.

(** [Time.After]: [t.After(u)] reports whether [t] is after [u]. *)
Definition After (t u : Z) : bool := u <? t.

Definition encodeAuth (auth : AuthConfig) : string :=
  base64_EncodeToString (json_Marshal auth).

(** The options [pullImageAndCheckUpdate] builds before its pull. *)
Definition pullOptions (authConfig : AuthConfig) (platform : string) : ImagePullOptions :=
  let opts := {| RegistryAuth := ""; Platform := "" |} in
  let opts :=
    if negb (String.eqb (Username authConfig) "") && negb (String.eqb (Password authConfig) "")
    then {| RegistryAuth := encodeAuth authConfig; Platform := Platform opts |}
    else opts in
  {| RegistryAuth := RegistryAuth opts; Platform := platform |}.

(** The comparison at the end of [pullImageAndCheckUpdate]
    ([if newImg.ID != currentImgID { ... } return false, nil]). *)
Definition compareImages (name currentImgID : string) (localImg newImg : ImageInspect)
  : M W (bool * option string) :=
  if negb (String.eqb (ii_ID newImg) currentImgID) then
    if negb (String.eqb (ii_Created localImg) "") && negb (String.eqb (ii_Created newImg) "") then
      match time_Parse (ii_Created localImg), time_Parse (ii_Created newImg) with
      | Success localTime, Success remoteTime =>
          if After remoteTime localTime then
            logVerbose fl "Image %s has newer push date (remote: %s > local: %s)"
              [VStr name; VTime remoteTime; VTime localTime] ;;;
            ret (true, None)
          else
            logVerbose fl "Remote image for %s is not newer (remote: %s <= local: %s)"
              [VStr name; VTime remoteTime; VTime localTime] ;;;
            ret (false, None)
      | _, _ => ret (false, None)
      end
    else ret (false, None)
  else ret (false, None).

Definition pullImageAndCheckUpdate (image : string) (authConfig : AuthConfig)
    (platform name notificationURL currentImgID : string) : M W (bool * option string) :=
  let opts := pullOptions authConfig platform in
  resp <- call (ImagePull image opts) (EvImagePull image opts) ;;
  match resp with
  | Failure e => ret (false, Some ("error pulling image: " +:+ e))
  | Success _ =>
      rn <- call (ImageInspectWithRaw image) (EvImageInspect image) ;;
      match rn with
      | Failure e => ret (false, Some ("inspect pulled image: " +:+ e))
      | Success newImg =>
          rl <- call (ImageInspectWithRaw currentImgID) (EvImageInspect currentImgID) ;;
          localImg <- match rl with
                      | Failure e =>
                          logWarn "Failed to inspect current image: %v" [VErr e] ;;;
                          ret zeroImageInspect
                      | Success i => ret i
                      end ;;
          compareImages name currentImgID localImg newImg
      end
  end.

Definition recreateContainer (containerID name notificationURL : string)
  : M W (option string) :=
  ri <- call (ContainerInspect containerID) (EvContainerInspect containerID) ;;
  match ri with
  | Failure e => ret (Some ("inspect failed: " +:+ e))
  | Success inspect =>
      let timeout := 10 in
      rs <- call (ContainerStop containerID timeout) (EvContainerStop containerID timeout) ;;
      match rs with
      | Failure e => ret (Some ("stop failed: " +:+ e))
      | Success _ =>
          rr <- call (ContainerRemove containerID) (EvContainerRemove containerID) ;;
          match rr with
          | Failure e => ret (Some ("remove failed: " +:+ e))
          | Success _ =>
              (* the arguments of [ContainerCreate] are evaluated in order:
                 [inspect.HostConfig] reads through the embedded base,
                 [inspect.NetworkSettings.Networks] through the settings *)
              match cj_Base inspect with
              | None => panic nilDereference
              | Some base =>
                  match cj_NetworkSettings inspect with
                  | None => panic nilDereference
                  | Some settings =>
                      rc <- call (ContainerCreate (cj_Config inspect) (cjb_HostConfig base)
                                    (ns_Networks settings) name)
                                 (EvContainerCreate (cj_Config inspect) (cjb_HostConfig base)
                                    (ns_Networks settings) name) ;;
                      match rc with
                      | Failure e => ret (Some ("create failed: " +:+ e))
                      | Success newID =>
                          rt <- call (ContainerStart newID) (EvContainerStart newID) ;;
                          match rt with
                          | Failure e => ret (Some ("start failed: " +:+ e))
                          | Success _ => ret None
                          end
                      end
                  end
              end
          end
      end
  end.

(** [parts[0]] of a [strings.Split]; the slice is never empty, see
    [Split_nonempty]. *)
Definition first_part (s : string) : string :=
  hd EmptyString (Strings.Split s ":").

(** The reference probed for [tag] (the [imageWithTag] of the tag loop). *)
Definition imageWithTag (image tag : string) : string :=
  if negb (Strings.Contains image ":") then image +:+ ":" +:+ tag
  else first_part image +:+ ":" +:+ tag.

(** [tagsToCheck] *)
Definition tagsToCheck (registryTag : string) : list string :=
  ["latest"] ++ (if negb (String.eqb registryTag "") then [registryTag] else []).

(** The block run when [updated] is true, before the [break]. *)
Definition retagAsLatest (registryTag tag imageWithTag : string) : M W unit :=
  if negb (String.eqb registryTag "") && String.eqb tag registryTag then
    let baseRepo := first_part imageWithTag in
    rt <- call (ImageTag imageWithTag (baseRepo +:+ ":latest"))
               (EvImageTag imageWithTag (baseRepo +:+ ":latest")) ;;
    match rt with
    | Failure e =>
        logWarn "Failed to retag %s as latest: %v" [VStr imageWithTag; VErr e]
    | Success _ =>
        logUpdate "Retagged %s as latest" [VStr imageWithTag] ;;;
        let ro := {| Force := true; PruneChildren := true |} in
        rr <- call (ImageRemove imageWithTag ro) (EvImageRemove imageWithTag ro) ;;
        match rr with
        | Failure e =>
            logWarn "Failed to remove old tag %s: %v" [VStr imageWithTag; VErr e]
        | Success _ => logUpdate "Removed old tag %s" [VStr imageWithTag]
        end
    end
  else ret tt.

(** [for _, tag := range tagsToCheck { ... }]; the result is [needsUpdate]. *)
Fixpoint probeTags (tags : list string) (image : string) (authConfig : AuthConfig)
    (platform name notificationURL registryTag currentImgID : string) : M W bool :=
  match tags with
  | [] => ret false
  | tag :: rest =>
      let ref := imageWithTag image tag in
      logVerbose fl "Checking container %s with tag %s" [VStr name; VStr tag] ;;;
      r <- pullImageAndCheckUpdate ref authConfig platform name notificationURL currentImgID ;;
      match r with
      | (_, Some e) =>
          logError "Error pulling %s (%s): %v" [VStr name; VStr tag; VErr e] ;;;
          probeTags rest image authConfig platform name notificationURL registryTag currentImgID
      | (true, None) =>
          retagAsLatest registryTag tag ref ;;;
          ret true
      | (false, None) =>
          probeTags rest image authConfig platform name notificationURL registryTag currentImgID
      end
  end.

(** The digest resolution both loops of [checkContainers] start with. *)
Definition resolveDigest (c : Container) : M W string :=
  if Strings.HasPrefix (c_Image c) "sha256:" then
    r <- call (ImageInspectWithRaw (c_ImageID c)) (EvImageInspect (c_ImageID c)) ;;
    match r with
    | Success imgInspect =>
        match ii_RepoTags imgInspect with
        | t0 :: _ =>
            logVerbose fl "Resolved digest %s to tag %s" [VStr (c_Image c); VStr t0] ;;;
            ret t0
        | [] => ret (c_Image c)
        end
    | Failure _ => ret (c_Image c)
    end
  else ret (c_Image c).

(** The first loop: count the eligible containers. *)
Fixpoint countEligible (containers : list Container) (registryURL user : string)
    (eligibleContainers : nat) : M W nat :=
  match containers with
  | [] => ret eligibleContainers
  | c :: rest =>
      imageName <- resolveDigest c ;;
      countEligible rest registryURL user
        (if Strings.Contains imageName registryURL || Strings.Contains imageName user
         then S eligibleContainers else eligibleContainers)
  end.

(** One iteration of the second loop; the result is [updatedContainers]. *)
Definition checkContainer (registryTag notificationURL : string) (authConfig : AuthConfig)
    (c : Container) (updatedContainers : nat) : M W nat :=
  match c_Names c with
  | [] => panic "runtime error: index out of range [0] with length 0"
  | n0 :: _ =>
      let name := Strings.TrimPrefix n0 "/" in
      image <- resolveDigest c ;;
      ri <- call (ImageInspectWithRaw (c_ImageID c)) (EvImageInspect (c_ImageID c)) ;;
      match ri with
      | Failure e =>
          logError "Error inspecting image for %s: %v" [VStr name; VErr e] ;;;
          ret updatedContainers
      | Success imgInspect =>
          let platform := ii_Os imgInspect +:+ "/" +:+ ii_Architecture imgInspect in
          needsUpdate <- probeTags (tagsToCheck registryTag) image authConfig platform name
                           notificationURL registryTag (c_ImageID c) ;;
          if negb needsUpdate then
            logVerbose fl "No updates needed for %s" [VStr name] ;;;
            ret updatedContainers
          else
            logUpdate "Updating container %s with new image" [VStr name] ;;;
            err <- recreateContainer (c_ID c) name notificationURL ;;
            match err with
            | Some e =>
                logError "Error recreating container %s: %v" [VStr name; VErr e] ;;;
                ret updatedContainers
            | None =>
                let msg := "Successfully updated " +:+ name in
                logUpdate msg [] ;;;
                notify fl notificationURL msg ;;;
                pruneImages fl notificationURL ;;;
                ret (S updatedContainers)
            end
      end
  end.

(** The second loop. *)
Fixpoint checkLoop (containers : list Container) (registryTag notificationURL : string)
    (authConfig : AuthConfig) (updatedContainers : nat) : M W nat :=
  match containers with
  | [] => ret updatedContainers
  | c :: rest =>
      u <- checkContainer registryTag notificationURL authConfig c updatedContainers ;;
      checkLoop rest registryTag notificationURL authConfig u
  end.

(** [authConfig] as [checkContainers] builds it. *)
Definition makeAuthConfig (registryURL user pass : string) : AuthConfig :=
  if negb (String.eqb user "") && negb (String.eqb pass "") then
    let authConfig := {| Username := user; Password := pass; ServerAddress := registryURL |} in
    if String.eqb registryURL "" || String.eqb registryURL "docker.io"
       || String.eqb registryURL "https://docker.io"
    then {| Username := Username authConfig; Password := Password authConfig;
            ServerAddress := "https://index.docker.io/v1/" |}
    else authConfig
  else zeroAuthConfig.

Definition listOptions : ContainerListOptions :=
  {| All := true;
     Filters := if labelEnable fl then [("label", enableLabel +:+ "=true")] else [] |}.

Definition checkContainers (registryURL user pass registryTag notificationURL : string)
  : M W (option string) :=
  rc <- call (ContainerList listOptions) (EvContainerList listOptions) ;;
  match rc with
  | Failure e => ret (Some ("error listing containers: " +:+ e))
  | Success containers =>
      eligibleContainers <- countEligible containers registryURL user 0%nat ;;
      logVerbose fl "Found %d total containers, %d eligible for updates"
        [VInt (Z.of_nat (length containers)); VInt (Z.of_nat eligibleContainers)] ;;;
      if (eligibleContainers =? 0)%nat then
        logVerbose fl "No eligible containers found, skipping check" [] ;;;
        ret None
      else
        let authConfig := makeAuthConfig registryURL user pass in
        let skippedContainers := 0%nat in
        updatedContainers <- checkLoop containers registryTag notificationURL authConfig 0%nat ;;
        (if (0 <? eligibleContainers)%nat then
           if (0 <? updatedContainers)%nat then
             logInfo fl "Check completed: %d containers updated, %d skipped"
               [VInt (Z.of_nat updatedContainers); VInt (Z.of_nat skippedContainers)]
           else
             logVerbose fl "Check completed: no updates needed for %d containers"
               [VInt (Z.of_nat eligibleContainers)]
         else ret tt) ;;;
        ret None
  end.

(** One call of [checkContainers] from [main], with its error report. *)
Definition runCheck (getenv : string -> string) (what : string) : M W unit :=
  let registryUser := getenv "REGISTRY_USERNAME" in
  let registryPass := getenv "REGISTRY_PASSWORD" in
  let registryURL := getenv "REGISTRY_URL" in
  let registryTag := getenv "REGISTRY_TAG" in
  let notificationURL := getenv "NOTIFICATION_URL" in
  err <- checkContainers registryURL registryUser registryPass registryTag notificationURL ;;
  match err with
  | Some e =>
      logError (what +:+ ": %v") [VErr e] ;;;
      notify fl notificationURL (what +:+ ": " +:+ e)
  | None => ret tt
  end.

(** [for range ticker.C { ... }]: the loop has no exit; after [ticks]
    firings the model stops with [OutOfFuel], the process still running. *)
Fixpoint tickerLoop (getenv : string -> string) (ticks : nat) : M W unit :=
  match ticks with
  | O => out_of_fuel
  | S n => runCheck getenv "Error in check cycle" ;;; tickerLoop getenv n
  end.

Definition main (getenv : string -> string) (ticks : nat) : M W unit :=
  let registryTag := getenv "REGISTRY_TAG" in
  let notificationURL := getenv "NOTIFICATION_URL" in
  rcli <- call NewClientWithOpts EvNewClient ;;
  match rcli with
  | Failure e => logFatal "Error creating Docker client: %v" [VErr e]
  | Success _ =>
      logInfo fl "Starting puller service with interval: %ds" [VInt (interval fl)] ;;;
      logInfo fl "Cleanup enabled: %v" [VBool (cleanup fl)] ;;;
      logInfo fl "Label filtering enabled: %v" [VBool (labelEnable fl)] ;;;
      (if verbose fl then logInfo fl "Verbose logging enabled" [] else ret tt) ;;;
      (if quiet fl
       then logInfo fl "Quiet mode enabled - only errors and updates will be shown" []
       else ret tt) ;;;
      (if negb (String.eqb notificationURL "")
       then logInfo fl "Notifications enabled: %s" [VStr notificationURL] else ret tt) ;;;
      (if negb (String.eqb registryTag "")
       then logInfo fl "Additional registry tag to check: %s" [VStr registryTag]
       else ret tt) ;;;
      newTicker fl ;;;
      runCheck getenv "Error in initial check" ;;;
      tickerLoop getenv ticks
  end.

End Program.
End V2.

(** ** Revision 1: [src/main.go]

    The pull stream decides ([Downloaded newer image]), with a fallback pull
    on [linux/amd64], and the container is restarted in place. *)

Module V1.
Section Program.
Context {W : Type} `{Runtime W}.
Variable fl : Flags.
Variable json_Marshal : AuthConfig -> string.
Variable base64_EncodeToString : string -> string.

Definition encodeAuth (auth : AuthConfig) : string :=
  base64_EncodeToString (json_Marshal auth).

(** The decode loop of [pullImageAndCheckUpdate]. [stream] is what is left of
    the response being decoded and [needsUpdate] the loop's variable; every
    iteration takes one unit of [fuel], since a fallback pull replaces the
    response by a new one. *)
Fixpoint decodeLoop (fuel : nat) (stream : list StreamItem) (needsUpdate : bool)
    (image : string) (authConfig : AuthConfig) (name : string)
  : M W (bool * option string) :=
  match fuel with
  | O => out_of_fuel
  | S fuel' =>
      match stream with
      | [] => ret (needsUpdate, None)
      | Undecodable e :: _ =>
          logVerbose fl "Error decoding pull status: %v" [VErr e] ;;;
          ret (needsUpdate, None)
      | Decoded status error :: rest =>
          if negb (String.eqb error "") then
            logWarn "Pull error: %s" [VStr error] ;;;
            if Strings.Contains error "no matching manifest" then
              logVerbose fl "Trying fallback to linux/amd64 for %s" [VStr name] ;;;
              let opts := {| RegistryAuth := encodeAuth authConfig;
                             Platform := "linux/amd64" |} in
              r <- call (ImagePull image opts) (EvImagePull image opts) ;;
              match r with
              | Failure e => ret (false, Some ("error pulling image (fallback): " +:+ e))
              | Success resp => decodeLoop fuel' resp needsUpdate image authConfig name
              end
            else decodeLoop fuel' rest needsUpdate image authConfig name
          else if Strings.Contains status "Downloaded newer image" then
            logVerbose fl "New image downloaded for %s" [VStr name] ;;;
            decodeLoop fuel' rest true image authConfig name
          else decodeLoop fuel' rest needsUpdate image authConfig name
      end
  end.

Definition pullImageAndCheckUpdate (fuel : nat) (image : string) (authConfig : AuthConfig)
    (platform name notificationURL : string) : M W (bool * option string) :=
  let opts := {| RegistryAuth := encodeAuth authConfig; Platform := platform |} in
  r <- call (ImagePull image opts) (EvImagePull image opts) ;;
  match r with
  | Failure e => ret (false, Some ("error pulling image: " +:+ e))
  | Success resp => decodeLoop fuel resp false image authConfig name
  end.

(** The first loop: count the eligible containers. *)
Fixpoint countEligible (containers : list Container) (registryURL : string)
    (eligibleContainers : nat) : nat :=
  match containers with
  | [] => eligibleContainers
  | c :: rest =>
      countEligible rest registryURL
        (if Strings.Contains (c_Image c) registryURL
         then S eligibleContainers else eligibleContainers)
  end.

(** One iteration of the second loop; the result is the pair
    [(updatedContainers, skippedContainers)]. *)
Definition checkContainer (fuel : nat) (registryURL notificationURL : string)
    (authConfig : AuthConfig) (c : Container) (counters : nat * nat) : M W (nat * nat) :=
  let '(updatedContainers, skippedContainers) := counters in
  let image := c_Image c in
  match c_Names c with
  | [] => panic "runtime error: index out of range [0] with length 0"
  | name :: _ =>
      if negb (Strings.Contains image registryURL) then
        logVerbose fl "Skipping %s (%s): not from our registry" [VStr name; VStr image] ;;;
        ret (updatedContainers, S skippedContainers)
      else
        ri <- call (ImageInspectWithRaw (c_ImageID c)) (EvImageInspect (c_ImageID c)) ;;
        match ri with
        | Failure e =>
            logError "Error inspecting image for %s: %v" [VStr name; VErr e] ;;;
            ret counters
        | Success imgInspect =>
            let platform := ii_Os imgInspect +:+ "/" +:+ ii_Architecture imgInspect in
            logVerbose fl "Checking container %s (%s) with platform %s"
              [VStr name; VStr image; VStr platform] ;;;
            r <- pullImageAndCheckUpdate fuel image authConfig platform name notificationURL ;;
            match r with
            | (_, Some e) =>
                logError "Error checking updates for %s: %v" [VStr name; VErr e] ;;;
                ret counters
            | (false, None) =>
                logVerbose fl "No updates needed for %s" [VStr name] ;;;
                ret counters
            | (true, None) =>
                logUpdate "Restarting container %s with new image" [VStr name] ;;;
                let seconds := 10 in
                rr <- call (ContainerRestart (c_ID c) seconds)
                           (EvContainerRestart (c_ID c) seconds) ;;
                match rr with
                | Failure e =>
                    let msg := "Error restarting " +:+ name +:+ ": " +:+ e in
                    logError msg [] ;;;
                    notify fl notificationURL msg ;;;
                    ret counters
                | Success _ =>
                    let msg := "Successfully updated " +:+ name in
                    notify fl notificationURL msg ;;;
                    logUpdate msg [] ;;;
                    pruneImages fl notificationURL ;;;
                    ret (S updatedContainers, skippedContainers)
                end
            end
        end
  end.

(** The second loop. *)
Fixpoint checkLoop (fuel : nat) (containers : list Container)
    (registryURL notificationURL : string) (authConfig : AuthConfig)
    (counters : nat * nat) : M W (nat * nat) :=
  match containers with
  | [] => ret counters
  | c :: rest =>
      k <- checkContainer fuel registryURL notificationURL authConfig c counters ;;
      checkLoop fuel rest registryURL notificationURL authConfig k
  end.

Definition listOptions : ContainerListOptions :=
  {| All := true;
     Filters := if labelEnable fl then [("label", enableLabel)] else [] |}.

Definition checkContainers (fuel : nat) (registryURL user pass notificationURL : string)
  : M W (option string) :=
  rc <- call (ContainerList listOptions) (EvContainerList listOptions) ;;
  match rc with
  | Failure e => ret (Some ("error listing containers: " +:+ e))
  | Success containers =>
      let eligibleContainers := countEligible containers registryURL 0%nat in
      logVerbose fl "Found %d total containers, %d eligible for updates"
        [VInt (Z.of_nat (length containers)); VInt (Z.of_nat eligibleContainers)] ;;;
      if (eligibleContainers =? 0)%nat then
        logVerbose fl "No containers from registry %s found, skipping check"
          [VStr registryURL] ;;;
        ret None
      else
        let authConfig := {| Username := user; Password := pass;
                             ServerAddress := registryURL |} in
        k <- checkLoop fuel containers registryURL notificationURL authConfig (0%nat, 0%nat) ;;
        let '(updatedContainers, skippedContainers) := k in
        (if (0 <? eligibleContainers)%nat then
           if (0 <? updatedContainers)%nat then
             logInfo fl "Check completed: %d containers updated, %d skipped"
               [VInt (Z.of_nat updatedContainers); VInt (Z.of_nat skippedContainers)]
           else
             logVerbose fl "Check completed: no updates needed for %d containers"
               [VInt (Z.of_nat eligibleContainers)]
         else ret tt) ;;;
        ret None
  end.

(** One call of [checkContainers] from [main], with its error report. *)
Definition runCheck (fuel : nat) (getenv : string -> string) (what : string) : M W unit :=
  let registryUser := getenv "REGISTRY_USERNAME" in
  let registryPass := getenv "REGISTRY_PASSWORD" in
  let registryURL := getenv "REGISTRY_URL" in
  let notificationURL := getenv "NOTIFICATION_URL" in
  err <- checkContainers fuel registryURL registryUser registryPass notificationURL ;;
  match err with
  | Some e =>
      logError (what +:+ ": %v") [VErr e] ;;;
      notify fl notificationURL (what +:+ ": " +:+ e)
  | None => ret tt
  end.

(** [for range ticker.C { ... }], see [V2.tickerLoop]. *)
Fixpoint tickerLoop (fuel : nat) (getenv : string -> string) (ticks : nat) : M W unit :=
  match ticks with
  | O => out_of_fuel
  | S n => runCheck fuel getenv "Error in check cycle" ;;; tickerLoop fuel getenv n
  end.

Definition main (fuel : nat) (getenv : string -> string) (ticks : nat) : M W unit :=
  let registryUser := getenv "REGISTRY_USERNAME" in
  let registryPass := getenv "REGISTRY_PASSWORD" in
  let notificationURL := getenv "NOTIFICATION_URL" in
  if String.eqb registryUser "" || String.eqb registryPass "" then
    logFatal "REGISTRY_USERNAME and REGISTRY_PASSWORD must be set" []
  else
    rcli <- call NewClientWithOpts EvNewClient ;;
    match rcli with
    | Failure e => logFatal "Error creating Docker client: %v" [VErr e]
    | Success _ =>
        logInfo fl "Starting puller service with interval: %ds" [VInt (interval fl)] ;;;
        logInfo fl "Cleanup enabled: %v" [VBool (cleanup fl)] ;;;
        logInfo fl "Label filtering enabled: %v" [VBool (labelEnable fl)] ;;;
        (if verbose fl then logInfo fl "Verbose logging enabled" [] else ret tt) ;;;
        (if quiet fl
         then logInfo fl "Quiet mode enabled - only errors and updates will be shown" []
         else ret tt) ;;;
        (if negb (String.eqb notificationURL "")
         then logInfo fl "Notifications enabled: %s" [VStr notificationURL] else ret tt) ;;;
        newTicker fl ;;;
        runCheck fuel getenv "Error in initial check" ;;;
        tickerLoop fuel getenv ticks
    end.

End Program.
End V1.

(** ** Reading a log of events *)

Definition is_fallback_pull (e : Event) : bool :=
  match e with
  | EvImagePull _ opts _ => String.eqb (Platform opts) "linux/amd64"
  | _ => false
  end.

Definition is_prune (e : Event) : bool :=
  match e with EvImagesPrune _ => true | _ => false end.

(** The line [logUpdate(msg)] prints for [msg = "Successfully updated <name>"]. *)
Definition is_success_log (e : Event) : bool :=
  match e with
  | EvLog format [] => Strings.HasPrefix format "[UPDATE] Successfully updated "
  | _ => false
  end.

(** The success notification posted to the notification URL. *)
Definition is_success_post (e : Event) : bool :=
  match e with
  | EvHttpPost _ _ body _ => Strings.HasPrefix body "Successfully updated "
  | _ => false
  end.

Definition count_ev (p : Event -> bool) (evs : list Event) : nat :=
  length (List.filter p evs).

(** The references pulled, in order. *)
Fixpoint pull_refs (evs : list Event) : list string :=
  match evs with
  | [] => []
  | EvImagePull ref _ _ :: rest => ref :: pull_refs rest
  | _ :: rest => pull_refs rest
  end.

(** A pull that carries no auth payload. *)
Definition anonymous (e : Event) : Prop :=
  match e with
  | EvImagePull _ opts _ => RegistryAuth opts = EmptyString
  | _ => True
  end.

(** The configurations containers were created with, in order. *)
Fixpoint created_configs (evs : list Event) : list Config :=
  match evs with
  | [] => []
  | EvContainerCreate cfg _ _ _ _ :: rest => cfg :: created_configs rest
  | _ :: rest => created_configs rest
  end.

(** The configurations the successful container inspections returned. *)
Fixpoint snapshot_configs (evs : list Event) : list Config :=
  match evs with
  | [] => []
  | EvContainerInspect _ (Success j) :: rest => cj_Config j :: snapshot_configs rest
  | _ :: rest => snapshot_configs rest
  end.

(** The value [ImageInspectWithRaw] leaves in its first result. *)
Definition inspected (r : Result ImageInspect) : ImageInspect :=
  match r with Success i => i | Failure _ => zeroImageInspect end.

(** A log without pulls. *)
Definition no_pull (evs : list Event) : Prop := pull_refs evs = [].

(** A log in which every pull is anonymous. *)
Definition all_anonymous (evs : list Event) : Prop := Forall anonymous evs.

(** A log with neither a prune request nor a success line. *)
Definition neutral (evs : list Event) : Prop :=
  count_ev is_prune evs = 0%nat /\ count_ev is_success_log evs = 0%nat.

(** A log with one prune request per success line when cleanup is on, and
    with none when it is off. *)
Definition balanced (fl : Flags) (evs : list Event) : Prop :=
  count_ev is_prune evs = if cleanup fl then count_ev is_success_log evs else 0%nat.

(** The options of the [ImageRemove] of the retag block, and the events of
    that block once [ImageTag] answered [rt] and [ImageRemove] answered [rr]. *)
Definition removeOptions : ImageRemoveOptions := {| Force := true; PruneChildren := true |}.

Definition retagEvents (ref : string) (rt rr : Result unit) : list Event :=
  EvImageTag ref (V2.first_part ref +:+ ":latest") rt ::
  match rt with
  | Failure e => [EvLog "[WARN] Failed to retag %s as latest: %v" [VStr ref; VErr e]]
  | Success _ =>
      [EvLog "[UPDATE] Retagged %s as latest" [VStr ref];
       EvImageRemove ref removeOptions rr;
       match rr with
       | Failure e => EvLog "[WARN] Failed to remove old tag %s: %v" [VStr ref; VErr e]
       | Success _ => EvLog "[UPDATE] Removed old tag %s" [VStr ref]
       end]
  end.


Definition checked2 (c : Container) (evs : list Event) : Prop :=
  (exists e, In (EvImageInspect (c_ImageID c) (Failure e)) evs) \/
  (exists image opts r,
     In (EvImagePull (V2.imageWithTag image "latest") opts r) evs /\
     (image = c_Image c \/
      exists i ts, In (EvImageInspect (c_ImageID c) (Success i)) evs /\
                   ii_RepoTags i = image :: ts)).

(** [repo] is the repository of the reference [image]: the reference itself
    when it carries no tag, or what precedes its tag. *)
Definition repository_of (image repo : string) : Prop :=
  Strings.Contains repo ":" = false /\
  (image = repo \/ exists tag, image = repo +:+ ":" +:+ tag).

(** How a computation ended, without its result. *)
Inductive Ending :=
| Returned
| Panics (msg : string)
| Exits (code : Z)
| Starves.

Definition ending {A} (o : Outcome A) : Ending :=
  match o with
  | Done _ => Returned
  | Panicked msg => Panics msg
  | Exited c => Exits c
  | OutOfFuel => Starves
  end.

Definition any_end (e : Ending) : Prop := True.

(** The process was not ended by [os.Exit]. *)
Definition not_exited (e : Ending) : Prop :=
  match e with Exits _ => False | _ => True end.

(** [m], from any state of the world, emits a log that satisfies [P] and ends
    in a way that satisfies [O]. *)
Definition produces {W A} (P : list Event -> Prop) (O : Ending -> Prop) (m : M W A) : Prop :=
  forall w, P (events (m w)) /\ O (ending (outcome (m w))).

Abbreviation emits P := (produces P any_end).

Class LogInvariant (P : list Event -> Prop) (O : Ending -> Prop) : Prop := {
  inv_nil : P [];
  inv_app : forall a b, P a -> P b -> P (a ++ b);
  inv_done : O Returned
}.

(** ** A scripted runtime, for running the program on concrete inputs *)

Module Sim.

Record World := {
  containers : Result (list Container);
  images : list (string * ImageInspect);
  pulls : list (Result (list StreamItem));
  tagResult : Result unit;
  removeResult : Result unit;
  inspects : list (string * ContainerJSON);
  postResult : Result Z
}.

Fixpoint lookup {A} (k : string) (l : list (string * A)) : option A :=
  match l with
  | [] => None
  | (k', v) :: rest => if String.eqb k k' then Some v else lookup k rest
  end.

(** The next scripted pull response; an empty script answers with an empty
    stream. *)
Definition nextPull (w : World) : Result (list StreamItem) * World :=
  match pulls w with
  | [] => (Success [], w)
  | r :: q =>
      (r, {| containers := containers w; images := images w; pulls := q;
             tagResult := tagResult w; removeResult := removeResult w;
             inspects := inspects w; postResult := postResult w |})
  end.

#[export] Instance runtime : Runtime World := {
  NewClientWithOpts w := (Success tt, w);
  ContainerList _ w := (containers w, w);
  ImageInspectWithRaw ref w :=
    (match lookup ref (images w) with
     | Some i => Success i
     | None => Failure ("No such image: " +:+ ref)
     end, w);
  ImagePull _ _ w := nextPull w;
  ImageTag _ _ w := (tagResult w, w);
  ImageRemove _ _ w := (removeResult w, w);
  ContainerInspect id w :=
    (match lookup id (inspects w) with
     | Some j => Success j
     | None => Failure ("No such container: " +:+ id)
     end, w);
  ContainerStop _ _ w := (Success tt, w);
  ContainerRemove _ w := (Success tt, w);
  ContainerCreate _ _ _ name w := (Success ("new-" +:+ name), w);
  ContainerStart _ w := (Success tt, w);
  ContainerRestart _ _ w := (Success tt, w);
  ImagesPrune w := (Success {| ImagesDeleted := []; SpaceReclaimed := 0 |}, w);
  http_Post _ _ _ w := (postResult w, w)
}.

(** A registry that answers every pull, on any platform, with a manifest
    mismatch. *)
Inductive Stubborn := stubborn.

Definition mismatch : list StreamItem :=
  [Decoded "" "no matching manifest for linux/arm64 in the manifest list entries"].

#[export] Instance stubborn_runtime : Runtime Stubborn := {
  NewClientWithOpts w := (Success tt, w);
  ContainerList _ w := (Success [], w);
  ImageInspectWithRaw ref w := (Failure ("No such image: " +:+ ref), w);
  ImagePull _ _ w := (Success mismatch, w);
  ImageTag _ _ w := (Success tt, w);
  ImageRemove _ _ w := (Success tt, w);
  ContainerInspect id w := (Failure ("No such container: " +:+ id), w);
  ContainerStop _ _ w := (Success tt, w);
  ContainerRemove _ w := (Success tt, w);
  ContainerCreate _ _ _ name w := (Success ("new-" +:+ name), w);
  ContainerStart _ w := (Success tt, w);
  ContainerRestart _ _ w := (Success tt, w);
  ImagesPrune w := (Success {| ImagesDeleted := []; SpaceReclaimed := 0 |}, w);
  http_Post _ _ _ w := (Success 200, w)
}.

(** Flags and library functions of the concrete runs. *)
Definition flags (c : bool) : Flags :=
  {| interval := 30; cleanup := c; labelEnable := false; verbose := false; quiet := false |}.

(** Two instants the concrete runs use, as [time.Parse] would read them. *)
Definition parse (s : string) : Result Z :=
  if String.eqb s "2024-01-01T00:00:00Z" then Success 1704067200000000000
  else if String.eqb s "2024-06-01T00:00:00Z" then Success 1717200000000000000
  else Failure ("parsing time " +:+ s).

Definition marshal (a : AuthConfig) : string :=
  "{" +:+ Username a +:+ "," +:+ Password a +:+ "," +:+ ServerAddress a +:+ "}".

Definition encode (s : string) : string := "b64:" +:+ s.

Definition image (id created : string) : ImageInspect :=
  {| ii_ID := id; ii_RepoTags := []; ii_Os := "linux"; ii_Architecture := "arm64";
     ii_Created := created |}.

Definition snapshot (name img : string) : ContainerJSON :=
  {| cj_Base :=
       Some {| cjb_Name := "/" +:+ name;
               cjb_HostConfig := {| hc_Binds := ["/data:/data"]; hc_Mounts := [];
                                    hc_NetworkMode := "bridge";
                                    hc_RestartPolicy := "always" |} |};
     cj_Config := {| cfg_Image := img; cfg_Env := ["MODE=prod"]; cfg_Cmd := ["serve"];
                     cfg_Labels := ∅ |};
     cj_NetworkSettings := Some {| ns_Networks := ∅ |} |}.

Definition app : Container :=
  {| c_ID := "c1"; c_Names := ["/app"]; c_Image := "registry.example.com/app:1.2";
     c_ImageID := "sha256:old" |}.

Definition redis : Container :=
  {| c_ID := "c2"; c_Names := ["/redis"]; c_Image := "redis"; c_ImageID := "sha256:r-old" |}.

(** A daemon with [app] and [redis], for both of which [latest] resolves to
    a newer build. *)
Definition world0 : World :=
  {| containers := Success [app; redis];
     images := [("sha256:old", image "sha256:old" "2024-01-01T00:00:00Z");
                ("registry.example.com/app:latest", image "sha256:new" "2024-06-01T00:00:00Z");
                ("registry.example.com/app:canary", image "sha256:new" "2024-06-01T00:00:00Z");
                ("sha256:r-old", image "sha256:r-old" "2024-01-01T00:00:00Z");
                ("redis:latest", image "sha256:r-new" "2024-06-01T00:00:00Z")];
     pulls := [];
     tagResult := Success tt;
     removeResult := Success tt;
     inspects := [("c1", snapshot "app" "registry.example.com/app:1.2");
                  ("c2", snapshot "redis" "redis")];
     postResult := Success 200 |}.


Definition with_pulls (q : list (Result (list StreamItem))) (w : World) : World :=
  {| containers := containers w; images := images w; pulls := q;
     tagResult := tagResult w; removeResult := removeResult w;
     inspects := inspects w; postResult := postResult w |}.


(** A daemon for which [latest] still is the running build of [app] and only
    [canary] is newer, and on which [ImageTag] fails. *)
Definition world_canary : World :=
  {| containers := Success [app];
     images := [("sha256:old", image "sha256:old" "2024-01-01T00:00:00Z");
                ("registry.example.com/app:latest", image "sha256:old" "2024-01-01T00:00:00Z");
                ("registry.example.com/app:canary", image "sha256:new" "2024-06-01T00:00:00Z")];
     pulls := [];
     tagResult := Failure "no such image";
     removeResult := Success tt;
     inspects := [("c1", snapshot "app" "registry.example.com/app:1.2")];
     postResult := Success 200 |}.



(** A registry that has no manifest for [linux/arm64] nor, at first, for
    [linux/amd64]. *)
Definition world_mismatch : World :=
  with_pulls [Success mismatch; Success mismatch; Success []] world0.

Definition env (user : string) (k : string) : string :=
  if String.eqb k "REGISTRY_URL" then "registry.example.com"
  else if String.eqb k "REGISTRY_USERNAME" then user
  else if String.eqb k "REGISTRY_PASSWORD" then "secret"
  else if String.eqb k "NOTIFICATION_URL" then "http://hook"
  else "".

End Sim.

(** ** Further readings of a log *)

Definition is_log (e : Event) : bool :=
  match e with EvLog _ _ => true | _ => false end.

(** The calls made to the runtime and to the notification URL, without the
    log lines. *)
Definition calls (evs : list Event) : list Event :=
  List.filter (fun e => negb (is_log e)) evs.

Definition is_post (e : Event) : bool :=
  match e with EvHttpPost _ _ _ _ => true | _ => false end.

Definition is_list (e : Event) : bool :=
  match e with EvContainerList _ _ => true | _ => false end.

(** An [[INFO]] or [[VERBOSE]] line. *)
Definition is_chatter (e : Event) : bool :=
  match e with
  | EvLog format _ =>
      Strings.HasPrefix format "[INFO] " || Strings.HasPrefix format "[VERBOSE] "
  | _ => false
  end.

Definition is_verbose_line (e : Event) : bool :=
  match e with
  | EvLog format _ => Strings.HasPrefix format "[VERBOSE] "
  | _ => false
  end.

(** The format [main] passes to [logInfo] when [*quiet] is set. *)
Definition quietBanner : string :=
  "Quiet mode enabled - only errors and updates will be shown".

(** The bodies of the notifications a tick sends: revision 2 reports an
    update and a failed prune, revision 1 a failed restart as well. *)
Inductive notice2 : string -> Prop :=
| notice2_success (name : string) : notice2 ("Successfully updated " +:+ name)
| notice2_prune (e : string) : notice2 ("Error pruning old images: " +:+ e).

Inductive notice1 : string -> Prop :=
| notice1_success (name : string) : notice1 ("Successfully updated " +:+ name)
| notice1_prune (e : string) : notice1 ("Error pruning old images: " +:+ e)
| notice1_restart (name e : string) :
    notice1 ("Error restarting " +:+ name +:+ ": " +:+ e).

(** A property [Q] of single events and a property [O] of endings that the
    steps of a tick admit: the log lines each level can print under the
    flags [fl], every call to the runtime, a post to [url] (not empty) of a
    body in [N], a pull with options in [K], and a normal return. *)
Record Admits (fl : Flags) (url : string) (N : string -> Prop)
    (K : ImagePullOptions -> Prop) (Q : Event -> Prop) (O : Ending -> Prop) : Prop := {
  adm_info : forall format v,
    quiet fl = false -> format <> quietBanner -> Q (EvLog ("[INFO] " +:+ format) v);
  adm_verbose : forall format v,
    verbose fl = true -> quiet fl = false -> Q (EvLog ("[VERBOSE] " +:+ format) v);
  adm_warn : forall format v, Q (EvLog ("[WARN] " +:+ format) v);
  adm_error : forall format v, Q (EvLog ("[ERROR] " +:+ format) v);
  adm_update : forall format v, Q (EvLog ("[UPDATE] " +:+ format) v);
  adm_inspect : forall ref r, Q (EvImageInspect ref r);
  adm_pull : forall ref opts r, K opts -> Q (EvImagePull ref opts r);
  adm_tag : forall src target r, Q (EvImageTag src target r);
  adm_remove : forall ref opts r, Q (EvImageRemove ref opts r);
  adm_cinspect : forall id r, Q (EvContainerInspect id r);
  adm_stop : forall id timeout r, Q (EvContainerStop id timeout r);
  adm_cremove : forall id r, Q (EvContainerRemove id r);
  adm_create : forall cfg hc nets name r, Q (EvContainerCreate cfg hc nets name r);
  adm_start : forall id r, Q (EvContainerStart id r);
  adm_restart : forall id timeout r, Q (EvContainerRestart id timeout r);
  adm_prune : forall r, Q (EvImagesPrune r);
  adm_post : forall body r,
    url <> "" -> N body -> Q (EvHttpPost url "text/plain" body r);
  adm_done : O Returned
}.

(** Flags of further concrete runs: [--quiet --verbose --cleanup]. *)
Definition quiet_flags : Flags :=
  {| interval := 30; cleanup := true; labelEnable := false; verbose := true; quiet := true |}.

(** An environment with credentials and no notification URL. *)
Definition silent_env (k : string) : string :=
  if String.eqb k "REGISTRY_URL" then "registry.example.com"
  else if String.eqb k "REGISTRY_USERNAME" then "alice"
  else if String.eqb k "REGISTRY_PASSWORD" then "secret"
  else "".

(** A post to [url] with content type [text/plain] and a body in [N]. *)
Definition post_to (url : string) (N : string -> Prop) (e : Event) : Prop :=
  match e with
  | EvHttpPost u contentType body _ => u = url /\ contentType = "text/plain" /\ N body
  | _ => True
  end.

(** A pull whose auth payload is [payload]. *)
Definition pull_with (payload : string) (e : Event) : Prop :=
  match e with
  | EvImagePull _ opts _ => RegistryAuth opts = payload
  | _ => True
  end.

(** A container the counting loop of revision 2 finds eligible without
    looking its image up: its reference is not a digest and contains the
    registry URL or the user name. *)
Definition plainly_eligible (registryURL user : string) (c : Container) : Prop :=
  Strings.HasPrefix (c_Image c) "sha256:" = false /\
  (Strings.Contains (c_Image c) registryURL = true \/
   Strings.Contains (c_Image c) user = true).

(** ** The pull stream of revision 1 *)

(** A stream message that makes the decode loop pull again. *)
Definition is_mismatch (item : StreamItem) : bool :=
  match item with
  | Decoded _ error => Strings.Contains error "no matching manifest"
  | Undecodable _ => false
  end.

(** A decoded message that does not. *)
Definition is_plain (item : StreamItem) : bool :=
  match item with
  | Decoded _ error => negb (Strings.Contains error "no matching manifest")
  | Undecodable _ => false
  end.

(** Whether a stream without mismatch tells of a newer image: some message
    read before the first undecodable one carries no error and a status that
    contains [Downloaded newer image]. *)
Fixpoint reportsNewer (stream : list StreamItem) : bool :=
  match stream with
  | [] => false
  | Undecodable _ :: _ => false
  | Decoded status error :: rest =>
      (String.eqb error "" && Strings.Contains status "Downloaded newer image")
      || reportsNewer rest
  end.

(** The options of the fallback pull. *)
Definition fallbackOptions (payload : string) : ImagePullOptions :=
  {| RegistryAuth := payload; Platform := "linux/amd64" |}.

(** ** The steps of a recreation *)

(** The step of [recreateContainer] a call belongs to. *)
Definition step_of (e : Event) : option string :=
  match e with
  | EvContainerInspect _ _ => Some "inspect"
  | EvContainerStop _ _ _ => Some "stop"
  | EvContainerRemove _ _ => Some "remove"
  | EvContainerCreate _ _ _ _ _ => Some "create"
  | EvContainerStart _ _ => Some "start"
  | _ => None
  end.

(** The error a call ended with, if it failed. *)
Definition failure_of (e : Event) : option string :=
  match e with
  | EvNewClient (Failure e)
  | EvContainerList _ (Failure e)
  | EvImageInspect _ (Failure e)
  | EvImagePull _ _ (Failure e)
  | EvImageTag _ _ (Failure e)
  | EvImageRemove _ _ (Failure e)
  | EvContainerInspect _ (Failure e)
  | EvContainerStop _ _ (Failure e)
  | EvContainerRemove _ (Failure e)
  | EvContainerCreate _ _ _ _ (Failure e)
  | EvContainerStart _ (Failure e)
  | EvContainerRestart _ _ (Failure e)
  | EvImagesPrune (Failure e)
  | EvHttpPost _ _ _ (Failure e) => Some e
  | _ => None
  end.

Definition recreation_steps : list string :=
  ["inspect"; "stop"; "remove"; "create"; "start"].

(** A container none of the two tests of the first loop of revision 2 can
    match: its reference is not in digest form and contains neither the
    registry URL nor the user name. *)
Definition plainly_foreign (registryURL user : string) (c : Container) : Prop :=
  Strings.HasPrefix (c_Image c) "sha256:" = false /\
  Strings.Contains (c_Image c) registryURL = false /\
  Strings.Contains (c_Image c) user = false.

(** The durations [time.NewTicker] refuses: the seconds of the flag whose
    product with [time.Second], taken in [int64], is not positive. The first
    range is that of the flag values that are not positive themselves, the
    second that of the values whose product wraps around once. *)
Definition refused_interval (seconds : Z) : Prop :=
  -9223372036 <= seconds <= 0 \/ 9223372037 <= seconds <= 18446744073.

(** ** The summary of a tick *)

(** The test by which the second loop of revision 1 skips a container. *)
Definition foreign1 (registryURL : string) (c : Container) : bool :=
  negb (Strings.Contains (c_Image c) registryURL).

(** The number of success lines of a log. *)
Definition successes (evs : list Event) : nat := count_ev is_success_log evs.

Definition summaryFormat : string := "Check completed: %d containers updated, %d skipped".

(** ** Listings *)

(** A listing made with the options [opts]. *)
Definition lists_with (opts : ContainerListOptions) (e : Event) : Prop :=
  match e with
  | EvContainerList o _ => o = opts
  | _ => True
  end.

(** The options of the listings of a run: every container, running or not,
    and the label filter [filter] when label filtering is on. *)
Definition listing (fl : Flags) (filter : string) : ContainerListOptions :=
  {| All := true; Filters := if labelEnable fl then [("label", filter)] else [] |}.

(** ** How a check and the process end *)

(** An answer of [ContainerInspect] without its base or without its network
    settings. *)
Definition incomplete (j : ContainerJSON) : Prop :=
  cj_Base j = None \/ cj_NetworkSettings j = None.

(** A log that ends with the inspection, the stop and the removal of a
    container whose inspection answer is incomplete. *)
Definition stopped_and_removed (evs : list Event) : Prop :=
  exists before containerID inspect,
    incomplete inspect /\
    evs = before ++ [EvContainerInspect containerID (Success inspect);
                     EvContainerStop containerID 10 (Success tt);
                     EvContainerRemove containerID (Success tt)].

(** A run that returns, or that panics reading through a nil pointer of an
    incomplete inspection answer, right after the container was stopped and
    removed. *)
Definition excused {W A} (r : Outcome A * W * list Event) : Prop :=
  match outcome r with
  | Done _ => True
  | Panicked msg => msg = nilDereference /\ stopped_and_removed (events r)
  | _ => False
  end.

(** How the checks of a started process can end: a check returns; the loop
    over the ticker is still running; a container has no name; in revision 2,
    an inspection answer lacks a part that the recreation reads. *)
Definition ends_check1 (e : Ending) : Prop :=
  e = Returned \/ e = Starves \/ e = Panics indexOutOfRange.

Definition ends_check2 (e : Ending) : Prop :=
  e = Returned \/ e = Starves \/ e = Panics indexOutOfRange \/ e = Panics nilDereference.

(** An inspection answer that has neither part, and the scripted daemon
    answering with it for [app]. *)
Definition bare_snapshot : ContainerJSON :=
  {| cj_Base := None;
     cj_Config := {| cfg_Image := "registry.example.com/app:1.2"; cfg_Env := [];
                     cfg_Cmd := []; cfg_Labels := ∅ |};
     cj_NetworkSettings := None |}.

Definition world_bare : Sim.World :=
  {| Sim.containers := Success [Sim.app];
     Sim.images := Sim.images Sim.world0;
     Sim.pulls := [];
     Sim.tagResult := Success tt;
     Sim.removeResult := Success tt;
     Sim.inspects := [("c1", bare_snapshot)];
     Sim.postResult := Success 200 |}.

(** ** Further concrete runs *)

(** Flags with an interval of zero seconds. *)
Definition stopped_flags : Flags :=
  {| interval := 0; cleanup := false; labelEnable := false; verbose := false; quiet := false |}.

(** A pull stream that tells of a newer image. *)
Definition newer_stream : list StreamItem :=
  [Decoded "Pulling from app" "";
   Decoded "Status: Downloaded newer image for registry.example.com/app:1.2" ""].

(** The scripted daemon, answering the next pull with [newer_stream]. *)
Definition world_newer : Sim.World := Sim.with_pulls [Success newer_stream] Sim.world0.

(** The scripted daemon, listing [redis] only. *)
Definition world_foreign : Sim.World :=
  {| Sim.containers := Success [Sim.redis];
     Sim.images := Sim.images Sim.world0;
     Sim.pulls := [];
     Sim.tagResult := Success tt;
     Sim.removeResult := Success tt;
     Sim.inspects := Sim.inspects Sim.world0;
     Sim.postResult := Success 200 |}.

(** A container started from a digest; the image it runs has no tag. *)
Definition pinned : Container :=
  {| c_ID := "c3"; c_Names := ["/pinned"]; c_Image := "sha256:0a1b2c"; c_ImageID := "sha256:old" |}.

(** ** Success notifications *)

(** A log with neither a success line nor a success notification. *)
Definition hushed (evs : list Event) : Prop :=
  count_ev is_success_post evs = 0%nat /\ count_ev is_success_log evs = 0%nat.

(** A log with one success notification per success line when a
    notification URL is set, and with none when it is not. *)
Definition notified (url : string) (evs : list Event) : Prop :=
  count_ev is_success_post evs
  = if String.eqb url "" then 0%nat else count_ev is_success_log evs.

(** A message that does not announce an update. *)
Definition other_body (body : string) : Prop :=
  Strings.HasPrefix body "Successfully updated " = false.


(** * Properties *)

(** ** Strings *)

Lemma HasPrefix_empty (s : string) : Strings.HasPrefix s "" = true.
Proof. destruct s; reflexivity. Qed.

Lemma append_cons (a : ascii) (s t : string) : String a s +:+ t = String a (s +:+ t).
Proof. reflexivity. Qed.

Lemma HasPrefix_app (p s : string) : Strings.HasPrefix (p +:+ s) p = true.
Proof.
  induction p as [|a p IH].
  - apply HasPrefix_empty.
  - rewrite append_cons. cbn [Strings.HasPrefix].
    rewrite Ascii.eqb_refl. exact IH.
Qed.

Lemma Contains_empty (s : string) : Strings.Contains s "" = true.
Proof. destruct s; reflexivity. Qed.

Lemma Split_nonempty (s : string) (sep : ascii) : Strings.Split s sep <> [].
Proof.
  destruct s as [|a s]; cbn [Strings.Split]; [discriminate|].
  destruct (Ascii.eqb a sep); [discriminate|].
  destruct (Strings.Split s sep); discriminate.
Qed.

Lemma Contains_colon_cons (a : ascii) (s : string) :
  Strings.Contains (String a s) ":" = false ->
  Ascii.eqb a ":" = false /\ Strings.Contains s ":" = false.
Proof.
  cbn [Strings.Contains Strings.HasPrefix]. intros Hc.
  apply orb_false_iff in Hc. destruct Hc as [Hp Hs].
  rewrite andb_true_r in Hp. split; assumption.
Qed.

Lemma Contains_app_colon (repo rest : string) :
  Strings.Contains (repo +:+ ":" +:+ rest) ":" = true.
Proof.
  induction repo as [|a repo IH].
  - reflexivity.
  - rewrite append_cons. cbn [Strings.Contains].
    rewrite IH. apply orb_true_r.
Qed.

Lemma first_part_app (repo rest : string) :
  Strings.Contains repo ":" = false ->
  V2.first_part (repo +:+ ":" +:+ rest) = repo.
Proof.
  unfold V2.first_part.
  induction repo as [|a repo IH]; intros Hc.
  - reflexivity.
  - apply Contains_colon_cons in Hc. destruct Hc as [Ha Hs].
    rewrite append_cons. cbn [Strings.Split].
    rewrite Ha. specialize (IH Hs).
    destruct (Strings.Split (repo +:+ ":" +:+ rest) ":") as [|h t] eqn:E.
    + exfalso. exact (Split_nonempty _ _ E).
    + simpl in *. congruence.
Qed.

Lemma imageWithTag_untagged (image tag : string) :
  Strings.Contains image ":" = false ->
  V2.imageWithTag image tag = image +:+ ":" +:+ tag.
Proof. intros Hc. unfold V2.imageWithTag. rewrite Hc. reflexivity. Qed.

Lemma imageWithTag_tagged (repo old tag : string) :
  Strings.Contains repo ":" = false ->
  V2.imageWithTag (repo +:+ ":" +:+ old) tag = repo +:+ ":" +:+ tag.
Proof.
  intros Hc. unfold V2.imageWithTag.
  rewrite Contains_app_colon. cbn [negb].
  rewrite first_part_app by exact Hc. reflexivity.
Qed.

(** ** The monad *)

Section MonadFacts.
Context {W : Type}.

Lemma bind_Done {A B} (m : M W A) (f : A -> M W B) w a w1 e1 :
  m w = (Done a, w1, e1) ->
  bind m f w = (outcome (f a w1), world (f a w1), e1 ++ events (f a w1)).
Proof.
  intros Hm. unfold bind. rewrite Hm.
  destruct (f a w1) as [[o w2] e2]. reflexivity.
Qed.

Lemma bind_Done_inv {A B} (m : M W A) (f : A -> M W B) w b :
  outcome (bind m f w) = Done b ->
  exists a w1 e1, m w = (Done a, w1, e1) /\ outcome (f a w1) = Done b /\
                  events (bind m f w) = e1 ++ events (f a w1).
Proof.
  unfold bind. destruct (m w) as [[o w1] e1]. destruct o; try discriminate.
  destruct (f a w1) as [[o2 w2] e2] eqn:Hf. simpl. intros Ho.
  exists a, w1, e1. rewrite Hf. auto.
Qed.

Lemma events_bind {A B} (m : M W A) (f : A -> M W B) w :
  events (bind m f w) =
  events (m w) ++ match outcome (m w) with
                  | Done a => events (f a (world (m w)))
                  | _ => []
                  end.
Proof.
  unfold bind. destruct (m w) as [[o w1] e1]. destruct o; cbn.
  - destruct (f a w1) as [[o2 w2] e2]. reflexivity.
  - symmetry. apply app_nil_r.
  - symmetry. apply app_nil_r.
  - symmetry. apply app_nil_r.
Qed.

Lemma outcome_bind {A B} (m : M W A) (f : A -> M W B) w :
  outcome (bind m f w) =
  match outcome (m w) with
  | Done a => outcome (f a (world (m w)))
  | Panicked msg => Panicked msg
  | Exited c => Exited c
  | OutOfFuel => OutOfFuel
  end.
Proof.
  unfold bind. destruct (m w) as [[o w1] e1]. destruct o; cbn; try reflexivity.
  destruct (f a w1) as [[o2 w2] e2]. reflexivity.
Qed.

Lemma outcome_call {R} (op : W -> R * W) (ev : R -> Event) w :
  outcome (call op ev w) = Done (fst (op w)).
Proof. unfold call. destruct (op w). reflexivity. Qed.

Lemma world_call {R} (op : W -> R * W) (ev : R -> Event) w :
  world (call op ev w) = snd (op w).
Proof. unfold call. destruct (op w). reflexivity. Qed.

Lemma events_call {R} (op : W -> R * W) (ev : R -> Event) w :
  events (call op ev w) = [ev (fst (op w))].
Proof. unfold call. destruct (op w). reflexivity. Qed.

Lemma run_eta {A} (x : Outcome A * W * list Event) :
  x = (outcome x, world x, events x).
Proof. destruct x as [[o w] e]. reflexivity. Qed.

Lemma outcome_logVerbose fl format v (w : W) : outcome (logVerbose fl format v w) = Done tt.
Proof. unfold logVerbose. destruct (verbose fl && negb (quiet fl)); reflexivity. Qed.

Lemma world_logVerbose fl format v (w : W) : world (logVerbose fl format v w) = w.
Proof. unfold logVerbose. destruct (verbose fl && negb (quiet fl)); reflexivity. Qed.

Lemma outcome_logInfo fl format v (w : W) : outcome (logInfo fl format v w) = Done tt.
Proof. unfold logInfo. destruct (negb (quiet fl)); reflexivity. Qed.

Lemma world_logInfo fl format v (w : W) : world (logInfo fl format v w) = w.
Proof. unfold logInfo. destruct (negb (quiet fl)); reflexivity. Qed.

End MonadFacts.

(** A property of logs that holds of the empty log and of the concatenation
    of two logs that have it, and a property of endings that holds of a normal
    return, hold of a computation as soon as they hold of every step. *)
Section Produces.
Context {W : Type} {P : list Event -> Prop} {O : Ending -> Prop} `{!LogInvariant P O}.

Lemma emits_events {A} (m : M W A) : produces P O m -> forall w, P (events (m w)).
Proof. intros Hm w. apply Hm. Qed.

Lemma emits_ending {A} (m : M W A) :
  produces P O m -> forall w, O (ending (outcome (m w))).
Proof. intros Hm w. apply Hm. Qed.

Lemma emits_ret {A} (a : A) : produces P O (ret (W:=W) a).
Proof. intros w. split; [apply inv_nil | apply inv_done]. Qed.

Lemma emits_panic {A} msg : O (Panics msg) -> produces P O (@panic W A msg).
Proof. intros Ho w. split; [apply inv_nil | exact Ho]. Qed.

Lemma emits_exit {A} c : O (Exits c) -> produces P O (@exit W A c).
Proof. intros Ho w. split; [apply inv_nil | exact Ho]. Qed.

Lemma emits_out_of_fuel {A} : O Starves -> produces P O (@out_of_fuel W A).
Proof. intros Ho w. split; [apply inv_nil | exact Ho]. Qed.

Lemma emits_bind {A B} (m : M W A) (f : A -> M W B) :
  produces P O m -> (forall a, produces P O (f a)) -> produces P O (bind m f).
Proof.
  intros Hm Hf w. specialize (Hm w). unfold bind.
  destruct (m w) as [[o w1] e1]. cbn in Hm. destruct Hm as [Hp Ho].
  destruct o; cbn; try (split; assumption).
  specialize (Hf a w1). destruct (f a w1) as [[o2 w2] e2]. cbn in *.
  destruct Hf as [Hp2 Ho2]. split; [apply inv_app; assumption | exact Ho2].
Qed.

Lemma emits_call {R} (op : W -> R * W) (ev : R -> Event) :
  (forall r, P [ev r]) -> produces P O (call op ev).
Proof.
  intros Hev w. unfold call. destruct (op w) as [r w'].
  split; [apply Hev | apply inv_done].
Qed.

Lemma emits_emit (e : Event) : P [e] -> produces P O (emit (W:=W) e).
Proof. intros He w. split; [exact He | apply inv_done]. Qed.

Lemma emits_logInfo fl format v :
  P [EvLog ("[INFO] " +:+ format) v] -> produces P O (logInfo (W:=W) fl format v).
Proof.
  intros Hl. unfold logInfo.
  destruct (negb (quiet fl)); [apply emits_emit, Hl | apply emits_ret].
Qed.

Lemma emits_logVerbose fl format v :
  P [EvLog ("[VERBOSE] " +:+ format) v] -> produces P O (logVerbose (W:=W) fl format v).
Proof.
  intros Hl. unfold logVerbose.
  destruct (verbose fl && negb (quiet fl)); [apply emits_emit, Hl | apply emits_ret].
Qed.

Lemma emits_logWarn format v :
  P [EvLog ("[WARN] " +:+ format) v] -> produces P O (logWarn (W:=W) format v).
Proof. apply emits_emit. Qed.

Lemma emits_logError format v :
  P [EvLog ("[ERROR] " +:+ format) v] -> produces P O (logError (W:=W) format v).
Proof. apply emits_emit. Qed.

Lemma emits_logUpdate format v :
  P [EvLog ("[UPDATE] " +:+ format) v] -> produces P O (logUpdate (W:=W) format v).
Proof. apply emits_emit. Qed.

Lemma emits_logFatal {A} format v :
  P [EvLog format v] -> O (Exits 1) -> produces P O (@logFatal W A format v).
Proof.
  intros Hl Ho. unfold logFatal.
  apply emits_bind; [apply emits_emit, Hl | intros; apply emits_exit, Ho].
Qed.

Lemma emits_newTicker fl :
  O (Panics "non-positive interval for NewTicker") -> produces P O (newTicker (W:=W) fl).
Proof.
  intros Ho. unfold newTicker.
  destruct (_ <=? _); [apply emits_panic, Ho | apply emits_ret].
Qed.

End Produces.


(** ** The update detector of revision 2 *)

Section Detector.
Context {W : Type} `{Runtime W}.
Variable fl : Flags.
Variable time_Parse : string -> Result Z.
Variable json_Marshal : AuthConfig -> string.
Variable base64_EncodeToString : string -> string.

Local Abbreviation pullImageAndCheckUpdate :=
  (V2.pullImageAndCheckUpdate fl time_Parse json_Marshal base64_EncodeToString).
Local Abbreviation compareImages := (V2.compareImages (W:=W) fl time_Parse).

(** What the detector does once the pull and the inspection of the pulled
    image have succeeded. *)
Lemma pullImageAndCheckUpdate_pulled image auth platform name url currentImgID
    w stream w1 newImg w2 rl w3 :
  ImagePull image (V2.pullOptions json_Marshal base64_EncodeToString auth platform) w
    = (Success stream, w1) ->
  ImageInspectWithRaw image w1 = (Success newImg, w2) ->
  ImageInspectWithRaw currentImgID w2 = (rl, w3) ->
  outcome (pullImageAndCheckUpdate image auth platform name url currentImgID w)
  = outcome (compareImages name currentImgID (inspected rl) newImg w3).
Proof.
  intros Hpull Hnew Hlocal.
  unfold V2.pullImageAndCheckUpdate, bind, call.
  rewrite Hpull, Hnew, Hlocal.
  destruct rl as [i|e]; cbn;
    destruct (compareImages _ _ _ _ w3) as [[o w4] e4]; reflexivity.
Qed.

Lemma compareImages_parsed name currentImgID localImg newImg w tl tr :
  ii_ID newImg <> currentImgID ->
  ii_Created localImg <> "" ->
  ii_Created newImg <> "" ->
  time_Parse (ii_Created localImg) = Success tl ->
  time_Parse (ii_Created newImg) = Success tr ->
  outcome (compareImages name currentImgID localImg newImg w) = Done (tl <? tr, None).
Proof.
  intros Hid Hl Hn Hpl Hpn. unfold V2.compareImages.
  apply String.eqb_neq in Hid, Hl, Hn. rewrite Hid, Hl, Hn, Hpl, Hpn. cbn [negb andb].
  unfold V2.After. destruct (tl <? tr); unfold bind, logVerbose;
    destruct (verbose fl && negb (quiet fl)); reflexivity.
Qed.

Lemma compareImages_no_update name currentImgID localImg newImg w :
  ii_ID newImg = currentImgID \/
  ii_Created localImg = "" \/ ii_Created newImg = "" \/
  (exists e, time_Parse (ii_Created localImg) = Failure e) \/
  (exists e, time_Parse (ii_Created newImg) = Failure e) ->
  compareImages name currentImgID localImg newImg w = (Done (false, None), w, []).
Proof.
  intros Hcase. unfold V2.compareImages.
  destruct (String.eqb_spec (ii_ID newImg) currentImgID) as [Hid|Hid]; [reflexivity|].
  destruct (String.eqb_spec (ii_Created localImg) "") as [Hl|Hl]; [reflexivity|].
  destruct (String.eqb_spec (ii_Created newImg) "") as [Hn|Hn]; [reflexivity|].
  cbn [negb andb].
  destruct Hcase as [Hc|[Hc|[Hc|[[e Hc]|[e Hc]]]]]; try contradiction.
  - rewrite Hc. reflexivity.
  - rewrite Hc. destruct (time_Parse (ii_Created localImg)); reflexivity.
Qed.

(** C1. Once an image was pulled whose identity differs from the container's
    current image identity, and both images carry a creation timestamp that
    [time.Parse] reads, the detector returns without error, and it reports an
    update exactly when the pulled image's instant is strictly after the
    current image's instant; an equal or earlier instant yields no update. *)
Theorem C1_update_iff_remote_strictly_newer image auth platform name url currentImgID
    w stream w1 newImg w2 rl w3 tl tr :
  ImagePull image (V2.pullOptions json_Marshal base64_EncodeToString auth platform) w
    = (Success stream, w1) ->
  ImageInspectWithRaw image w1 = (Success newImg, w2) ->
  ImageInspectWithRaw currentImgID w2 = (rl, w3) ->
  ii_ID newImg <> currentImgID ->
  ii_Created (inspected rl) <> "" ->
  ii_Created newImg <> "" ->
  time_Parse (ii_Created (inspected rl)) = Success tl ->
  time_Parse (ii_Created newImg) = Success tr ->
  exists update,
    outcome (pullImageAndCheckUpdate image auth platform name url currentImgID w)
    = Done (update, None) /\
    (update = true <-> tl < tr) /\ (update = false <-> tr <= tl).
Proof.
  intros Hpull Hnew Hlocal Hid Hl Hn Hpl Hpn.
  exists (tl <? tr). split; [|split].
  - rewrite (pullImageAndCheckUpdate_pulled _ _ _ _ _ _ _ _ _ _ _ _ _ Hpull Hnew Hlocal).
    apply compareImages_parsed; assumption.
  - apply Z.ltb_lt.
  - rewrite Z.ltb_ge. reflexivity.
Qed.

(** C2. Once an image was pulled, if its identity equals the container's
    current image identity, or if either creation timestamp is empty or is
    rejected by [time.Parse], the detector returns [(false, nil)]: no update,
    no error, no panic. (A failed inspection of the current image leaves the
    zero value, whose timestamp is empty.) *)
Theorem C2_no_update_on_same_identity_or_bad_timestamp image auth platform name url
    currentImgID w stream w1 newImg w2 rl w3 :
  ImagePull image (V2.pullOptions json_Marshal base64_EncodeToString auth platform) w
    = (Success stream, w1) ->
  ImageInspectWithRaw image w1 = (Success newImg, w2) ->
  ImageInspectWithRaw currentImgID w2 = (rl, w3) ->
  ii_ID newImg = currentImgID \/
  ii_Created (inspected rl) = "" \/ ii_Created newImg = "" \/
  (exists e, time_Parse (ii_Created (inspected rl)) = Failure e) \/
  (exists e, time_Parse (ii_Created newImg) = Failure e) ->
  outcome (pullImageAndCheckUpdate image auth platform name url currentImgID w)
  = Done (false, None).
Proof.
  intros Hpull Hnew Hlocal Hcase.
  rewrite (pullImageAndCheckUpdate_pulled _ _ _ _ _ _ _ _ _ _ _ _ _ Hpull Hnew Hlocal).
  rewrite compareImages_no_update by exact Hcase. reflexivity.
Qed.

End Detector.

(** ** Recreation *)

Section Recreate.
Context {W : Type} `{Runtime W}.

(** C8, as the code has it. A recreation that succeeds has inspected the
    container first, then stopped and removed it, and has created the new
    container under the name it was given from the snapshot's [Config],
    [HostConfig] and network endpoints, all three passed on unchanged: the
    environment, the mounts and the per-network settings are the old ones,
    and so is the image reference of the configuration. *)
Theorem C8_recreate_replays_snapshot containerID name url (w : W) :
  outcome (V2.recreateContainer containerID name url w) = Done None ->
  exists inspect base settings newID,
    fst (ContainerInspect containerID w) = Success inspect /\
    cj_Base inspect = Some base /\
    cj_NetworkSettings inspect = Some settings /\
    events (V2.recreateContainer containerID name url w) =
      [EvContainerInspect containerID (Success inspect);
       EvContainerStop containerID 10 (Success tt);
       EvContainerRemove containerID (Success tt);
       EvContainerCreate (cj_Config inspect) (cjb_HostConfig base)
         (ns_Networks settings) name (Success newID);
       EvContainerStart newID (Success tt)].
Proof.
  unfold V2.recreateContainer, bind, call.
  destruct (ContainerInspect containerID w) as [[inspect|e] w1]; cbn; [|discriminate].
  destruct (ContainerStop containerID 10 w1) as [[[]|e] w2]; cbn; [|discriminate].
  destruct (ContainerRemove containerID w2) as [[[]|e] w3]; cbn; [|discriminate].
  destruct (cj_Base inspect) as [base|] eqn:Hbase; cbn; [|discriminate].
  destruct (cj_NetworkSettings inspect) as [settings|] eqn:Hsettings; cbn; [|discriminate].
  destruct (ContainerCreate _ _ _ name w3) as [[newID|e] w4]; cbn; [|discriminate].
  destruct (ContainerStart newID w4) as [[[]|e] w5]; cbn; [|discriminate].
  intros _. exists inspect, base, settings, newID. repeat split; assumption.
Qed.

End Recreate.

(** ** The fallback pull of revision 1 *)

Section Fallback.
Variable fl : Flags.
Variable json_Marshal : AuthConfig -> string.
Variable base64_EncodeToString : string -> string.

Lemma count_ev_app p (a b : list Event) :
  count_ev p (a ++ b) = (count_ev p a + count_ev p b)%nat.
Proof. unfold count_ev. rewrite List.filter_app, length_app. reflexivity. Qed.

Lemma count_ev_logVerbose {W} p format v (w : W) :
  (forall f a, p (EvLog f a) = false) ->
  count_ev p (events (logVerbose fl format v w)) = 0%nat.
Proof.
  intros Hp. unfold logVerbose.
  destruct (verbose fl && negb (quiet fl)); cbn; [rewrite Hp|]; reflexivity.
Qed.

Lemma decodeLoop_stubborn fuel needsUpdate image auth name :
  let run := V1.decodeLoop (H:=Sim.stubborn_runtime) fl json_Marshal base64_EncodeToString
               fuel Sim.mismatch needsUpdate image auth name Sim.stubborn in
  outcome run = OutOfFuel /\ count_ev is_fallback_pull (events run) = fuel.
Proof.
  induction fuel as [|n IH]; [split; reflexivity|].
  cbn zeta in *. destruct IH as [IHo IHc].
  unfold Sim.mismatch at 1 2. cbn [V1.decodeLoop].
  change (String.eqb "no matching manifest for linux/arm64 in the manifest list entries" "")
    with false.
  change (Strings.Contains
            "no matching manifest for linux/arm64 in the manifest list entries"
            "no matching manifest") with true.
  cbn [negb].
  rewrite !outcome_bind, !events_bind, !outcome_logVerbose, !world_logVerbose.
  cbn [outcome events world fst snd logWarn emit call ImagePull Sim.stubborn_runtime].
  rewrite IHo. split; [reflexivity|].
  rewrite !count_ev_app, IHc, count_ev_logVerbose by reflexivity.
  reflexivity.
Qed.

(** C3, at the failing input. Against a registry that answers every pull of
    the image, on the container's platform and on [linux/amd64] alike, with
    a manifest mismatch, the decode loop pulls from [linux/amd64] again on
    every turn: given [fuel] turns it has issued [fuel] fallback pulls and has
    not returned. *)
Theorem C3_fallback_retry_unbounded fuel image auth name url :
  let run := V1.pullImageAndCheckUpdate (H:=Sim.stubborn_runtime) fl json_Marshal
               base64_EncodeToString fuel image auth "linux/arm64" name url Sim.stubborn in
  outcome run = OutOfFuel /\ count_ev is_fallback_pull (events run) = fuel.
Proof.
  cbn zeta. unfold V1.pullImageAndCheckUpdate.
  rewrite outcome_bind, events_bind.
  cbn [outcome events world fst snd call ImagePull Sim.stubborn_runtime].
  destruct (decodeLoop_stubborn fuel false image auth name) as [Ho Hc].
  rewrite Ho. split; [reflexivity|].
  rewrite count_ev_app, Hc. reflexivity.
Qed.

End Fallback.

(** ** Logs without pulls, and the tags probed by revision 2 *)

Lemma pull_refs_app (a b : list Event) :
  pull_refs (a ++ b) = pull_refs a ++ pull_refs b.
Proof.
  induction a as [|e a IH]; [reflexivity|].
  destruct e; cbn; rewrite ?IH; reflexivity.
Qed.

Lemma no_pull_app (a b : list Event) : no_pull a -> no_pull b -> no_pull (a ++ b).
Proof. unfold no_pull. intros Ha Hb. rewrite pull_refs_app, Ha, Hb. reflexivity. Qed.

#[global] Instance no_pull_invariant : LogInvariant no_pull any_end.
Proof. split; [reflexivity | exact no_pull_app | exact I]. Qed.

Ltac no_pull_side := first [ exact I | reflexivity ].

(** Walks through a computation built from the steps above; [side] proves
    that a single event, or an abnormal ending, is admissible. *)
Ltac emits_with side :=
  repeat match goal with
    | |- produces _ _ (ret _) => apply emits_ret
    | |- produces _ _ (panic _) => apply emits_panic; side
    | |- produces _ _ out_of_fuel => apply emits_out_of_fuel; side
    | |- produces _ _ (logVerbose _ _ _) => apply emits_logVerbose; side
    | |- produces _ _ (logInfo _ _ _) => apply emits_logInfo; side
    | |- produces _ _ (logWarn _ _) => apply emits_logWarn; side
    | |- produces _ _ (logError _ _) => apply emits_logError; side
    | |- produces _ _ (logUpdate _ _) => apply emits_logUpdate; side
    | |- produces _ _ (logFatal _ _) => apply emits_logFatal; side
    | |- produces _ _ (newTicker _) => apply emits_newTicker; side
    | |- produces _ _ (exit _) => apply emits_exit; side
    | |- produces _ _ (emit _) => apply emits_emit; side
    | |- produces _ _ (bind _ _) => apply emits_bind; [ | intros ?]
    | |- produces _ _ (call _ _) => apply emits_call; intros ?; side
    | |- produces _ _ (match ?x with _ => _ end) => destruct x
    end.

Section Probe.
Context {W : Type} `{Runtime W}.
Variable fl : Flags.
Variable time_Parse : string -> Result Z.
Variable json_Marshal : AuthConfig -> string.
Variable base64_EncodeToString : string -> string.

Local Abbreviation pullImageAndCheckUpdate :=
  (V2.pullImageAndCheckUpdate fl time_Parse json_Marshal base64_EncodeToString).
Local Abbreviation probeTags :=
  (V2.probeTags fl time_Parse json_Marshal base64_EncodeToString).

Lemma no_pull_compareImages name currentImgID localImg newImg :
  emits no_pull (V2.compareImages (W:=W) fl time_Parse name currentImgID localImg newImg).
Proof. unfold V2.compareImages. emits_with no_pull_side. Qed.

Lemma no_pull_retagAsLatest registryTag tag ref :
  emits no_pull (V2.retagAsLatest (W:=W) registryTag tag ref).
Proof. unfold V2.retagAsLatest. emits_with no_pull_side. Qed.

(** Every call of the detector issues exactly one pull, of the reference it
    was given. *)
Lemma pull_refs_pullImageAndCheckUpdate image auth platform name url currentImgID w :
  pull_refs (events (pullImageAndCheckUpdate image auth platform name url currentImgID w))
  = [image].
Proof.
  unfold V2.pullImageAndCheckUpdate.
  rewrite events_bind, pull_refs_app, outcome_call, world_call, events_call.
  destruct (ImagePull _ _ w) as [r w1]. cbn [fst snd pull_refs app].
  f_equal. destruct r as [s|e]; [|reflexivity].
  assert (Hk : emits no_pull
    (rn <- call (ImageInspectWithRaw image) (EvImageInspect image) ;;
     match rn with
     | Failure e => ret (false, Some ("inspect pulled image: " +:+ e))
     | Success newImg =>
         rl <- call (ImageInspectWithRaw currentImgID) (EvImageInspect currentImgID) ;;
         localImg <- match rl with
                     | Failure e =>
                         logWarn "Failed to inspect current image: %v" [VErr e] ;;;
                         ret zeroImageInspect
                     | Success i => ret i
                     end ;;
         V2.compareImages fl time_Parse name currentImgID localImg newImg
     end)%go).
  { emits_with no_pull_side. apply no_pull_compareImages. }
  apply (emits_events _ Hk).
Qed.

Lemma probeTags_pull_refs tags image auth platform name url registryTag currentImgID :
  forall w,
    pull_refs (events (probeTags tags image auth platform name url registryTag currentImgID w))
      `prefix_of` map (V2.imageWithTag image) tags /\
    hd_error (pull_refs
                (events (probeTags tags image auth platform name url registryTag currentImgID w)))
    = hd_error (map (V2.imageWithTag image) tags).
Proof.
  induction tags as [|tag rest IH]; intros w.
  - split; [exists []|]; reflexivity.
  - cbn [V2.probeTags map].
    rewrite events_bind, outcome_logVerbose, world_logVerbose, pull_refs_app.
    rewrite (emits_events _ (emits_logVerbose (P:=no_pull) (O:=any_end) fl _ _ eq_refl) w).
    rewrite events_bind, pull_refs_app, pull_refs_pullImageAndCheckUpdate.
    cbn [app hd_error]. split; [|reflexivity].
    apply prefix_cons.
    destruct (outcome (pullImageAndCheckUpdate _ _ _ _ _ _ w)) as [[[|] [e|]]| | |];
      try apply prefix_nil.
    + rewrite events_bind, pull_refs_app. cbn. apply IH.
    + rewrite events_bind, pull_refs_app.
      rewrite (emits_events _ (no_pull_retagAsLatest registryTag tag _) _).
      destruct (outcome _); apply prefix_nil.
    + rewrite events_bind, pull_refs_app. cbn. apply IH.
    + apply IH.
Qed.

Lemma imageWithTag_repository image repo tag :
  repository_of image repo -> V2.imageWithTag image tag = repo +:+ ":" +:+ tag.
Proof.
  intros [Hrepo [->|[old ->]]].
  - apply imageWithTag_untagged, Hrepo.
  - apply imageWithTag_tagged, Hrepo.
Qed.

(** The detector of revision 2 returns, whatever the daemon answers. *)
Lemma pullImageAndCheckUpdate_returns image auth platform name url currentImgID (w : W) :
  exists r,
    outcome (pullImageAndCheckUpdate image auth platform name url currentImgID w) = Done r.
Proof.
  unfold V2.pullImageAndCheckUpdate.
  rewrite outcome_bind, outcome_call.
  destruct (fst (ImagePull image _ w)) as [s|e]; [|eexists; reflexivity].
  rewrite outcome_bind, outcome_call.
  destruct (fst (ImageInspectWithRaw image _)) as [newImg|e]; [|eexists; reflexivity].
  rewrite outcome_bind, outcome_call, outcome_bind.
  assert (Hcompare : forall localImg (w' : W),
            exists r, outcome (V2.compareImages fl time_Parse name currentImgID
                                 localImg newImg w') = Done r).
  { intros localImg w'. unfold V2.compareImages.
    destruct (negb (String.eqb (ii_ID newImg) currentImgID)); [|eexists; reflexivity].
    destruct (negb (String.eqb (ii_Created localImg) "")
              && negb (String.eqb (ii_Created newImg) "")); [|eexists; reflexivity].
    destruct (time_Parse (ii_Created localImg)) as [tl|el]; [|eexists; reflexivity].
    destruct (time_Parse (ii_Created newImg)) as [tr|er]; [|eexists; reflexivity].
    destruct (V2.After tr tl); rewrite outcome_bind, outcome_logVerbose;
      eexists; reflexivity. }
  destruct (fst (ImageInspectWithRaw currentImgID _)) as [i|e].
  - apply Hcompare.
  - rewrite outcome_bind. cbn [logWarn emit outcome world fst snd ret]. apply Hcompare.
Qed.

(** A loop over one tag pulls the reference of that tag and nothing else. *)
Lemma probeTags_single_refs tag image auth platform name url registryTag currentImgID (w : W) :
  pull_refs (events (probeTags [tag] image auth platform name url registryTag
                       currentImgID w))
  = [V2.imageWithTag image tag].
Proof.
  destruct (probeTags_pull_refs [tag] image auth platform name url registryTag
              currentImgID w) as [[k Hk] Hhd].
  cbn [map hd_error] in Hk, Hhd.
  destruct (pull_refs _) as [|x l]; [discriminate Hhd|].
  inversion Hhd; subst x. cbn [app] in Hk. inversion Hk as [Hl].
  destruct l; [reflexivity|discriminate Hl].
Qed.

(** C4, as the code has it. Whether or not the container's reference carries
    a tag, the first reference pulled is [<repo>:latest], an explicit tag of
    the reference being dropped. The detector always returns from that first
    probe; when it reports an update the loop stops and nothing else is
    pulled; when it reports none, or an error, the configured [REGISTRY_TAG],
    if there is one, is probed next and [<repo>:<REGISTRY_TAG>] is the second
    and last reference pulled. *)
Theorem C4_primary_tag_is_latest image repo registryTag auth platform name url
    currentImgID (w : W) :
  repository_of image repo ->
  let first := pullImageAndCheckUpdate (repo +:+ ":latest") auth platform name url
                 currentImgID w in
  let refs := pull_refs (events (probeTags (V2.tagsToCheck registryTag)
                image auth platform name url registryTag currentImgID w)) in
  (exists r, outcome first = Done r) /\
  refs = (repo +:+ ":latest") ::
         match outcome first with
         | Done (true, None) => []
         | _ => if String.eqb registryTag "" then [] else [repo +:+ ":" +:+ registryTag]
         end.
Proof.
  intros Hrepo first refs. subst first refs.
  split; [apply pullImageAndCheckUpdate_returns|].
  unfold V2.tagsToCheck. cbn [app V2.probeTags].
  rewrite events_bind, outcome_logVerbose, world_logVerbose, pull_refs_app.
  rewrite (emits_events _ (emits_logVerbose (P:=no_pull) (O:=any_end) fl _ _ eq_refl) w).
  rewrite events_bind, pull_refs_app, pull_refs_pullImageAndCheckUpdate.
  rewrite (imageWithTag_repository image repo "latest" Hrepo).
  change (repo +:+ ":" +:+ "latest") with (repo +:+ ":latest").
  cbn [app]. f_equal.
  destruct (pullImageAndCheckUpdate_returns (repo +:+ ":latest") auth platform name url
              currentImgID w) as [r Hr].
  rewrite Hr.
  assert (Hrest : forall w' : W,
            pull_refs (events (probeTags (if negb (String.eqb registryTag "")
                                          then [registryTag] else [])
                                 image auth platform name url registryTag currentImgID w'))
            = if String.eqb registryTag "" then [] else [repo +:+ ":" +:+ registryTag]).
  { intros w'. destruct (String.eqb registryTag ""); cbn [negb]; [reflexivity|].
    rewrite probeTags_single_refs. f_equal. apply imageWithTag_repository, Hrepo. }
  destruct r as [[|] [e|]].
  - rewrite events_bind, pull_refs_app. cbn [logError emit events outcome world fst snd].
    apply Hrest.
  - rewrite events_bind, pull_refs_app.
    rewrite (emits_events _ (no_pull_retagAsLatest registryTag "latest" _) _).
    destruct (outcome (V2.retagAsLatest _ _ _ _)); reflexivity.
  - rewrite events_bind, pull_refs_app. cbn [logError emit events outcome world fst snd].
    apply Hrest.
  - apply Hrest.
Qed.

End Probe.

(** ** Retagging after an update found on the secondary tag *)

Section Retag.
Context {W : Type} `{Runtime W}.
Variable fl : Flags.
Variable time_Parse : string -> Result Z.
Variable json_Marshal : AuthConfig -> string.
Variable base64_EncodeToString : string -> string.

Local Abbreviation pullImageAndCheckUpdate :=
  (V2.pullImageAndCheckUpdate fl time_Parse json_Marshal base64_EncodeToString).
Local Abbreviation probeTags :=
  (V2.probeTags fl time_Parse json_Marshal base64_EncodeToString).
Local Abbreviation checkContainer :=
  (V2.checkContainer fl time_Parse json_Marshal base64_EncodeToString).

Lemma call_eq {R} (op : W -> R * W) (ev : R -> Event) w r w' :
  op w = (r, w') -> call op ev w = (Done r, w', [ev r]).
Proof. intros Hop. unfold call. rewrite Hop. reflexivity. Qed.

Lemma events_bind_Done {A B} (m : M W A) (f : A -> M W B) w a w1 e1 :
  m w = (Done a, w1, e1) -> events (bind m f w) = e1 ++ events (f a w1).
Proof. intros Hm. rewrite (bind_Done m f w a w1 e1 Hm). reflexivity. Qed.

Lemma retagAsLatest_run registryTag ref (w : W) :
  registryTag <> "" ->
  let target := V2.first_part ref +:+ ":latest" in
  let rt := fst (ImageTag ref target w) in
  let w1 := snd (ImageTag ref target w) in
  let rr := fst (ImageRemove ref removeOptions w1) in
  let w2 := match rt with Success _ => snd (ImageRemove ref removeOptions w1) | Failure _ => w1 end in
  V2.retagAsLatest registryTag registryTag ref w = (Done tt, w2, retagEvents ref rt rr).
Proof.
  intros Hne. cbn zeta. unfold V2.retagAsLatest, retagEvents, removeOptions.
  apply String.eqb_neq in Hne. rewrite Hne, String.eqb_refl. cbn [negb andb].
  unfold bind, call, logWarn, logUpdate, emit.
  destruct (ImageTag ref _ w) as [[[]|e] w1]; cbn; [|reflexivity].
  destruct (ImageRemove ref _ w1) as [[[]|e] w2]; reflexivity.
Qed.


Lemma logVerbose_run format v (w : W) :
  logVerbose fl format v w = (Done tt, w, events (logVerbose fl format v w)).
Proof. unfold logVerbose. destruct (verbose fl && negb (quiet fl)); reflexivity. Qed.


Lemma outcome_notify url message (w : W) : outcome (notify fl url message w) = Done tt.
Proof.
  unfold notify. destruct (String.eqb url ""); [reflexivity|].
  rewrite outcome_bind, outcome_call.
  destruct (fst (http_Post url "text/plain" message w)) as [status|e]; [|reflexivity].
  destruct (400 <=? status); [reflexivity|apply outcome_logVerbose].
Qed.

Lemma outcome_pruneImages url (w : W) : outcome (pruneImages fl url w) = Done tt.
Proof.
  unfold pruneImages. destruct (cleanup fl); [|reflexivity].
  rewrite outcome_bind, outcome_logVerbose, outcome_bind, outcome_call.
  destruct (fst (ImagesPrune _)) as [pruned|e].
  - destruct (0 <? length (ImagesDeleted pruned))%nat; [apply outcome_logInfo|reflexivity].
  - rewrite outcome_bind. cbn. apply outcome_notify.
Qed.



End Retag.

(** ** Prune requests and successful reconciliations *)

Lemma neutral_app (a b : list Event) : neutral a -> neutral b -> neutral (a ++ b).
Proof.
  unfold neutral. intros [Ha1 Ha2] [Hb1 Hb2].
  rewrite !count_ev_app, Ha1, Ha2, Hb1, Hb2. split; reflexivity.
Qed.

Lemma balanced_app fl (a b : list Event) :
  balanced fl a -> balanced fl b -> balanced fl (a ++ b).
Proof.
  unfold balanced. intros Ha Hb. rewrite !count_ev_app, Ha, Hb.
  destruct (cleanup fl); reflexivity.
Qed.

Lemma neutral_balanced fl (evs : list Event) : neutral evs -> balanced fl evs.
Proof.
  unfold neutral, balanced. intros [Hp Hs]. rewrite Hp, Hs.
  destruct (cleanup fl); reflexivity.
Qed.

#[global] Instance neutral_invariant : LogInvariant neutral any_end.
Proof. split; [split; reflexivity | exact neutral_app | exact I]. Qed.

#[global] Instance balanced_invariant fl : LogInvariant (balanced fl) any_end.
Proof.
  split; [apply neutral_balanced; split; reflexivity | exact (balanced_app fl) | exact I].
Qed.

Lemma emits_neutral_balanced {W A} fl (m : M W A) :
  emits neutral m -> emits (balanced fl) m.
Proof. intros Hm w. split; [apply neutral_balanced, Hm | exact I]. Qed.

Ltac neutral_side := first [ exact I | split; reflexivity ].

Ltac balanced_side :=
  first [ exact I | apply neutral_balanced; split; reflexivity ].

Section Notified.
Context {W : Type} `{Runtime W}.
Variable fl : Flags.

Lemma neutral_notify url message : emits neutral (notify (W:=W) fl url message).
Proof. unfold notify. emits_with neutral_side. Qed.

(** The prune block requests one prune when cleanup is on and none otherwise. *)
Lemma count_pruneImages url (w : W) :
  count_ev is_prune (events (pruneImages fl url w)) = (if cleanup fl then 1 else 0)%nat /\
  count_ev is_success_log (events (pruneImages fl url w)) = 0%nat.
Proof.
  unfold pruneImages. destruct (cleanup fl); [|split; reflexivity].
  rewrite events_bind, outcome_logVerbose, world_logVerbose.
  rewrite events_bind, outcome_call, events_call, world_call.
  destruct (emits_events _ (emits_logVerbose (P:=neutral) (O:=any_end) fl
              "Cleaning up old images" [] (conj eq_refl eq_refl)) w) as [Hv1 Hv2].
  rewrite !count_ev_app, Hv1, Hv2.
  match goal with
  | |- context [count_ev is_prune (events ?X)] => assert (Hk : neutral (events X))
  end.
  { destruct (fst (ImagesPrune w)) as [pruned|e].
    - destruct (0 <? length (ImagesDeleted pruned))%nat; [|split; reflexivity].
      apply (emits_events (O:=any_end)), emits_logInfo. split; reflexivity.
    - cbv zeta. apply (emits_events (O:=any_end)).
      apply emits_bind; [emits_with neutral_side | intros _].
      apply neutral_notify. }
  destruct Hk as [Hk1 Hk2]. rewrite Hk1, Hk2. split; reflexivity.
Qed.

End Notified.

Section Cleanup2.
Context {W : Type} `{Runtime W}.
Variable fl : Flags.
Variable time_Parse : string -> Result Z.
Variable json_Marshal : AuthConfig -> string.
Variable base64_EncodeToString : string -> string.

Lemma neutral_pullImageAndCheckUpdate2 image auth platform name url currentImgID :
  emits neutral (V2.pullImageAndCheckUpdate (W:=W) fl time_Parse json_Marshal
                   base64_EncodeToString image auth platform name url currentImgID).
Proof.
  unfold V2.pullImageAndCheckUpdate, V2.compareImages. emits_with neutral_side.
Qed.

Lemma neutral_probeTags tags image auth platform name url registryTag currentImgID :
  emits neutral (V2.probeTags (W:=W) fl time_Parse json_Marshal base64_EncodeToString
                   tags image auth platform name url registryTag currentImgID).
Proof.
  induction tags as [|tag rest IH]; cbn [V2.probeTags]; [emits_with neutral_side|].
  apply emits_bind; [emits_with neutral_side | intros _].
  apply emits_bind; [apply neutral_pullImageAndCheckUpdate2 | intros r].
  destruct r as [[|] [e|]]; unfold V2.retagAsLatest; emits_with neutral_side; exact IH.
Qed.

Lemma neutral_resolveDigest c : emits neutral (V2.resolveDigest (W:=W) fl c).
Proof. unfold V2.resolveDigest. emits_with neutral_side. Qed.

Lemma neutral_countEligible containers registryURL user n :
  emits neutral (V2.countEligible (W:=W) fl containers registryURL user n).
Proof.
  revert n. induction containers as [|c rest IH]; intros n; cbn [V2.countEligible].
  - emits_with neutral_side.
  - apply emits_bind; [apply neutral_resolveDigest | intros image].
    apply IH.
Qed.

Lemma neutral_recreateContainer containerID name url :
  emits neutral (V2.recreateContainer (W:=W) containerID name url).
Proof. unfold V2.recreateContainer. emits_with neutral_side. Qed.

(** The success line, the notification and the prune block, taken together. *)
Lemma balanced_success2 url name (n : nat) :
  emits (balanced fl)
    (logUpdate (W:=W) ("Successfully updated " +:+ name) [] ;;;
     notify fl url ("Successfully updated " +:+ name) ;;;
     pruneImages fl url ;;;
     ret n).
Proof.
  intros w. split; [|exact I]. unfold balanced.
  rewrite events_bind. cbn [logUpdate emit outcome world events fst snd].
  rewrite events_bind, outcome_notify, events_bind, outcome_pruneImages.
  destruct (emits_events _ (neutral_notify fl url ("Successfully updated " +:+ name)) w)
    as [Hn1 Hn2].
  destruct (count_pruneImages fl url (world (notify fl url ("Successfully updated " +:+ name) w)))
    as [Hp1 Hp2].
  rewrite !count_ev_app, Hn1, Hn2, Hp1, Hp2.
  destruct (cleanup fl); reflexivity.
Qed.

Lemma balanced_checkContainer2 registryTag url auth c n :
  emits (balanced fl)
    (V2.checkContainer (W:=W) fl time_Parse json_Marshal base64_EncodeToString
       registryTag url auth c n).
Proof.
  unfold V2.checkContainer. destruct (c_Names c) as [|n0 ns]; [emits_with balanced_side|].
  apply emits_bind; [apply emits_neutral_balanced, neutral_resolveDigest | intros image].
  apply emits_bind; [emits_with balanced_side | intros ri].
  destruct ri as [img|e]; [|emits_with balanced_side].
  apply emits_bind; [apply emits_neutral_balanced, neutral_probeTags | intros needsUpdate].
  destruct needsUpdate; cbn [negb]; [|emits_with balanced_side].
  apply emits_bind; [emits_with balanced_side | intros _].
  apply emits_bind; [apply emits_neutral_balanced, neutral_recreateContainer | intros err].
  destruct err as [e|]; [emits_with balanced_side|].
  apply balanced_success2.
Qed.

Lemma balanced_checkLoop2 containers registryTag url auth :
  forall n, emits (balanced fl)
    (V2.checkLoop (W:=W) fl time_Parse json_Marshal base64_EncodeToString
       containers registryTag url auth n).
Proof.
  induction containers as [|c rest IH]; intros n; cbn [V2.checkLoop].
  - emits_with balanced_side.
  - apply emits_bind; [apply balanced_checkContainer2 | intros u; apply IH].
Qed.

Lemma balanced_checkContainers2 registryURL user pass registryTag url :
  emits (balanced fl)
    (V2.checkContainers (W:=W) fl time_Parse json_Marshal base64_EncodeToString
       registryURL user pass registryTag url).
Proof.
  unfold V2.checkContainers.
  apply emits_bind; [emits_with balanced_side | intros rc].
  destruct rc as [containers|e]; [|emits_with balanced_side].
  apply emits_bind; [apply emits_neutral_balanced, neutral_countEligible | intros eligible].
  apply emits_bind; [emits_with balanced_side | intros _].
  destruct (eligible =? 0)%nat; [emits_with balanced_side|].
  apply emits_bind; [apply balanced_checkLoop2 | intros updated].
  emits_with balanced_side.
Qed.

End Cleanup2.

Section Cleanup1.
Context {W : Type} `{Runtime W}.
Variable fl : Flags.
Variable json_Marshal : AuthConfig -> string.
Variable base64_EncodeToString : string -> string.

Lemma neutral_decodeLoop fuel :
  forall stream needsUpdate image auth name,
    emits neutral (V1.decodeLoop (W:=W) fl json_Marshal base64_EncodeToString
                     fuel stream needsUpdate image auth name).
Proof.
  induction fuel as [|n IH]; intros stream needsUpdate image auth name;
    cbn [V1.decodeLoop]; [emits_with neutral_side|].
  destruct stream as [|[status error|e] rest]; emits_with neutral_side; apply IH.
Qed.

Lemma neutral_pullImageAndCheckUpdate1 fuel image auth platform name url :
  emits neutral (V1.pullImageAndCheckUpdate (W:=W) fl json_Marshal base64_EncodeToString
                   fuel image auth platform name url).
Proof.
  unfold V1.pullImageAndCheckUpdate. emits_with neutral_side. apply neutral_decodeLoop.
Qed.

(** The notification, the success line and the prune block, taken together. *)
Lemma balanced_success1 url name (k : nat * nat) :
  emits (balanced fl)
    (notify (W:=W) fl url ("Successfully updated " +:+ name) ;;;
     logUpdate ("Successfully updated " +:+ name) [] ;;;
     pruneImages fl url ;;;
     ret k).
Proof.
  intros w. split; [|exact I]. unfold balanced.
  rewrite events_bind, outcome_notify, events_bind.
  cbn [logUpdate emit outcome world events fst snd].
  rewrite events_bind, outcome_pruneImages.
  destruct (emits_events _ (neutral_notify fl url ("Successfully updated " +:+ name)) w)
    as [Hn1 Hn2].
  destruct (count_pruneImages fl url (world (notify fl url ("Successfully updated " +:+ name) w)))
    as [Hp1 Hp2].
  rewrite !count_ev_app, Hn1, Hn2, Hp1, Hp2.
  destruct (cleanup fl); reflexivity.
Qed.

Lemma balanced_checkContainer1 fuel registryURL url auth c k :
  emits (balanced fl)
    (V1.checkContainer (W:=W) fl json_Marshal base64_EncodeToString
       fuel registryURL url auth c k).
Proof.
  unfold V1.checkContainer. destruct k as [updated skipped].
  destruct (c_Names c) as [|name ns]; [emits_with balanced_side|].
  destruct (negb (Strings.Contains (c_Image c) registryURL)); [emits_with balanced_side|].
  apply emits_bind; [emits_with balanced_side | intros ri].
  destruct ri as [img|e]; [|emits_with balanced_side].
  apply emits_bind; [emits_with balanced_side | intros _].
  apply emits_bind; [apply emits_neutral_balanced, neutral_pullImageAndCheckUpdate1 | intros r].
  destruct r as [[|] [e|]]; try solve [emits_with balanced_side].
  apply emits_bind; [emits_with balanced_side | intros _].
  apply emits_bind; [emits_with balanced_side | intros rr].
  destruct rr as [[]|e].
  - apply balanced_success1.
  - cbv zeta. apply emits_bind; [emits_with balanced_side | intros _].
    apply emits_bind; [apply emits_neutral_balanced, neutral_notify | intros _].
    emits_with balanced_side.
Qed.

Lemma balanced_checkLoop1 fuel containers registryURL url auth :
  forall k, emits (balanced fl)
    (V1.checkLoop (W:=W) fl json_Marshal base64_EncodeToString
       fuel containers registryURL url auth k).
Proof.
  induction containers as [|c rest IH]; intros k; cbn [V1.checkLoop].
  - emits_with balanced_side.
  - apply emits_bind; [apply balanced_checkContainer1 | intros u; apply IH].
Qed.

Lemma balanced_checkContainers1 fuel registryURL user pass url :
  emits (balanced fl)
    (V1.checkContainers (W:=W) fl json_Marshal base64_EncodeToString
       fuel registryURL user pass url).
Proof.
  unfold V1.checkContainers.
  apply emits_bind; [emits_with balanced_side | intros rc].
  destruct rc as [containers|e]; [|emits_with balanced_side].
  cbv zeta.
  apply emits_bind; [emits_with balanced_side | intros _].
  destruct (V1.countEligible containers registryURL 0 =? 0)%nat; [emits_with balanced_side|].
  apply emits_bind; [apply balanced_checkLoop1 | intros k].
  destruct k as [updated skipped]. emits_with balanced_side.
Qed.

End Cleanup1.

(** C5, as the code has it. In a tick of either revision the prune of
    unreferenced images is requested once after every container that was
    updated successfully (once for every [Successfully updated] line of the
    log) when cleanup is enabled, and is not requested at all when cleanup is
    disabled; so it is requested only if cleanup is enabled and a container was
    updated, and as many times as containers were updated. *)
Theorem C5_prune_once_per_updated_container {W : Type} `{Runtime W} (fl : Flags)
    (time_Parse : string -> Result Z) (json_Marshal : AuthConfig -> string)
    (base64_EncodeToString : string -> string)
    (fuel : nat) (registryURL user pass registryTag url : string) (w : W) :
  let tick2 := V2.checkContainers fl time_Parse json_Marshal base64_EncodeToString
                 registryURL user pass registryTag url w in
  let tick1 := V1.checkContainers fl json_Marshal base64_EncodeToString
                 fuel registryURL user pass url w in
  count_ev is_prune (events tick2)
    = (if cleanup fl then count_ev is_success_log (events tick2) else 0%nat) /\
  count_ev is_prune (events tick1)
    = (if cleanup fl then count_ev is_success_log (events tick1) else 0%nat).
Proof.
  split.
  - apply (emits_events _
             (balanced_checkContainers2 fl time_Parse json_Marshal base64_EncodeToString _ _ _ _ _)).
  - apply (emits_events _
             (balanced_checkContainers1 fl json_Marshal base64_EncodeToString _ _ _ _ _)).
Qed.

(** ** Absent credentials *)

Lemma all_anonymous_app (a b : list Event) :
  all_anonymous a -> all_anonymous b -> all_anonymous (a ++ b).
Proof. unfold all_anonymous. intros Ha Hb. apply Forall_app. split; assumption. Qed.

#[global] Instance anonymous_invariant : LogInvariant all_anonymous not_exited.
Proof. split; [constructor | exact all_anonymous_app | exact I]. Qed.

#[global] Instance anonymous_invariant_any : LogInvariant all_anonymous any_end.
Proof. split; [constructor | exact all_anonymous_app | exact I]. Qed.

Lemma produces_weaken {W A} (P : list Event -> Prop) (O O' : Ending -> Prop) (m : M W A) :
  (forall e, O e -> O' e) -> produces P O m -> produces P O' m.
Proof. intros Himp Hm w. destruct (Hm w) as [Hp Ho]. split; [exact Hp | apply Himp, Ho]. Qed.

Ltac anon_side := first [ exact I | unfold all_anonymous; repeat constructor ].

Section Anonymous.
Context {W : Type} `{Runtime W}.
Variable fl : Flags.
Variable time_Parse : string -> Result Z.
Variable json_Marshal : AuthConfig -> string.
Variable base64_EncodeToString : string -> string.

Lemma pullOptions_anonymous auth platform :
  Username auth = "" \/ Password auth = "" ->
  RegistryAuth (V2.pullOptions json_Marshal base64_EncodeToString auth platform) = "".
Proof.
  intros Habsent. unfold V2.pullOptions.
  destruct Habsent as [-> | ->]; cbn; [reflexivity|].
  destruct (negb (String.eqb (Username auth) "")); reflexivity.
Qed.

Lemma makeAuthConfig_absent registryURL user pass :
  user = "" \/ pass = "" -> V2.makeAuthConfig registryURL user pass = zeroAuthConfig.
Proof.
  intros Habsent. unfold V2.makeAuthConfig.
  destruct Habsent as [-> | ->]; cbn; [reflexivity|].
  destruct (negb (String.eqb user "")); reflexivity.
Qed.

Lemma anonymous_notify url message :
  produces all_anonymous not_exited (notify (W:=W) fl url message).
Proof. unfold notify. emits_with anon_side. Qed.

Lemma anonymous_pullImageAndCheckUpdate image auth platform name url currentImgID :
  Username auth = "" \/ Password auth = "" ->
  produces all_anonymous not_exited
    (V2.pullImageAndCheckUpdate (W:=W) fl time_Parse json_Marshal base64_EncodeToString
       image auth platform name url currentImgID).
Proof.
  intros Habsent. unfold V2.pullImageAndCheckUpdate, V2.compareImages.
  apply emits_bind.
  - apply emits_call. intros r. constructor; [|constructor].
    apply pullOptions_anonymous, Habsent.
  - intros r. emits_with anon_side.
Qed.

Lemma anonymous_probeTags tags image auth platform name url registryTag currentImgID :
  Username auth = "" \/ Password auth = "" ->
  produces all_anonymous not_exited
    (V2.probeTags (W:=W) fl time_Parse json_Marshal base64_EncodeToString
       tags image auth platform name url registryTag currentImgID).
Proof.
  intros Habsent.
  induction tags as [|tag rest IH]; cbn [V2.probeTags]; [emits_with anon_side|].
  apply emits_bind; [emits_with anon_side | intros _].
  apply emits_bind; [apply anonymous_pullImageAndCheckUpdate, Habsent | intros r].
  destruct r as [[|] [e|]]; unfold V2.retagAsLatest; emits_with anon_side; exact IH.
Qed.

Lemma anonymous_countEligible containers registryURL user n :
  produces all_anonymous not_exited (V2.countEligible (W:=W) fl containers registryURL user n).
Proof.
  revert n. induction containers as [|c rest IH]; intros n; cbn [V2.countEligible].
  - emits_with anon_side.
  - apply emits_bind; [unfold V2.resolveDigest; emits_with anon_side | intros image].
    apply IH.
Qed.

Lemma anonymous_checkContainer registryTag url auth c n :
  Username auth = "" \/ Password auth = "" ->
  produces all_anonymous not_exited
    (V2.checkContainer (W:=W) fl time_Parse json_Marshal base64_EncodeToString
       registryTag url auth c n).
Proof.
  intros Habsent.
  unfold V2.checkContainer, V2.resolveDigest, V2.recreateContainer, pruneImages, notify.
  emits_with anon_side.
  all: apply anonymous_probeTags, Habsent.
Qed.

Lemma anonymous_checkLoop containers registryTag url auth :
  Username auth = "" \/ Password auth = "" ->
  forall n, produces all_anonymous not_exited
    (V2.checkLoop (W:=W) fl time_Parse json_Marshal base64_EncodeToString
       containers registryTag url auth n).
Proof.
  intros Habsent.
  induction containers as [|c rest IH]; intros n; cbn [V2.checkLoop].
  - emits_with anon_side.
  - apply emits_bind; [apply anonymous_checkContainer, Habsent | intros u; apply IH].
Qed.

Lemma anonymous_checkContainers registryURL user pass registryTag url :
  user = "" \/ pass = "" ->
  produces all_anonymous not_exited
    (V2.checkContainers (W:=W) fl time_Parse json_Marshal base64_EncodeToString
       registryURL user pass registryTag url).
Proof.
  intros Habsent. unfold V2.checkContainers.
  rewrite (makeAuthConfig_absent registryURL user pass Habsent).
  emits_with anon_side.
  - apply anonymous_countEligible.
  - apply anonymous_checkLoop. left. reflexivity.
Qed.

Lemma anonymous_runCheck getenv what :
  getenv "REGISTRY_USERNAME" = "" \/ getenv "REGISTRY_PASSWORD" = "" ->
  produces all_anonymous not_exited
    (V2.runCheck (W:=W) fl time_Parse json_Marshal base64_EncodeToString getenv what).
Proof.
  intros Habsent. unfold V2.runCheck. cbv zeta.
  apply emits_bind; [apply anonymous_checkContainers, Habsent | intros err].
  destruct err as [e|]; [|emits_with anon_side].
  apply emits_bind; [emits_with anon_side | intros _]. apply anonymous_notify.
Qed.

Lemma anonymous_tickerLoop getenv ticks :
  getenv "REGISTRY_USERNAME" = "" \/ getenv "REGISTRY_PASSWORD" = "" ->
  produces all_anonymous not_exited
    (V2.tickerLoop (W:=W) fl time_Parse json_Marshal base64_EncodeToString getenv ticks).
Proof.
  intros Habsent. induction ticks as [|n IH]; cbn [V2.tickerLoop].
  - emits_with anon_side.
  - apply emits_bind; [apply anonymous_runCheck, Habsent | intros _; exact IH].
Qed.

(** C9, as the code has it. With no user name or no password in the
    environment, revision 2 is not stopped at startup for that: its [main]
    exits only when the Docker client cannot be created, and every pull it
    issues, in the initial check and in every later tick, carries no auth
    payload; [main] of revision 1 stops at once with [log.Fatal], before
    any call to the runtime. *)
Theorem C9_absent_credentials (fuel : nat) (getenv : string -> string) (ticks : nat) (w : W) :
  getenv "REGISTRY_USERNAME" = "" \/ getenv "REGISTRY_PASSWORD" = "" ->
  let run2 := V2.main fl time_Parse json_Marshal base64_EncodeToString getenv ticks w in
  (forall code, outcome run2 = Exited code ->
                exists e, fst (NewClientWithOpts w) = Failure e) /\
  Forall anonymous (events run2) /\
  V1.main fl json_Marshal base64_EncodeToString fuel getenv ticks w
  = (Exited 1, w, [EvLog "REGISTRY_USERNAME and REGISTRY_PASSWORD must be set" []]).
Proof.
  intros Habsent run2. subst run2. split; [|split].
  - intros code Hout. unfold V2.main in Hout. cbv zeta in Hout.
    rewrite outcome_bind, outcome_call in Hout.
    destruct (fst (NewClientWithOpts w)) as [[]|e]; [exfalso|eauto].
    cbv beta iota in Hout.
    match type of Hout with
    | outcome (?m ?w') = _ => assert (Hk : produces all_anonymous not_exited m)
    end.
    { emits_with anon_side.
      - apply anonymous_runCheck, Habsent.
      - apply anonymous_tickerLoop, Habsent. }
    match type of Hout with
    | outcome (?m ?w') = _ => pose proof (emits_ending _ Hk w') as He
    end.
    rewrite Hout in He. exact He.
  - assert (Hk : emits all_anonymous
                   (V2.main fl time_Parse json_Marshal base64_EncodeToString getenv ticks)).
    { unfold V2.main. emits_with anon_side.
      - apply (produces_weaken _ not_exited); [intros; exact I|].
        apply anonymous_runCheck, Habsent.
      - apply (produces_weaken _ not_exited); [intros; exact I|].
        apply anonymous_tickerLoop, Habsent. }
    apply (emits_events _ Hk).
  - unfold V1.main. cbv zeta.
    assert (Hguard : String.eqb (getenv "REGISTRY_USERNAME") ""
                     || String.eqb (getenv "REGISTRY_PASSWORD") "" = true).
    { destruct Habsent as [-> | ->]; [reflexivity|apply orb_true_r]. }
    rewrite Hguard. reflexivity.
Qed.

End Anonymous.

(** ** An empty registry URL *)

Ltac find_in :=
  solve [ assumption
        | left; reflexivity
        | apply in_or_app; left; find_in
        | apply in_or_app; right; find_in
        | right; find_in ].



Lemma checked2_incl c (evs evs' : list Event) :
  (forall x, In x evs -> In x evs') -> checked2 c evs -> checked2 c evs'.
Proof.
  intros Hin [[e He]|[image [opts [r [Hr Himage]]]]].
  - left. exists e. auto.
  - right. exists image, opts, r. split; [auto|].
    destruct Himage as [->|[i [ts [Hi Htags]]]]; [left; reflexivity|].
    right. exists i, ts. auto.
Qed.

Lemma checked2_app_l c (evs b : list Event) : checked2 c evs -> checked2 c (evs ++ b).
Proof. apply checked2_incl. intros x Hx. apply in_or_app. left. exact Hx. Qed.

Lemma checked2_app_r c (a evs : list Event) : checked2 c evs -> checked2 c (a ++ evs).
Proof. apply checked2_incl. intros x Hx. apply in_or_app. right. exact Hx. Qed.

Section EmptyURL.
Context {W : Type} `{Runtime W}.
Variable fl : Flags.
Variable time_Parse : string -> Result Z.
Variable json_Marshal : AuthConfig -> string.
Variable base64_EncodeToString : string -> string.


Lemma resolveDigest_run c (w : W) :
  exists image,
    outcome (V2.resolveDigest fl c w) = Done image /\
    (image = c_Image c \/
     exists i ts, In (EvImageInspect (c_ImageID c) (Success i))
                     (events (V2.resolveDigest fl c w)) /\
                  ii_RepoTags i = image :: ts).
Proof.
  unfold V2.resolveDigest.
  destruct (Strings.HasPrefix (c_Image c) "sha256:");
    [|exists (c_Image c); split; [reflexivity|left; reflexivity]].
  rewrite outcome_bind, events_bind, outcome_call, events_call, world_call.
  destruct (fst (ImageInspectWithRaw (c_ImageID c) w)) as [i|e] eqn:Hi;
    [|exists (c_Image c); split; [reflexivity|left; reflexivity]].
  destruct (ii_RepoTags i) as [|t0 ts] eqn:Htags;
    [exists (c_Image c); split; [reflexivity|left; reflexivity]|].
  exists t0. split.
  - rewrite outcome_bind, outcome_logVerbose. reflexivity.
  - right. exists i, ts. split; [left; reflexivity | exact Htags].
Qed.


(** The first call of a turn of the tag loop is the pull. *)
Lemma probeTags_first_pull tag rest image auth platform name url registryTag currentImgID
    (w : W) :
  exists opts r,
    In (EvImagePull (V2.imageWithTag image tag) opts r)
       (events (V2.probeTags fl time_Parse json_Marshal base64_EncodeToString
                  (tag :: rest) image auth platform name url registryTag currentImgID w)).
Proof.
  cbn [V2.probeTags].
  rewrite events_bind, outcome_logVerbose, world_logVerbose, events_bind.
  unfold V2.pullImageAndCheckUpdate at 1.
  rewrite events_bind, events_call.
  eexists _, _. find_in.
Qed.

Lemma checkContainer2_checked registryTag url auth c n (w : W) :
  c_Names c <> [] ->
  checked2 c (events (V2.checkContainer fl time_Parse json_Marshal base64_EncodeToString
                        registryTag url auth c n w)).
Proof.
  intros Hnames. unfold V2.checkContainer.
  destruct (c_Names c) as [|n0 ns]; [contradiction|].
  rewrite events_bind.
  destruct (resolveDigest_run c w) as [image [Hout Himage]]. rewrite Hout.
  rewrite events_bind, outcome_call, events_call, world_call.
  destruct (fst (ImageInspectWithRaw (c_ImageID c) _)) as [img|e].
  - right.
    rewrite events_bind. unfold V2.tagsToCheck. cbn [app].
    destruct (probeTags_first_pull "latest"
                (if negb (String.eqb registryTag "") then [registryTag] else [])
                image auth (ii_Os img +:+ "/" +:+ ii_Architecture img)
                (Strings.TrimPrefix n0 "/") url registryTag (c_ImageID c)
                (snd (ImageInspectWithRaw (c_ImageID c) (world (V2.resolveDigest fl c w)))))
      as [opts [r Hpull]].
    exists image, opts, r. split; [find_in|].
    destruct Himage as [->|[i [ts [Hi Htags]]]]; [left; reflexivity|].
    right. exists i, ts. split; [find_in | exact Htags].
  - left. exists e. find_in.
Qed.

Lemma checkContainer2_named registryTag url auth c n (w : W) u :
  outcome (V2.checkContainer fl time_Parse json_Marshal base64_EncodeToString
             registryTag url auth c n w) = Done u ->
  c_Names c <> [].
Proof.
  unfold V2.checkContainer. destruct (c_Names c); [discriminate|discriminate].
Qed.

Lemma checkLoop2_checked containers registryTag url auth :
  forall n (w : W) u,
    outcome (V2.checkLoop fl time_Parse json_Marshal base64_EncodeToString
               containers registryTag url auth n w) = Done u ->
    forall c, In c containers ->
      checked2 c (events (V2.checkLoop fl time_Parse json_Marshal base64_EncodeToString
                            containers registryTag url auth n w)).
Proof.
  induction containers as [|c0 rest IH]; intros n w u Hdone c Hc; [destruct Hc|].
  cbn [V2.checkLoop] in *.
  destruct (bind_Done_inv _ _ _ _ Hdone) as (a & w1 & e1 & Hfirst & Hrest & Hev).
  rewrite Hev. destruct Hc as [->|Hc].
  - apply checked2_app_l.
    change e1 with (events (Done a, w1, e1)). rewrite <- Hfirst.
    apply checkContainer2_checked.
    apply (checkContainer2_named registryTag url auth c n w a).
    rewrite Hfirst. reflexivity.
  - apply checked2_app_r. eapply IH; eassumption.
Qed.

Lemma call_Done_inv {R} (op : W -> R * W) (ev : R -> Event) w r w1 e1 :
  call op ev w = (Done r, w1, e1) -> r = fst (op w) /\ w1 = snd (op w) /\ e1 = [ev r].
Proof.
  unfold call. destruct (op w) as [r' w']. intros Hc. inversion Hc; subst. auto.
Qed.








End EmptyURL.

(** ** Containers of other registries *)

Section Foreign.
Context {W : Type} `{Runtime W}.
Variable fl : Flags.
Variable json_Marshal : AuthConfig -> string.
Variable base64_EncodeToString : string -> string.

(** Revision 1 leaves a container alone whose image reference does not
    contain the registry URL: no call reaches the runtime, the world is as it
    was, and the container is counted as skipped. *)
Lemma checkContainer1_skips_foreign fuel registryURL url auth c name ns updated skipped
    (w : W) :
  c_Names c = name :: ns ->
  Strings.Contains (c_Image c) registryURL = false ->
  V1.checkContainer fl json_Marshal base64_EncodeToString fuel registryURL url auth c
    (updated, skipped) w
  = (Done (updated, S skipped), w,
     events (logVerbose fl "Skipping %s (%s): not from our registry"
               [VStr name; VStr (c_Image c)] w)).
Proof.
  intros Hnames Hforeign. unfold V1.checkContainer. rewrite Hnames, Hforeign. cbn [negb].
  unfold bind, logVerbose. destruct (verbose fl && negb (quiet fl)); reflexivity.
Qed.

End Foreign.

(** ** Concrete runs *)

Section Runs.
Import Sim.

(** A mismatch on [linux/arm64] answered by a second mismatch on
    [linux/amd64]: the loop returns after two fallback pulls. *)
Example fallback_pulled_twice :
  let run := V1.pullImageAndCheckUpdate (H:=Sim.runtime) (flags false) marshal encode
               10 "registry.example.com/app:1.2" zeroAuthConfig "linux/arm64" "/app" ""
               world_mismatch in
  outcome run = Done (false, None) /\ count_ev is_fallback_pull (events run) = 2%nat.
Proof. vm_compute. split; reflexivity. Qed.

(** C1, on the scripted daemon: [app:latest] is a different, later build. *)
Lemma C1_witness :
  exists update,
    outcome (V2.pullImageAndCheckUpdate (H:=Sim.runtime) (flags false) parse marshal encode
               "registry.example.com/app:latest" zeroAuthConfig "linux/arm64" "app" ""
               "sha256:old" world0)
    = Done (update, None) /\
    (update = true <-> 1704067200000000000 < 1717200000000000000) /\
    (update = false <-> 1717200000000000000 <= 1704067200000000000).
Proof.
  eapply (C1_update_iff_remote_strictly_newer (H:=Sim.runtime)).
  - reflexivity.
  - reflexivity.
  - reflexivity.
  - vm_compute. discriminate.
  - vm_compute. discriminate.
  - vm_compute. discriminate.
  - reflexivity.
  - reflexivity.
Defined.

(** C2, on the scripted daemon: the pulled image is the one already running. *)
Lemma C2_witness :
  outcome (V2.pullImageAndCheckUpdate (H:=Sim.runtime) (flags false) parse marshal encode
             "registry.example.com/app:latest" zeroAuthConfig "linux/arm64" "app" ""
             "sha256:new" world0)
  = Done (false, None).
Proof.
  eapply (C2_no_update_on_same_identity_or_bad_timestamp (H:=Sim.runtime)).
  - reflexivity.
  - reflexivity.
  - reflexivity.
  - left. reflexivity.
Defined.

(** C4: the container runs [registry.example.com/app:1.2]; the tick pulls
    [registry.example.com/app:latest] first and never pulls the [1.2] tag. *)
Lemma C4_explicit_tag_not_probed :
  let tick := V2.checkContainers (H:=Sim.runtime) (flags false) parse marshal encode
                "registry.example.com" "alice" "secret" "" "http://hook" world0 in
  c_Image app = "registry.example.com/app:1.2" /\
  hd_error (pull_refs (events tick)) = Some "registry.example.com/app:latest" /\
  ~ In "registry.example.com/app:1.2" (pull_refs (events tick)).
Proof.
  vm_compute. split; [reflexivity|split; [reflexivity|]].
  intros [Heq|[Heq|[]]]; discriminate.
Qed.

Lemma C4_witness :
  let first := V2.pullImageAndCheckUpdate (H:=Sim.runtime) (flags false) parse marshal encode
                 ("registry.example.com/app" +:+ ":latest") zeroAuthConfig "linux/arm64"
                 "app" "" "sha256:old" world_canary in
  let refs := pull_refs (events (V2.probeTags (H:=Sim.runtime) (flags false) parse marshal
                encode (V2.tagsToCheck "canary") "registry.example.com/app:1.2"
                zeroAuthConfig "linux/arm64" "app" "" "canary" "sha256:old" world_canary)) in
  (exists r, outcome first = Done r) /\
  refs = ("registry.example.com/app" +:+ ":latest") ::
         match outcome first with
         | Done (true, None) => []
         | _ => if String.eqb "canary" "" then []
                else ["registry.example.com/app" +:+ ":" +:+ "canary"]
         end.
Proof.
  apply (C4_primary_tag_is_latest (H:=Sim.runtime)).
  split; [reflexivity | right; exists "1.2"; reflexivity].
Defined.

(** C5: two containers are updated in one tick with cleanup on, and the prune
    is requested twice. *)
Lemma C5_prune_requested_twice :
  let tick := V2.checkContainers (H:=Sim.runtime) (flags true) parse marshal encode
                "registry.example.com" "alice" "secret" "" "http://hook" world0 in
  count_ev is_success_log (events tick) = 2%nat /\
  count_ev is_prune (events tick) = 2%nat.
Proof. vm_compute. split; reflexivity. Qed.

(** C6, at the failing input: [redis] matches neither the registry host nor
    the user name, yet revision 2 pulls [redis:latest], recreates the
    container and sends a second success notification. *)
Theorem C6_foreign_container_pulled_and_recreated :
  let tick := V2.checkContainers (H:=Sim.runtime) (flags false) parse marshal encode
                "registry.example.com" "alice" "secret" "" "http://hook" world0 in
  Strings.Contains (c_Image redis) "registry.example.com" = false /\
  Strings.Contains (c_Image redis) "alice" = false /\
  pull_refs (events tick) = ["registry.example.com/app:latest"; "redis:latest"] /\
  map cfg_Image (created_configs (events tick)) = ["registry.example.com/app:1.2"; "redis"] /\
  count_ev is_success_post (events tick) = 2%nat.
Proof. vm_compute. repeat split; reflexivity. Qed.

(** The same daemon under revision 1, the pull of [app] reporting a newer
    image: [redis] is skipped, [app] alone is pulled and restarted, and one
    success notification is sent. *)
Example revision1_leaves_redis_alone :
  let tick := V1.checkContainers (H:=Sim.runtime) (flags false) marshal encode 10
                "registry.example.com" "alice" "secret" "http://hook"
                (with_pulls [Success [Decoded "Status: Downloaded newer image for app" ""]]
                   world0) in
  outcome tick = Done None /\
  pull_refs (events tick) = ["registry.example.com/app:1.2"] /\
  count_ev is_success_post (events tick) = 1%nat /\
  In (EvContainerRestart "c1" 10 (Success tt)) (events tick) /\
  ~ In (EvContainerRestart "c2" 10 (Success tt)) (events tick).
Proof.
  vm_compute. repeat split; try reflexivity.
  - let rec go := first [left; reflexivity | right; go] in go.
  - intros Hin. repeat (destruct Hin as [Hin|Hin]; [discriminate|]). exact Hin.
Qed.



(** C8: both containers are recreated from configurations whose image
    reference is the one the old containers had. *)
Lemma C8_image_reference_unchanged :
  let tick := V2.checkContainers (H:=Sim.runtime) (flags false) parse marshal encode
                "registry.example.com" "alice" "secret" "" "http://hook" world0 in
  count_ev is_success_log (events tick) = 2%nat /\
  map cfg_Image (created_configs (events tick))
    = map cfg_Image (snapshot_configs (events tick)) /\
  map cfg_Image (created_configs (events tick)) = ["registry.example.com/app:1.2"; "redis"].
Proof. vm_compute. repeat split; reflexivity. Qed.

Lemma C8_witness :
  exists inspect base settings newID,
    fst (ContainerInspect "c1" world0) = Success inspect /\
    cj_Base inspect = Some base /\
    cj_NetworkSettings inspect = Some settings /\
    events (V2.recreateContainer (H:=Sim.runtime) "c1" "app" "" world0) =
      [EvContainerInspect "c1" (Success inspect);
       EvContainerStop "c1" 10 (Success tt);
       EvContainerRemove "c1" (Success tt);
       EvContainerCreate (cj_Config inspect) (cjb_HostConfig base)
         (ns_Networks settings) "app" (Success newID);
       EvContainerStart newID (Success tt)].
Proof.
  apply (C8_recreate_replays_snapshot (H:=Sim.runtime)). reflexivity.
Defined.

(** C9: without a user name, [main] of revision 1 exits at startup. *)
Lemma C9_revision1_exits_at_startup :
  V1.main (H:=Sim.runtime) (flags false) marshal encode 10 (env "") 3 world0
  = (Exited 1, world0, [EvLog "REGISTRY_USERNAME and REGISTRY_PASSWORD must be set" []]).
Proof. reflexivity. Qed.

Lemma C9_witness :
  let run2 := V2.main (H:=Sim.runtime) (flags false) parse marshal encode (env "") 2 world0 in
  (forall code, outcome run2 = Exited code ->
                exists e, fst (NewClientWithOpts world0) = Failure e) /\
  Forall anonymous (events run2) /\
  V1.main (H:=Sim.runtime) (flags false) marshal encode 10 (env "") 2 world0
  = (Exited 1, world0, [EvLog "REGISTRY_USERNAME and REGISTRY_PASSWORD must be set" []]).
Proof.
  apply (C9_absent_credentials (H:=Sim.runtime)). left. reflexivity.
Defined.



End Runs.

(** * Further properties *)

(** ** Steps admitted by a tick *)

Section Conditional.
Context {W : Type} {P : list Event -> Prop} {O : Ending -> Prop} `{!LogInvariant P O}.

Lemma emits_logInfo_if fl format v :
  (quiet fl = false -> P [EvLog ("[INFO] " +:+ format) v]) ->
  produces P O (logInfo (W:=W) fl format v).
Proof.
  intros Hl. unfold logInfo. destruct (quiet fl) eqn:Hq; cbn [negb].
  - apply emits_ret.
  - apply emits_emit, Hl. reflexivity.
Qed.

Lemma emits_logVerbose_if fl format v :
  (verbose fl = true -> quiet fl = false -> P [EvLog ("[VERBOSE] " +:+ format) v]) ->
  produces P O (logVerbose (W:=W) fl format v).
Proof.
  intros Hl. unfold logVerbose.
  destruct (verbose fl) eqn:Hv, (quiet fl) eqn:Hq; cbn [negb andb];
    try apply emits_ret.
  apply emits_emit, Hl; reflexivity.
Qed.

End Conditional.

(** Walks through a computation as [emits_with] does, keeping what is known
    of the flags and of the tests passed on the way. *)
Ltac walk side :=
  repeat match goal with
    | |- produces _ _ (ret _) => apply emits_ret
    | |- produces _ _ (panic _) => apply emits_panic; side
    | |- produces _ _ out_of_fuel => apply emits_out_of_fuel; side
    | |- produces _ _ (logVerbose _ _ _) => apply emits_logVerbose_if; intros ? ?; side
    | |- produces _ _ (logInfo _ _ _) => apply emits_logInfo_if; intros ?; side
    | |- produces _ _ (logWarn _ _) => apply emits_logWarn; side
    | |- produces _ _ (logError _ _) => apply emits_logError; side
    | |- produces _ _ (logUpdate _ _) => apply emits_logUpdate; side
    | |- produces _ _ (logFatal _ _) => apply emits_logFatal; side
    | |- produces _ _ (newTicker _) => apply emits_newTicker; side
    | |- produces _ _ (bind _ _) => apply emits_bind; [ | intros ?]
    | |- produces _ _ (call _ _) => apply emits_call; intros ?; side
    | |- produces _ _ (match ?x with _ => _ end) => destruct x eqn:?
    end.

Ltac adm_step Hadm :=
  first
    [ apply (adm_info _ _ _ _ _ _ Hadm); [assumption | discriminate]
    | apply (adm_verbose _ _ _ _ _ _ Hadm); assumption
    | apply (adm_warn _ _ _ _ _ _ Hadm)
    | apply (adm_error _ _ _ _ _ _ Hadm)
    | apply (adm_update _ _ _ _ _ _ Hadm)
    | apply (adm_inspect _ _ _ _ _ _ Hadm)
    | apply (adm_tag _ _ _ _ _ _ Hadm)
    | apply (adm_remove _ _ _ _ _ _ Hadm)
    | apply (adm_cinspect _ _ _ _ _ _ Hadm)
    | apply (adm_stop _ _ _ _ _ _ Hadm)
    | apply (adm_cremove _ _ _ _ _ _ Hadm)
    | apply (adm_create _ _ _ _ _ _ Hadm)
    | apply (adm_start _ _ _ _ _ _ Hadm)
    | apply (adm_restart _ _ _ _ _ _ Hadm)
    | apply (adm_prune _ _ _ _ _ _ Hadm)
    | apply (adm_pull _ _ _ _ _ _ Hadm); solve [auto]
    | apply (adm_post _ _ _ _ _ _ Hadm);
      [apply String.eqb_neq; assumption | solve [auto; constructor]] ].

Ltac adm_side Hadm :=
  first [ solve [auto]
        | solve [exfalso; congruence]
        | constructor; [first [adm_step Hadm | solve [auto]] | constructor] ].

Section Frame.
Context {W : Type} `{Runtime W}.
Variable fl : Flags.
Variable url : string.
Variable N : string -> Prop.
Variable K : ImagePullOptions -> Prop.
Variable Q : Event -> Prop.
Variable O : Ending -> Prop.
Hypothesis Hadm : Admits fl url N K Q O.

#[local] Instance admitted_invariant : LogInvariant (Forall Q) O.
Proof.
  split; [constructor | | exact (adm_done _ _ _ _ _ _ Hadm)].
  intros a b Ha Hb. apply Forall_app. split; assumption.
Qed.

Lemma admitted_notify message :
  N message -> produces (Forall Q) O (notify (W:=W) fl url message).
Proof. intros Hn. unfold notify. walk ltac:(adm_side Hadm). Qed.

Lemma admitted_pruneImages :
  (forall e, N ("Error pruning old images: " +:+ e)) ->
  produces (Forall Q) O (pruneImages (W:=W) fl url).
Proof.
  intros Hn. unfold pruneImages. walk ltac:(adm_side Hadm).
  apply admitted_notify, Hn.
Qed.

(** *** Revision 2 *)

Section Revision2.
Variable time_Parse : string -> Result Z.
Variable json_Marshal : AuthConfig -> string.
Variable base64_EncodeToString : string -> string.
Hypothesis HN2 : forall body, notice2 body -> N body.

Lemma admitted_pullImageAndCheckUpdate2 image auth platform name notificationURL currentImgID :
  K (V2.pullOptions json_Marshal base64_EncodeToString auth platform) ->
  produces (Forall Q) O
    (V2.pullImageAndCheckUpdate (W:=W) fl time_Parse json_Marshal base64_EncodeToString
       image auth platform name notificationURL currentImgID).
Proof.
  intros Hk. unfold V2.pullImageAndCheckUpdate, V2.compareImages.
  walk ltac:(adm_side Hadm).
Qed.

Lemma admitted_probeTags tags image auth platform name notificationURL registryTag
    currentImgID :
  K (V2.pullOptions json_Marshal base64_EncodeToString auth platform) ->
  produces (Forall Q) O
    (V2.probeTags (W:=W) fl time_Parse json_Marshal base64_EncodeToString
       tags image auth platform name notificationURL registryTag currentImgID).
Proof.
  intros Hk. induction tags as [|tag rest IH]; cbn [V2.probeTags];
    [walk ltac:(adm_side Hadm)|].
  apply emits_bind; [walk ltac:(adm_side Hadm) | intros _].
  apply emits_bind; [apply admitted_pullImageAndCheckUpdate2, Hk | intros r].
  destruct r as [[|] [e|]]; unfold V2.retagAsLatest; walk ltac:(adm_side Hadm); exact IH.
Qed.

Lemma admitted_countEligible2 containers registryURL user n :
  produces (Forall Q) O (V2.countEligible (W:=W) fl containers registryURL user n).
Proof.
  revert n. induction containers as [|c rest IH]; intros n; cbn [V2.countEligible].
  - walk ltac:(adm_side Hadm).
  - apply emits_bind; [unfold V2.resolveDigest; walk ltac:(adm_side Hadm) | intros image].
    apply IH.
Qed.

Lemma admitted_checkContainer2 registryTag auth c n :
  (forall platform, K (V2.pullOptions json_Marshal base64_EncodeToString auth platform)) ->
  (c_Names c = [] -> O (Panics indexOutOfRange)) ->
  O (Panics nilDereference) ->
  produces (Forall Q) O
    (V2.checkContainer (W:=W) fl time_Parse json_Marshal base64_EncodeToString
       registryTag url auth c n).
Proof.
  intros Hk Hindex Hnil. unfold indexOutOfRange in Hindex.
  unfold V2.checkContainer, V2.resolveDigest, V2.recreateContainer.
  walk ltac:(adm_side Hadm).
  all: first [ apply admitted_probeTags, Hk
             | apply admitted_notify, HN2; constructor
             | apply admitted_pruneImages; intros e; apply HN2; constructor ].
Qed.

Lemma admitted_checkLoop2 containers registryTag auth :
  (forall platform, K (V2.pullOptions json_Marshal base64_EncodeToString auth platform)) ->
  (forall c, In c containers -> c_Names c = [] -> O (Panics indexOutOfRange)) ->
  O (Panics nilDereference) ->
  forall n,
    produces (Forall Q) O
      (V2.checkLoop (W:=W) fl time_Parse json_Marshal base64_EncodeToString
         containers registryTag url auth n).
Proof.
  intros Hk. induction containers as [|c rest IH]; intros Hindex Hnil n; cbn [V2.checkLoop].
  - apply emits_ret.
  - apply emits_bind.
    + apply admitted_checkContainer2; [exact Hk | apply Hindex; left; reflexivity | exact Hnil].
    + intros u. apply IH; [|exact Hnil]. intros c' Hc'. apply Hindex. right. exact Hc'.
Qed.

Lemma admitted_checkContainers2 registryURL user pass registryTag :
  (forall platform,
     K (V2.pullOptions json_Marshal base64_EncodeToString
          (V2.makeAuthConfig registryURL user pass) platform)) ->
  (forall r, Q (EvContainerList (V2.listOptions fl) r)) ->
  O (Panics indexOutOfRange) ->
  O (Panics nilDereference) ->
  produces (Forall Q) O
    (V2.checkContainers (W:=W) fl time_Parse json_Marshal base64_EncodeToString
       registryURL user pass registryTag url).
Proof.
  intros Hk Hlist Hindex Hnil. unfold V2.checkContainers.
  walk ltac:(adm_side Hadm).
  - apply admitted_countEligible2.
  - apply admitted_checkLoop2; [exact Hk | intros; exact Hindex | exact Hnil].
Qed.

Lemma admitted_runCheck2 getenv what :
  getenv "NOTIFICATION_URL" = url ->
  (forall platform,
     K (V2.pullOptions json_Marshal base64_EncodeToString
          (V2.makeAuthConfig (getenv "REGISTRY_URL") (getenv "REGISTRY_USERNAME")
             (getenv "REGISTRY_PASSWORD")) platform)) ->
  (forall r, Q (EvContainerList (V2.listOptions fl) r)) ->
  O (Panics indexOutOfRange) ->
  O (Panics nilDereference) ->
  (forall e, N (what +:+ ": " +:+ e)) ->
  produces (Forall Q) O
    (V2.runCheck (W:=W) fl time_Parse json_Marshal base64_EncodeToString getenv what).
Proof.
  intros Hurl Hk Hlist Hindex Hnil Hn. unfold V2.runCheck. cbv zeta. rewrite Hurl.
  apply emits_bind; [apply admitted_checkContainers2; assumption | intros err].
  destruct err as [e|]; [|apply emits_ret].
  apply emits_bind; [walk ltac:(adm_side Hadm) | intros _]. apply admitted_notify, Hn.
Qed.

Lemma admitted_tickerLoop2 getenv ticks :
  getenv "NOTIFICATION_URL" = url ->
  (forall platform,
     K (V2.pullOptions json_Marshal base64_EncodeToString
          (V2.makeAuthConfig (getenv "REGISTRY_URL") (getenv "REGISTRY_USERNAME")
             (getenv "REGISTRY_PASSWORD")) platform)) ->
  (forall r, Q (EvContainerList (V2.listOptions fl) r)) ->
  O (Panics indexOutOfRange) ->
  O (Panics nilDereference) ->
  O Starves ->
  (forall e, N ("Error in check cycle" +:+ ": " +:+ e)) ->
  produces (Forall Q) O
    (V2.tickerLoop (W:=W) fl time_Parse json_Marshal base64_EncodeToString getenv ticks).
Proof.
  intros Hurl Hk Hlist Hindex Hnil Hstarve Hn.
  induction ticks as [|n IH]; cbn [V2.tickerLoop].
  - apply emits_out_of_fuel, Hstarve.
  - apply emits_bind; [apply admitted_runCheck2; assumption | intros _; exact IH].
Qed.

(** The initial check and the loop over the ticker. *)
Lemma admitted_running2 getenv ticks :
  getenv "NOTIFICATION_URL" = url ->
  (forall platform,
     K (V2.pullOptions json_Marshal base64_EncodeToString
          (V2.makeAuthConfig (getenv "REGISTRY_URL") (getenv "REGISTRY_USERNAME")
             (getenv "REGISTRY_PASSWORD")) platform)) ->
  (forall r, Q (EvContainerList (V2.listOptions fl) r)) ->
  O (Panics indexOutOfRange) ->
  O (Panics nilDereference) ->
  O Starves ->
  (forall what e, N (what +:+ ": " +:+ e)) ->
  produces (Forall Q) O
    (V2.runCheck (W:=W) fl time_Parse json_Marshal base64_EncodeToString getenv
       "Error in initial check" ;;;
     V2.tickerLoop fl time_Parse json_Marshal base64_EncodeToString getenv ticks)%go.
Proof.
  intros Hurl Hk Hlist Hindex Hnil Hstarve Hn.
  apply emits_bind; [apply admitted_runCheck2; auto | intros _].
  apply admitted_tickerLoop2; auto.
Qed.

(** What [main] does once the Docker client exists. *)
Lemma admitted_started2 getenv ticks :
  getenv "NOTIFICATION_URL" = url ->
  (forall platform,
     K (V2.pullOptions json_Marshal base64_EncodeToString
          (V2.makeAuthConfig (getenv "REGISTRY_URL") (getenv "REGISTRY_USERNAME")
             (getenv "REGISTRY_PASSWORD")) platform)) ->
  (forall r, Q (EvContainerList (V2.listOptions fl) r)) ->
  O (Panics "non-positive interval for NewTicker") ->
  O (Panics indexOutOfRange) ->
  O (Panics nilDereference) ->
  O Starves ->
  (forall what e, N (what +:+ ": " +:+ e)) ->
  produces (Forall Q) O
    (logInfo (W:=W) fl "Starting puller service with interval: %ds" [VInt (interval fl)] ;;;
     logInfo fl "Cleanup enabled: %v" [VBool (cleanup fl)] ;;;
     logInfo fl "Label filtering enabled: %v" [VBool (labelEnable fl)] ;;;
     (if verbose fl then logInfo fl "Verbose logging enabled" [] else ret tt) ;;;
     (if quiet fl
      then logInfo fl "Quiet mode enabled - only errors and updates will be shown" []
      else ret tt) ;;;
     (if negb (String.eqb (getenv "NOTIFICATION_URL") "")
      then logInfo fl "Notifications enabled: %s" [VStr (getenv "NOTIFICATION_URL")]
      else ret tt) ;;;
     (if negb (String.eqb (getenv "REGISTRY_TAG") "")
      then logInfo fl "Additional registry tag to check: %s" [VStr (getenv "REGISTRY_TAG")]
      else ret tt) ;;;
     newTicker fl ;;;
     V2.runCheck fl time_Parse json_Marshal base64_EncodeToString getenv
       "Error in initial check" ;;;
     V2.tickerLoop fl time_Parse json_Marshal base64_EncodeToString getenv ticks)%go.
Proof.
  intros Hurl Hk Hlist Hticker Hindex Hnil Hstarve Hn.
  walk ltac:(adm_side Hadm).
  - apply admitted_runCheck2; auto.
  - apply admitted_tickerLoop2; auto.
Qed.

Lemma admitted_main2 getenv ticks :
  getenv "NOTIFICATION_URL" = url ->
  (forall platform,
     K (V2.pullOptions json_Marshal base64_EncodeToString
          (V2.makeAuthConfig (getenv "REGISTRY_URL") (getenv "REGISTRY_USERNAME")
             (getenv "REGISTRY_PASSWORD")) platform)) ->
  (forall r, Q (EvContainerList (V2.listOptions fl) r)) ->
  (forall r, Q (EvNewClient r)) ->
  (forall v, Q (EvLog "Error creating Docker client: %v" v)) ->
  O (Panics "non-positive interval for NewTicker") ->
  O (Panics indexOutOfRange) ->
  O (Panics nilDereference) ->
  O Starves ->
  O (Exits 1) ->
  (forall what e, N (what +:+ ": " +:+ e)) ->
  produces (Forall Q) O
    (V2.main (W:=W) fl time_Parse json_Marshal base64_EncodeToString getenv ticks).
Proof.
  intros Hurl Hk Hlist Hclient Hfatal Hticker Hindex Hnil Hstarve Hexit Hn. unfold V2.main. cbv zeta.
  apply emits_bind; [walk ltac:(adm_side Hadm) | intros rcli].
  destruct rcli as [[]|e]; [|walk ltac:(adm_side Hadm)].
  apply admitted_started2; assumption.
Qed.

End Revision2.

(** *** Revision 1 *)

Section Revision1.
Variable json_Marshal : AuthConfig -> string.
Variable base64_EncodeToString : string -> string.
Hypothesis HN1 : forall body, notice1 body -> N body.
Hypothesis Hstarve : O Starves.

Lemma admitted_decodeLoop fuel auth :
  (forall platform,
     K {| RegistryAuth := V1.encodeAuth json_Marshal base64_EncodeToString auth;
          Platform := platform |}) ->
  forall stream needsUpdate image name,
    produces (Forall Q) O
      (V1.decodeLoop (W:=W) fl json_Marshal base64_EncodeToString
         fuel stream needsUpdate image auth name).
Proof.
  intros Hk. induction fuel as [|n IH]; intros stream needsUpdate image name;
    cbn [V1.decodeLoop]; [apply emits_out_of_fuel, Hstarve|].
  destruct stream as [|[status error|e] rest]; walk ltac:(adm_side Hadm); apply IH.
Qed.

Lemma admitted_pullImageAndCheckUpdate1 fuel image auth platform name notificationURL :
  (forall platform,
     K {| RegistryAuth := V1.encodeAuth json_Marshal base64_EncodeToString auth;
          Platform := platform |}) ->
  produces (Forall Q) O
    (V1.pullImageAndCheckUpdate (W:=W) fl json_Marshal base64_EncodeToString
       fuel image auth platform name notificationURL).
Proof.
  intros Hk. unfold V1.pullImageAndCheckUpdate. walk ltac:(adm_side Hadm).
  apply admitted_decodeLoop, Hk.
Qed.

Lemma admitted_checkContainer1 fuel registryURL auth c k :
  (forall platform,
     K {| RegistryAuth := V1.encodeAuth json_Marshal base64_EncodeToString auth;
          Platform := platform |}) ->
  (c_Names c = [] -> O (Panics indexOutOfRange)) ->
  produces (Forall Q) O
    (V1.checkContainer (W:=W) fl json_Marshal base64_EncodeToString
       fuel registryURL url auth c k).
Proof.
  intros Hk Hindex. unfold indexOutOfRange in Hindex. unfold V1.checkContainer.
  walk ltac:(adm_side Hadm).
  all: first [ apply admitted_pullImageAndCheckUpdate1, Hk
             | apply admitted_notify, HN1; constructor
             | apply admitted_pruneImages; intros e; apply HN1; constructor ].
Qed.

Lemma admitted_checkLoop1 fuel containers registryURL auth :
  (forall platform,
     K {| RegistryAuth := V1.encodeAuth json_Marshal base64_EncodeToString auth;
          Platform := platform |}) ->
  (forall c, In c containers -> c_Names c = [] -> O (Panics indexOutOfRange)) ->
  forall k,
    produces (Forall Q) O
      (V1.checkLoop (W:=W) fl json_Marshal base64_EncodeToString
         fuel containers registryURL url auth k).
Proof.
  intros Hk. induction containers as [|c rest IH]; intros Hindex k; cbn [V1.checkLoop].
  - apply emits_ret.
  - apply emits_bind.
    + apply admitted_checkContainer1; [exact Hk | apply Hindex; left; reflexivity].
    + intros u. apply IH. intros c' Hc'. apply Hindex. right. exact Hc'.
Qed.

Lemma admitted_checkContainers1 fuel registryURL user pass :
  (forall platform,
     K {| RegistryAuth :=
            V1.encodeAuth json_Marshal base64_EncodeToString
              {| Username := user; Password := pass; ServerAddress := registryURL |};
          Platform := platform |}) ->
  (forall r, Q (EvContainerList (V1.listOptions fl) r)) ->
  O (Panics indexOutOfRange) ->
  produces (Forall Q) O
    (V1.checkContainers (W:=W) fl json_Marshal base64_EncodeToString
       fuel registryURL user pass url).
Proof.
  intros Hk Hlist Hindex. unfold V1.checkContainers.
  walk ltac:(adm_side Hadm).
  all: apply admitted_checkLoop1; [exact Hk | intros; exact Hindex].
Qed.

Lemma admitted_runCheck1 fuel getenv what :
  getenv "NOTIFICATION_URL" = url ->
  (forall platform,
     K {| RegistryAuth :=
            V1.encodeAuth json_Marshal base64_EncodeToString
              {| Username := getenv "REGISTRY_USERNAME";
                 Password := getenv "REGISTRY_PASSWORD";
                 ServerAddress := getenv "REGISTRY_URL" |};
          Platform := platform |}) ->
  (forall r, Q (EvContainerList (V1.listOptions fl) r)) ->
  O (Panics indexOutOfRange) ->
  (forall e, N (what +:+ ": " +:+ e)) ->
  produces (Forall Q) O
    (V1.runCheck (W:=W) fl json_Marshal base64_EncodeToString fuel getenv what).
Proof.
  intros Hurl Hk Hlist Hindex Hn. unfold V1.runCheck. cbv zeta. rewrite Hurl.
  apply emits_bind; [apply admitted_checkContainers1; assumption | intros err].
  destruct err as [e|]; [|apply emits_ret].
  apply emits_bind; [walk ltac:(adm_side Hadm) | intros _]. apply admitted_notify, Hn.
Qed.

Lemma admitted_tickerLoop1 fuel getenv ticks :
  getenv "NOTIFICATION_URL" = url ->
  (forall platform,
     K {| RegistryAuth :=
            V1.encodeAuth json_Marshal base64_EncodeToString
              {| Username := getenv "REGISTRY_USERNAME";
                 Password := getenv "REGISTRY_PASSWORD";
                 ServerAddress := getenv "REGISTRY_URL" |};
          Platform := platform |}) ->
  (forall r, Q (EvContainerList (V1.listOptions fl) r)) ->
  O (Panics indexOutOfRange) ->
  (forall e, N ("Error in check cycle" +:+ ": " +:+ e)) ->
  produces (Forall Q) O
    (V1.tickerLoop (W:=W) fl json_Marshal base64_EncodeToString fuel getenv ticks).
Proof.
  intros Hurl Hk Hlist Hindex Hn.
  induction ticks as [|n IH]; cbn [V1.tickerLoop].
  - apply emits_out_of_fuel, Hstarve.
  - apply emits_bind; [apply admitted_runCheck1; assumption | intros _; exact IH].
Qed.

(** The initial check and the loop over the ticker. *)
Lemma admitted_running1 fuel getenv ticks :
  getenv "NOTIFICATION_URL" = url ->
  (forall platform,
     K {| RegistryAuth :=
            V1.encodeAuth json_Marshal base64_EncodeToString
              {| Username := getenv "REGISTRY_USERNAME";
                 Password := getenv "REGISTRY_PASSWORD";
                 ServerAddress := getenv "REGISTRY_URL" |};
          Platform := platform |}) ->
  (forall r, Q (EvContainerList (V1.listOptions fl) r)) ->
  O (Panics indexOutOfRange) ->
  (forall what e, N (what +:+ ": " +:+ e)) ->
  produces (Forall Q) O
    (V1.runCheck (W:=W) fl json_Marshal base64_EncodeToString fuel getenv
       "Error in initial check" ;;;
     V1.tickerLoop fl json_Marshal base64_EncodeToString fuel getenv ticks)%go.
Proof.
  intros Hurl Hk Hlist Hindex Hn.
  apply emits_bind; [apply admitted_runCheck1; auto | intros _].
  apply admitted_tickerLoop1; auto.
Qed.

(** What [main] does once the credentials were found and the Docker client
    exists. *)
Lemma admitted_started1 fuel getenv ticks :
  getenv "NOTIFICATION_URL" = url ->
  (forall platform,
     K {| RegistryAuth :=
            V1.encodeAuth json_Marshal base64_EncodeToString
              {| Username := getenv "REGISTRY_USERNAME";
                 Password := getenv "REGISTRY_PASSWORD";
                 ServerAddress := getenv "REGISTRY_URL" |};
          Platform := platform |}) ->
  (forall r, Q (EvContainerList (V1.listOptions fl) r)) ->
  O (Panics "non-positive interval for NewTicker") ->
  O (Panics indexOutOfRange) ->
  (forall what e, N (what +:+ ": " +:+ e)) ->
  produces (Forall Q) O
    (logInfo (W:=W) fl "Starting puller service with interval: %ds" [VInt (interval fl)] ;;;
     logInfo fl "Cleanup enabled: %v" [VBool (cleanup fl)] ;;;
     logInfo fl "Label filtering enabled: %v" [VBool (labelEnable fl)] ;;;
     (if verbose fl then logInfo fl "Verbose logging enabled" [] else ret tt) ;;;
     (if quiet fl
      then logInfo fl "Quiet mode enabled - only errors and updates will be shown" []
      else ret tt) ;;;
     (if negb (String.eqb (getenv "NOTIFICATION_URL") "")
      then logInfo fl "Notifications enabled: %s" [VStr (getenv "NOTIFICATION_URL")]
      else ret tt) ;;;
     newTicker fl ;;;
     V1.runCheck fl json_Marshal base64_EncodeToString fuel getenv
       "Error in initial check" ;;;
     V1.tickerLoop fl json_Marshal base64_EncodeToString fuel getenv ticks)%go.
Proof.
  intros Hurl Hk Hlist Hticker Hindex Hn.
  walk ltac:(adm_side Hadm).
  - apply admitted_runCheck1; auto.
  - apply admitted_tickerLoop1; auto.
Qed.

Lemma admitted_main1 fuel getenv ticks :
  getenv "NOTIFICATION_URL" = url ->
  (forall platform,
     K {| RegistryAuth :=
            V1.encodeAuth json_Marshal base64_EncodeToString
              {| Username := getenv "REGISTRY_USERNAME";
                 Password := getenv "REGISTRY_PASSWORD";
                 ServerAddress := getenv "REGISTRY_URL" |};
          Platform := platform |}) ->
  (forall r, Q (EvContainerList (V1.listOptions fl) r)) ->
  (forall r, Q (EvNewClient r)) ->
  (forall v, Q (EvLog "Error creating Docker client: %v" v)) ->
  (forall v, Q (EvLog "REGISTRY_USERNAME and REGISTRY_PASSWORD must be set" v)) ->
  O (Panics "non-positive interval for NewTicker") ->
  O (Panics indexOutOfRange) ->
  O (Exits 1) ->
  (forall what e, N (what +:+ ": " +:+ e)) ->
  produces (Forall Q) O
    (V1.main (W:=W) fl json_Marshal base64_EncodeToString fuel getenv ticks).
Proof.
  intros Hurl Hk Hlist Hclient Hfatal Hguard Hticker Hindex Hexit Hn. unfold V1.main. cbv zeta.
  destruct (_ || _); [walk ltac:(adm_side Hadm)|].
  apply emits_bind; [walk ltac:(adm_side Hadm) | intros rcli].
  destruct rcli as [[]|e]; [|walk ltac:(adm_side Hadm)].
  apply admitted_started1; assumption.
Qed.

End Revision1.

End Frame.

(** ** Log levels *)

Section LogLevels.
Context {W : Type} `{Runtime W}.
Variable time_Parse : string -> Result Z.
Variable json_Marshal : AuthConfig -> string.
Variable base64_EncodeToString : string -> string.

(** X1. With [--quiet], neither revision prints an [[INFO]] or a [[VERBOSE]]
    line, at startup or in any tick, whatever [--verbose] says: only
    warnings, errors, updates and the fatal messages reach the log. *)
Theorem X1_quiet_silences_info_and_verbose (fl : Flags) (fuel : nat)
    (getenv : string -> string) (ticks : nat) (w : W) :
  quiet fl = true ->
  Forall (fun e => is_chatter e = false)
    (events (V2.main fl time_Parse json_Marshal base64_EncodeToString getenv ticks w)) /\
  Forall (fun e => is_chatter e = false)
    (events (V1.main fl json_Marshal base64_EncodeToString fuel getenv ticks w)).
Proof.
  intros Hq.
  assert (Hadm : Admits fl (getenv "NOTIFICATION_URL") (fun _ => True) (fun _ => True)
                   (fun e => is_chatter e = false) any_end).
  { split; intros; try reflexivity; try congruence. }
  split.
  - apply (emits_events (O:=any_end)).
    apply (admitted_main2 fl _ _ _ _ _ Hadm); intros; try reflexivity; exact I.
  - apply (emits_events (O:=any_end)).
    apply (admitted_main1 fl _ _ _ _ _ Hadm); intros; try reflexivity; exact I.
Qed.

(** X2. Without [--verbose], neither revision prints a [[VERBOSE]] line. *)
Theorem X2_verbose_lines_need_the_flag (fl : Flags) (fuel : nat)
    (getenv : string -> string) (ticks : nat) (w : W) :
  verbose fl = false ->
  Forall (fun e => is_verbose_line e = false)
    (events (V2.main fl time_Parse json_Marshal base64_EncodeToString getenv ticks w)) /\
  Forall (fun e => is_verbose_line e = false)
    (events (V1.main fl json_Marshal base64_EncodeToString fuel getenv ticks w)).
Proof.
  intros Hv.
  assert (Hadm : Admits fl (getenv "NOTIFICATION_URL") (fun _ => True) (fun _ => True)
                   (fun e => is_verbose_line e = false) any_end).
  { split; intros; try reflexivity; try congruence. }
  split.
  - apply (emits_events (O:=any_end)).
    apply (admitted_main2 fl _ _ _ _ _ Hadm); intros; try reflexivity; exact I.
  - apply (emits_events (O:=any_end)).
    apply (admitted_main1 fl _ _ _ _ _ Hadm); intros; try reflexivity; exact I.
Qed.

(** X3. The line [Quiet mode enabled - only errors and updates will be
    shown] is never printed: [main] passes it to [logInfo] only when [*quiet]
    is set, and [logInfo] prints only when it is not. *)
Theorem X3_quiet_banner_is_never_printed (fl : Flags) (fuel : nat)
    (getenv : string -> string) (ticks : nat) (w : W) (v : list Val) :
  ~ In (EvLog ("[INFO] " +:+ quietBanner) v)
       (events (V2.main fl time_Parse json_Marshal base64_EncodeToString getenv ticks w)) /\
  ~ In (EvLog ("[INFO] " +:+ quietBanner) v)
       (events (V1.main fl json_Marshal base64_EncodeToString fuel getenv ticks w)).
Proof.
  assert (Hadm : Admits fl (getenv "NOTIFICATION_URL") (fun _ => True) (fun _ => True)
                   (fun e => e <> EvLog ("[INFO] " +:+ quietBanner) v) any_end).
  { split; intros; try exact I; try discriminate.
    intros Heq. injection Heq as Hf _. apply H1.
    repeat (rewrite append_cons in Hf; injection Hf as Hf). exact Hf. }
  split; intros Hin.
  - assert (Hmain : emits (Forall (fun e => e <> EvLog ("[INFO] " +:+ quietBanner) v))
                      (V2.main fl time_Parse json_Marshal base64_EncodeToString getenv ticks)).
    { apply (admitted_main2 fl _ _ _ _ _ Hadm);
        intros; try exact I; try reflexivity; discriminate. }
    pose proof (emits_events _ Hmain w) as Hall.
    rewrite List.Forall_forall in Hall. exact (Hall _ Hin eq_refl).
  - assert (Hmain : emits (Forall (fun e => e <> EvLog ("[INFO] " +:+ quietBanner) v))
                      (V1.main fl json_Marshal base64_EncodeToString fuel getenv ticks)).
    { apply (admitted_main1 fl _ _ _ _ _ Hadm);
        intros; try exact I; try reflexivity; discriminate. }
    pose proof (emits_events _ Hmain w) as Hall.
    rewrite List.Forall_forall in Hall. exact (Hall _ Hin eq_refl).
Qed.

End LogLevels.

(** ** Notifications and credentials *)

Section Traffic.
Context {W : Type} `{Runtime W}.
Variable fl : Flags.
Variable time_Parse : string -> Result Z.
Variable json_Marshal : AuthConfig -> string.
Variable base64_EncodeToString : string -> string.

(** X4. With no [NOTIFICATION_URL] in the environment, neither revision ever
    calls [http.Post]: not for an update, not for an error. *)
Theorem X4_no_url_no_post (fuel : nat) (getenv : string -> string) (ticks : nat) (w : W) :
  getenv "NOTIFICATION_URL" = "" ->
  Forall (fun e => is_post e = false)
    (events (V2.main fl time_Parse json_Marshal base64_EncodeToString getenv ticks w)) /\
  Forall (fun e => is_post e = false)
    (events (V1.main fl json_Marshal base64_EncodeToString fuel getenv ticks w)).
Proof.
  intros Hurl.
  assert (Hadm : Admits fl "" (fun _ => True) (fun _ => True)
                   (fun e => is_post e = false) any_end).
  { split; intros; try reflexivity; try congruence. }
  split.
  - apply (emits_events (O:=any_end)).
    apply (admitted_main2 fl _ _ _ _ _ Hadm); intros; try reflexivity; try exact I.
    exact Hurl.
  - apply (emits_events (O:=any_end)).
    apply (admitted_main1 fl _ _ _ _ _ Hadm); intros; try reflexivity; try exact I.
    exact Hurl.
Qed.

(** X5. Every notification of a tick goes to the configured URL as
    [text/plain]. In revision 2 its body is [Successfully updated <name>] or
    [Error pruning old images: <error>]: a pull, an inspection or a
    recreation that fails is logged and never notified. Revision 1 also
    notifies [Error restarting <name>: <error>]. *)
Theorem X5_notifications_of_a_tick (fuel : nat)
    (registryURL user pass registryTag url : string) (w : W) :
  Forall (post_to url notice2)
    (events (V2.checkContainers fl time_Parse json_Marshal base64_EncodeToString
               registryURL user pass registryTag url w)) /\
  Forall (post_to url notice1)
    (events (V1.checkContainers fl json_Marshal base64_EncodeToString
               fuel registryURL user pass url w)).
Proof.
  split.
  - assert (Hadm : Admits fl url notice2 (fun _ => True) (post_to url notice2) any_end).
    { split; intros; try exact I. cbn. auto. }
    apply (emits_events (O:=any_end)).
    apply (admitted_checkContainers2 fl _ _ _ _ _ Hadm); intros; auto; exact I.
  - assert (Hadm : Admits fl url notice1 (fun _ => True) (post_to url notice1) any_end).
    { split; intros; try exact I. cbn. auto. }
    apply (emits_events (O:=any_end)).
    apply (admitted_checkContainers1 fl _ _ _ _ _ Hadm); intros; auto; exact I.
Qed.

Lemma pullOptions_payload registryURL user pass platform :
  RegistryAuth (V2.pullOptions json_Marshal base64_EncodeToString
                  (V2.makeAuthConfig registryURL user pass) platform)
  = if negb (String.eqb user "") && negb (String.eqb pass "")
    then V2.encodeAuth json_Marshal base64_EncodeToString
           (V2.makeAuthConfig registryURL user pass)
    else "".
Proof.
  unfold V2.pullOptions, V2.makeAuthConfig.
  destruct (negb (String.eqb user "") && negb (String.eqb pass "")) eqn:Hboth; [|reflexivity].
  destruct (_ || _); cbn [Username Password]; rewrite Hboth; reflexivity.
Qed.

(** X6. All pulls of a tick carry one and the same auth payload. In revision
    2 it is the encoded [AuthConfig] when both the user name and the password
    are set and empty otherwise; in revision 1 it is the encoded
    [AuthConfig] of the three environment values, on the fallback pulls as
    on the first. *)
Theorem X6_one_auth_payload_per_tick (fuel : nat)
    (registryURL user pass registryTag url : string) (w : W) :
  Forall (pull_with
            (if negb (String.eqb user "") && negb (String.eqb pass "")
             then V2.encodeAuth json_Marshal base64_EncodeToString
                    (V2.makeAuthConfig registryURL user pass)
             else ""))
    (events (V2.checkContainers fl time_Parse json_Marshal base64_EncodeToString
               registryURL user pass registryTag url w)) /\
  Forall (pull_with
            (V1.encodeAuth json_Marshal base64_EncodeToString
               {| Username := user; Password := pass; ServerAddress := registryURL |}))
    (events (V1.checkContainers fl json_Marshal base64_EncodeToString
               fuel registryURL user pass url w)).
Proof.
  split.
  - set (payload := if negb (String.eqb user "") && negb (String.eqb pass "")
                    then V2.encodeAuth json_Marshal base64_EncodeToString
                           (V2.makeAuthConfig registryURL user pass)
                    else "").
    assert (Hadm : Admits fl url (fun _ => True) (fun opts => RegistryAuth opts = payload)
                     (pull_with payload) any_end).
    { split; intros; try exact I. assumption. }
    apply (emits_events (O:=any_end)).
    apply (admitted_checkContainers2 fl _ _ _ _ _ Hadm); intros; try exact I.
    apply pullOptions_payload.
  - set (payload := V1.encodeAuth json_Marshal base64_EncodeToString
                      {| Username := user; Password := pass; ServerAddress := registryURL |}).
    assert (Hadm : Admits fl url (fun _ => True) (fun opts => RegistryAuth opts = payload)
                     (pull_with payload) any_end).
    { split; intros; try exact I. assumption. }
    apply (emits_events (O:=any_end)).
    apply (admitted_checkContainers1 fl _ _ _ _ _ Hadm); intros; try exact I.
    reflexivity.
Qed.

End Traffic.

(** ** How the process and a tick end *)

Lemma admits_anything (fl : Flags) (url : string) (O : Ending -> Prop) :
  O Returned -> Admits fl url (fun _ => True) (fun _ => True) (fun _ => True) O.
Proof. intros Hdone. split; intros; try exact I. exact Hdone. Qed.

Section Endings.
Context {W : Type} `{Runtime W}.
Variable fl : Flags.
Variable time_Parse : string -> Result Z.
Variable json_Marshal : AuthConfig -> string.
Variable base64_EncodeToString : string -> string.

Lemma tick2_error_inv registryURL user pass registryTag url (w : W) msg :
  outcome (V2.checkContainers fl time_Parse json_Marshal base64_EncodeToString
             registryURL user pass registryTag url w) = Done (Some msg) ->
  exists e, fst (ContainerList (V2.listOptions fl) w) = Failure e /\
            msg = "error listing containers: " +:+ e.
Proof.
  intros Hdone. unfold V2.checkContainers in Hdone.
  destruct (bind_Done_inv _ _ _ _ Hdone) as (rc & w1 & e1 & Hcall & Hrest & _).
  apply call_Done_inv in Hcall. destruct Hcall as (Hrc & _ & _).
  destruct rc as [cs|e].
  - exfalso.
    destruct (bind_Done_inv _ _ _ _ Hrest) as (n & w2 & e2 & _ & Hrest2 & _).
    destruct (bind_Done_inv _ _ _ _ Hrest2) as ([] & w3 & e3 & _ & Hrest3 & _).
    destruct (n =? 0)%nat.
    + destruct (bind_Done_inv _ _ _ _ Hrest3) as ([] & w4 & e4 & _ & Hret & _).
      discriminate Hret.
    + destruct (bind_Done_inv _ _ _ _ Hrest3) as (u & w4 & e4 & _ & Hrest4 & _).
      destruct (bind_Done_inv _ _ _ _ Hrest4) as ([] & w5 & e5 & _ & Hret & _).
      discriminate Hret.
  - exists e. split; [symmetry; exact Hrc|]. cbn in Hrest. congruence.
Qed.

Lemma tick1_error_inv fuel registryURL user pass url (w : W) msg :
  outcome (V1.checkContainers fl json_Marshal base64_EncodeToString
             fuel registryURL user pass url w) = Done (Some msg) ->
  exists e, fst (ContainerList (V1.listOptions fl) w) = Failure e /\
            msg = "error listing containers: " +:+ e.
Proof.
  intros Hdone. unfold V1.checkContainers in Hdone.
  destruct (bind_Done_inv _ _ _ _ Hdone) as (rc & w1 & e1 & Hcall & Hrest & _).
  apply call_Done_inv in Hcall. destruct Hcall as (Hrc & _ & _).
  destruct rc as [cs|e].
  - exfalso. cbv zeta in Hrest.
    destruct (bind_Done_inv _ _ _ _ Hrest) as ([] & w3 & e3 & _ & Hrest3 & _).
    destruct (_ =? 0)%nat.
    + destruct (bind_Done_inv _ _ _ _ Hrest3) as ([] & w4 & e4 & _ & Hret & _).
      discriminate Hret.
    + destruct (bind_Done_inv _ _ _ _ Hrest3) as ([u s] & w4 & e4 & _ & Hrest4 & _).
      destruct (bind_Done_inv _ _ _ _ Hrest4) as ([] & w5 & e5 & _ & Hret & _).
      discriminate Hret.
  - exists e. split; [symmetry; exact Hrc|]. cbn in Hrest. congruence.
Qed.

(** X8. A tick returns an error exactly when the listing of the containers
    fails; the error is [error listing containers: <error>] and the listing
    is then the only call the tick has made. No failure met while a
    container is checked or updated becomes the error of the tick. *)
Theorem X8_tick_error_is_listing_error (fuel : nat)
    (registryURL user pass registryTag url : string) (w : W) (msg : string) :
  let tick2 := V2.checkContainers fl time_Parse json_Marshal base64_EncodeToString
                 registryURL user pass registryTag url w in
  let tick1 := V1.checkContainers fl json_Marshal base64_EncodeToString
                 fuel registryURL user pass url w in
  (outcome tick2 = Done (Some msg) <->
   exists e, fst (ContainerList (V2.listOptions fl) w) = Failure e /\
             msg = "error listing containers: " +:+ e /\
             events tick2 = [EvContainerList (V2.listOptions fl) (Failure e)]) /\
  (outcome tick1 = Done (Some msg) <->
   exists e, fst (ContainerList (V1.listOptions fl) w) = Failure e /\
             msg = "error listing containers: " +:+ e /\
             events tick1 = [EvContainerList (V1.listOptions fl) (Failure e)]).
Proof.
  cbv zeta. split; split.
  - intros Hdone. destruct (tick2_error_inv _ _ _ _ _ _ _ Hdone) as (e & Hlist & Hmsg).
    exists e. repeat split; [exact Hlist | exact Hmsg |].
    unfold V2.checkContainers, bind, call.
    destruct (ContainerList (V2.listOptions fl) w) as [r w1]. cbn in Hlist. subst r.
    reflexivity.
  - intros (e & Hlist & Hmsg & _). subst msg.
    unfold V2.checkContainers, bind, call.
    destruct (ContainerList (V2.listOptions fl) w) as [r w1]. cbn in Hlist. subst r.
    reflexivity.
  - intros Hdone. destruct (tick1_error_inv _ _ _ _ _ _ _ Hdone) as (e & Hlist & Hmsg).
    exists e. repeat split; [exact Hlist | exact Hmsg |].
    unfold V1.checkContainers, bind, call.
    destruct (ContainerList (V1.listOptions fl) w) as [r w1]. cbn in Hlist. subst r.
    reflexivity.
  - intros (e & Hlist & Hmsg & _). subst msg.
    unfold V1.checkContainers, bind, call.
    destruct (ContainerList (V1.listOptions fl) w) as [r w1]. cbn in Hlist. subst r.
    reflexivity.
Qed.

End Endings.

(** ** Which containers revision 2 checks *)

Section Coverage.
Context {W : Type} `{Runtime W}.
Variable fl : Flags.
Variable time_Parse : string -> Result Z.
Variable json_Marshal : AuthConfig -> string.
Variable base64_EncodeToString : string -> string.

Lemma resolveDigest_plain c (w : W) :
  Strings.HasPrefix (c_Image c) "sha256:" = false ->
  V2.resolveDigest fl c w = (Done (c_Image c), w, []).
Proof. intros Hplain. unfold V2.resolveDigest. rewrite Hplain. reflexivity. Qed.

Lemma countEligible2_lower containers registryURL user :
  forall n (w : W) k,
    outcome (V2.countEligible fl containers registryURL user n w) = Done k ->
    (n <= k)%nat /\
    ((exists c, In c containers /\ plainly_eligible registryURL user c) -> (n < k)%nat).
Proof.
  induction containers as [|c rest IH]; intros n w k Hk; cbn [V2.countEligible] in Hk.
  - cbn in Hk. inversion Hk; subst. split; [lia|]. intros [c [[] _]].
  - destruct (bind_Done_inv _ _ _ _ Hk) as (image & w1 & e1 & Hres & Hrest & _).
    destruct (IH _ _ _ Hrest) as [Hle Hlt]. split.
    + destruct (_ || _); lia.
    + intros [c0 [[->|Hin] Hel]].
      * destruct Hel as [Hplain Hmatch].
        rewrite (resolveDigest_plain c0 w Hplain) in Hres. inversion Hres; subst.
        assert (Hor : Strings.Contains (c_Image c0) registryURL
                      || Strings.Contains (c_Image c0) user = true).
        { destruct Hmatch as [-> | ->]; [reflexivity | apply orb_true_r]. }
        rewrite Hor in Hle. lia.
      * specialize (Hlt (ex_intro _ c0 (conj Hin Hel))).
        destruct (_ || _); lia.
Qed.

Lemma countEligible2_no_user containers registryURL :
  forall n (w : W),
    outcome (V2.countEligible fl containers registryURL "" n w)
    = Done (n + length containers)%nat.
Proof.
  induction containers as [|c rest IH]; intros n w; cbn [V2.countEligible length].
  - cbn. f_equal. lia.
  - rewrite outcome_bind.
    destruct (resolveDigest_run fl c w) as [image [Hout _]]. rewrite Hout.
    rewrite Contains_empty, orb_true_r, IH. f_equal. lia.
Qed.

(** A tick of revision 2 that runs to its end with a positive count of
    eligible containers checks every listed container. *)
Lemma tick2_checks_all (registryURL user pass registryTag url : string)
    (w : W) (containers : list Container) :
  let tick := V2.checkContainers fl time_Parse json_Marshal base64_EncodeToString
                registryURL user pass registryTag url w in
  fst (ContainerList (V2.listOptions fl) w) = Success containers ->
  outcome tick = Done None ->
  (forall w1 n, outcome (V2.countEligible fl containers registryURL user 0%nat w1) = Done n ->
                (0 < n)%nat) ->
  forall c, In c containers -> checked2 c (events tick).
Proof.
  intros tick Hlist Hdone Heligible c Hc. subst tick. unfold V2.checkContainers in *.
  destruct (bind_Done_inv _ _ _ _ Hdone) as (rc & w1 & e1 & Hcall & Hrest & Hev).
  rewrite Hev. clear Hev Hdone. apply checked2_app_r.
  apply call_Done_inv in Hcall. destruct Hcall as (Hrc & _ & _).
  rewrite Hlist in Hrc. subst rc.
  destruct (bind_Done_inv _ _ _ _ Hrest) as (n & w2 & e2 & Hcount & Hrest2 & Hev).
  rewrite Hev. clear Hev Hrest. apply checked2_app_r.
  assert (Hpos : (0 < n)%nat).
  { apply (Heligible w1 n). rewrite Hcount. reflexivity. }
  destruct (bind_Done_inv _ _ _ _ Hrest2) as ([] & w3 & e3 & _ & Hrest3 & Hev).
  rewrite Hev. clear Hev Hrest2. apply checked2_app_r.
  destruct n as [|n]; [lia|]. cbn [Nat.eqb] in *.
  destruct (bind_Done_inv _ _ _ _ Hrest3) as (u & w4 & e4 & Hloop & _ & Hev).
  rewrite Hev. apply checked2_app_l.
  change e4 with (events (Done u, w4, e4)). rewrite <- Hloop.
  eapply checkLoop2_checked; [rewrite Hloop; reflexivity | exact Hc].
Qed.

(** X10. In revision 2 the registry test decides only whether a tick does
    anything: as soon as one listed container is eligible, a tick that runs to
    its end inspects the image of every listed container and, unless that
    inspection fails, pulls [latest] for it, eligible or not. *)
Theorem X10_revision2_checks_every_container (registryURL user pass registryTag url : string)
    (w : W) (containers : list Container) :
  let tick := V2.checkContainers fl time_Parse json_Marshal base64_EncodeToString
                registryURL user pass registryTag url w in
  fst (ContainerList (V2.listOptions fl) w) = Success containers ->
  outcome tick = Done None ->
  (exists c, In c containers /\ plainly_eligible registryURL user c) ->
  forall c, In c containers -> checked2 c (events tick).
Proof.
  intros tick Hlist Hdone Heligible. apply (tick2_checks_all _ _ _ _ _ _ _ Hlist Hdone).
  intros w1 n Hn.
  apply (countEligible2_lower containers registryURL user 0%nat w1 n Hn), Heligible.
Qed.

(** X15. Revision 2 starts without a registry user name, and the empty name
    is contained in every image reference: every listed container then
    counts as eligible, whatever [REGISTRY_URL] is, and a tick that runs to
    its end checks every container of a listing that is not empty. *)
Theorem X15_no_user_name_makes_every_container_eligible
    (registryURL pass registryTag url : string) (w : W) (containers : list Container) :
  let tick := V2.checkContainers fl time_Parse json_Marshal base64_EncodeToString
                registryURL "" pass registryTag url w in
  (forall n w1, outcome (V2.countEligible fl containers registryURL "" n w1)
                = Done (n + length containers)%nat) /\
  (fst (ContainerList (V2.listOptions fl) w) = Success containers ->
   outcome tick = Done None ->
   forall c, In c containers -> checked2 c (events tick)).
Proof.
  intros tick. split; [intros n w1; apply countEligible2_no_user|].
  intros Hlist Hdone c Hc.
  apply (tick2_checks_all _ _ _ _ _ _ _ Hlist Hdone); [|exact Hc].
  intros w1 n Hn. rewrite countEligible2_no_user in Hn. inversion Hn; subst.
  destruct containers; [destruct Hc|cbn; lia].
Qed.

End Coverage.

(** ** The decode loop of revision 1 *)

Lemma calls_app (a b : list Event) : calls (a ++ b) = calls a ++ calls b.
Proof. unfold calls. apply List.filter_app. Qed.

Section Decode.
Context {W : Type} `{Runtime W}.
Variable fl : Flags.
Variable json_Marshal : AuthConfig -> string.
Variable base64_EncodeToString : string -> string.

Lemma calls_logVerbose format v (w : W) : calls (events (logVerbose fl format v w)) = [].
Proof. unfold logVerbose. destruct (verbose fl && negb (quiet fl)); reflexivity. Qed.

Lemma calls_logInfo format v (w : W) : calls (events (logInfo fl format v w)) = [].
Proof. unfold logInfo. destruct (negb (quiet fl)); reflexivity. Qed.

Lemma logWarn_run format v (w : W) :
  logWarn format v w = (Done tt, w, [EvLog ("[WARN] " +:+ format) v]).
Proof. reflexivity. Qed.

(** On a stream without mismatch the loop reads on to the end of the stream
    or to the first undecodable message, calls nothing, and returns. *)
Lemma decodeLoop_clean stream :
  forall fuel needsUpdate image auth name (w : W),
    forallb (fun item => negb (is_mismatch item)) stream = true ->
    (length stream < fuel)%nat ->
    exists evs,
      V1.decodeLoop fl json_Marshal base64_EncodeToString fuel stream needsUpdate
        image auth name w
      = (Done (needsUpdate || reportsNewer stream, None), w, evs) /\
      calls evs = [].
Proof.
  induction stream as [|item rest IH]; intros fuel needsUpdate image auth name w Hclean Hfuel.
  - destruct fuel as [|fuel]; [cbn in Hfuel; lia|]. cbn. rewrite orb_false_r.
    exists []. split; reflexivity.
  - destruct fuel as [|fuel]; [cbn in Hfuel; lia|].
    cbn [forallb] in Hclean. apply andb_true_iff in Hclean. destruct Hclean as [Hitem Hrest].
    cbn [length] in Hfuel. assert (Hfuel' : (length rest < fuel)%nat) by lia.
    cbn [V1.decodeLoop reportsNewer].
    destruct item as [status error|e].
    + cbn [is_mismatch] in Hitem. apply negb_true_iff in Hitem. rewrite Hitem.
      destruct (String.eqb error "") eqn:Herr; cbn [negb andb orb].
      * destruct (Strings.Contains status "Downloaded newer image") eqn:Hnew.
        -- destruct (IH fuel true image auth name w Hrest Hfuel') as [evs [Hrun Hcalls]].
           rewrite (bind_Done _ _ _ _ _ _ (logVerbose_run fl _ _ w)), Hrun.
           cbn [outcome world events fst snd]. rewrite orb_true_r. cbn [orb].
           eexists. split; [reflexivity|].
           rewrite calls_app, calls_logVerbose, Hcalls. reflexivity.
        -- cbn [orb]. apply IH; assumption.
      * destruct (IH fuel needsUpdate image auth name w Hrest Hfuel') as [evs [Hrun Hcalls]].
        unfold bind, logWarn, emit. rewrite Hrun.
        eexists. split; [reflexivity|]. cbn. exact Hcalls.
    + rewrite (bind_Done _ _ _ _ _ _ (logVerbose_run fl _ _ w)).
      cbn. rewrite orb_false_r, app_nil_r.
      eexists. split; [reflexivity|]. apply calls_logVerbose.
Qed.

(** X11. When the pull succeeds and its stream carries no manifest mismatch,
    the detector of revision 1 issues that one pull and nothing else, returns
    without error once it has read the stream, and reports an update exactly
    when a message without error, read before any undecodable one, has a
    status containing [Downloaded newer image]. *)
Theorem X11_detector_of_revision1_on_a_clean_stream fuel image auth platform name url
    (w w1 : W) stream :
  let opts := {| RegistryAuth := V1.encodeAuth json_Marshal base64_EncodeToString auth;
                 Platform := platform |} in
  ImagePull image opts w = (Success stream, w1) ->
  forallb (fun item => negb (is_mismatch item)) stream = true ->
  (length stream < fuel)%nat ->
  let run := V1.pullImageAndCheckUpdate fl json_Marshal base64_EncodeToString
               fuel image auth platform name url w in
  outcome run = Done (reportsNewer stream, None) /\
  world run = w1 /\
  calls (events run) = [EvImagePull image opts (Success stream)].
Proof.
  intros opts Hpull Hclean Hfuel run. subst run. unfold V1.pullImageAndCheckUpdate.
  fold opts. rewrite (bind_Done _ _ _ _ _ _ (call_eq _ _ _ _ _ Hpull)).
  destruct (decodeLoop_clean stream fuel false image auth name w1 Hclean Hfuel)
    as [evs [Hrun Hcalls]].
  rewrite Hrun. cbn [outcome world events fst snd orb].
  repeat split.
  change (calls ([EvImagePull image opts (Success stream)] ++ evs)
          = [EvImagePull image opts (Success stream)]).
  rewrite calls_app, Hcalls. reflexivity.
Qed.

(** X12. A manifest mismatch met after messages that carry none makes the
    loop pull once from [linux/amd64], with the same auth payload, and go on
    with the new stream alone: what was left of the first stream is never
    read. If the new stream carries no mismatch, the loop returns what the
    two streams told; if the fallback pull itself fails, the loop returns
    that error and no update, whatever the first stream had told. *)
Theorem X12_one_fallback_when_the_fallback_is_clean fuel before status error rest
    needsUpdate image auth name (w : W) :
  let opts := fallbackOptions (V1.encodeAuth json_Marshal base64_EncodeToString auth) in
  let run := V1.decodeLoop fl json_Marshal base64_EncodeToString fuel
               (before ++ Decoded status error :: rest) needsUpdate image auth name w in
  forallb is_plain before = true ->
  Strings.Contains error "no matching manifest" = true ->
  match fst (ImagePull image opts w) with
  | Failure e =>
      (length before < fuel)%nat ->
      outcome run = Done (false, Some ("error pulling image (fallback): " +:+ e)) /\
      calls (events run) = [EvImagePull image opts (Failure e)]
  | Success stream =>
      forallb (fun item => negb (is_mismatch item)) stream = true ->
      (length before + length stream + 1 < fuel)%nat ->
      outcome run = Done (needsUpdate || reportsNewer before || reportsNewer stream, None) /\
      calls (events run) = [EvImagePull image opts (Success stream)]
  end.
Proof.
  intros opts run Hbefore Hmismatch. subst run.
  revert fuel needsUpdate.
  induction before as [|item before IH]; intros fuel needsUpdate.
  - cbn [app length reportsNewer]. rewrite orb_false_r.
    assert (Herr : String.eqb error "" = false).
    { destruct (String.eqb_spec error "") as [->|]; [discriminate Hmismatch|reflexivity]. }
    destruct (ImagePull image opts w) as [r w1] eqn:Hpull. cbn [fst].
    destruct r as [stream|e].
    + intros Hclean Hfuel. destruct fuel as [|fuel]; [lia|].
      cbn [V1.decodeLoop]. rewrite Herr, Hmismatch. cbn [negb].
      destruct (decodeLoop_clean stream fuel needsUpdate image auth name w1 Hclean
                  ltac:(cbn in Hfuel; lia)) as [evs [Hrun Hcalls]].
      rewrite (bind_Done _ _ _ _ _ _ (logWarn_run _ _ w)).
      rewrite (bind_Done _ _ _ _ _ _ (logVerbose_run fl _ _ w)).
      fold opts. rewrite (bind_Done _ _ _ _ _ _ (call_eq _ _ _ _ _ Hpull)), Hrun.
      cbn [outcome world events fst snd]. split; [reflexivity|].
      rewrite !calls_app, calls_logVerbose, Hcalls. reflexivity.
    + intros Hfuel. destruct fuel as [|fuel]; [lia|].
      cbn [V1.decodeLoop]. rewrite Herr, Hmismatch. cbn [negb].
      rewrite (bind_Done _ _ _ _ _ _ (logWarn_run _ _ w)).
      rewrite (bind_Done _ _ _ _ _ _ (logVerbose_run fl _ _ w)).
      fold opts. rewrite (bind_Done _ _ _ _ _ _ (call_eq _ _ _ _ _ Hpull)).
      cbn [outcome world events fst snd ret]. split; [reflexivity|].
      rewrite !calls_app, calls_logVerbose. reflexivity.
  - cbn [forallb] in Hbefore. apply andb_true_iff in Hbefore.
    destruct Hbefore as [Hitem Hbefore]. specialize (IH Hbefore).
    destruct item as [status0 error0|e0]; [|discriminate Hitem].
    cbn [is_plain] in Hitem. apply negb_true_iff in Hitem.
    assert (Hstep : forall fuel',
      V1.decodeLoop fl json_Marshal base64_EncodeToString (S fuel')
        ((Decoded status0 error0 :: before) ++ Decoded status error :: rest)
        needsUpdate image auth name w
      = let next := V1.decodeLoop fl json_Marshal base64_EncodeToString fuel'
                      (before ++ Decoded status error :: rest)
                      (needsUpdate
                       || (String.eqb error0 ""
                           && Strings.Contains status0 "Downloaded newer image"))
                      image auth name w in
        (outcome next, world next,
         (if String.eqb error0 ""
          then if Strings.Contains status0 "Downloaded newer image"
               then events (logVerbose fl "New image downloaded for %s" [VStr name] w)
               else []
          else [EvLog "[WARN] Pull error: %s" [VStr error0]]) ++ events next)).
    { intros fuel'. cbn [app V1.decodeLoop]. rewrite Hitem.
      destruct (String.eqb error0 ""); cbn [negb andb].
      - destruct (Strings.Contains status0 "Downloaded newer image").
        + rewrite (bind_Done _ _ _ _ _ _ (logVerbose_run fl _ _ w)).
          rewrite orb_true_r. reflexivity.
        + rewrite orb_false_r. apply run_eta.
      - rewrite orb_false_r. unfold bind, logWarn, emit.
        destruct (V1.decodeLoop _ _ _ _ _ _ _ _ _ w) as [[o w'] evs]. reflexivity. }
    assert (Hlogs : calls
      (if String.eqb error0 ""
       then if Strings.Contains status0 "Downloaded newer image"
            then events (logVerbose fl "New image downloaded for %s" [VStr name] w)
            else []
       else [EvLog "[WARN] Pull error: %s" [VStr error0]]) = []).
    { destruct (String.eqb error0 ""); [|reflexivity].
      destruct (Strings.Contains status0 "Downloaded newer image");
        [apply calls_logVerbose|reflexivity]. }
    cbn [reportsNewer length].
    specialize (IH (pred fuel)
                  (needsUpdate
                   || (String.eqb error0 ""
                       && Strings.Contains status0 "Downloaded newer image"))).
    destruct (fst (ImagePull image opts w)) as [stream|e].
    + intros Hclean Hfuel. destruct fuel as [|fuel]; [lia|]. cbn [pred] in IH.
      destruct (IH Hclean ltac:(cbn in Hfuel |- *; lia)) as [Hout Hcalls].
      rewrite Hstep. cbv zeta. cbn [outcome events fst snd].
      rewrite <- !orb_assoc in *. split; [exact Hout|].
      rewrite calls_app, Hlogs. exact Hcalls.
    + intros Hfuel. destruct fuel as [|fuel]; [lia|]. cbn [pred] in IH.
      destruct (IH ltac:(cbn in Hfuel |- *; lia)) as [Hout Hcalls].
      rewrite Hstep. cbv zeta. cbn [outcome events fst snd]. split; [exact Hout|].
      rewrite calls_app, Hlogs. exact Hcalls.
Qed.

End Decode.

(** ** The reference probed for a tag *)

Lemma first_part_cons (a : ascii) (s : string) :
  V2.first_part (String a s) = if Ascii.eqb a ":" then "" else String a (V2.first_part s).
Proof.
  unfold V2.first_part. cbn [Strings.Split].
  destruct (Ascii.eqb a ":"); [reflexivity|].
  destruct (Strings.Split s ":") as [|h t] eqn:E; [|reflexivity].
  exfalso. exact (Split_nonempty _ _ E).
Qed.

Lemma first_part_no_colon (s : string) : Strings.Contains (V2.first_part s) ":" = false.
Proof.
  induction s as [|a s IH]; [reflexivity|].
  rewrite first_part_cons. destruct (Ascii.eqb a ":") eqn:Ha; [reflexivity|].
  cbn [Strings.Contains Strings.HasPrefix]. rewrite Ha, IH. reflexivity.
Qed.

Lemma first_part_plain (s : string) :
  Strings.Contains s ":" = false -> V2.first_part s = s.
Proof.
  induction s as [|a s IH]; intros Hc; [reflexivity|].
  apply Contains_colon_cons in Hc. destruct Hc as [Ha Hs].
  rewrite first_part_cons, Ha, (IH Hs). reflexivity.
Qed.

Lemma imageWithTag_first_part (image tag : string) :
  V2.imageWithTag image tag = V2.first_part image +:+ ":" +:+ tag.
Proof.
  unfold V2.imageWithTag. destruct (Strings.Contains image ":") eqn:Hc; cbn [negb].
  - reflexivity.
  - rewrite (first_part_plain image Hc). reflexivity.
Qed.

Lemma retag_target (image tag : string) :
  V2.first_part (V2.imageWithTag image tag) +:+ ":latest" = V2.imageWithTag image "latest".
Proof.
  rewrite !imageWithTag_first_part.
  rewrite (first_part_app _ tag (first_part_no_colon image)). reflexivity.
Qed.

(** X13. The reference probed for a tag is what precedes the first colon of
    the container's image reference, then a colon and the tag, whether or
    not the reference has a colon; so a colon of a registry port cuts the
    reference as the colon of a tag does. Building the reference again from
    a probed reference only replaces the tag, and the name under which the
    retag block tags an image is the reference probed for [latest]. *)
Theorem X13_probed_reference_is_cut_at_the_first_colon (image tag tag' : string) :
  V2.imageWithTag image tag = V2.first_part image +:+ ":" +:+ tag /\
  Strings.Contains (V2.first_part image) ":" = false /\
  (forall host rest, Strings.Contains host ":" = false ->
     image = host +:+ ":" +:+ rest -> V2.imageWithTag image tag = host +:+ ":" +:+ tag) /\
  V2.imageWithTag (V2.imageWithTag image tag) tag' = V2.imageWithTag image tag' /\
  V2.first_part (V2.imageWithTag image tag) +:+ ":latest" = V2.imageWithTag image "latest".
Proof.
  pose proof (first_part_no_colon image) as Hfp.
  split; [apply imageWithTag_first_part|].
  split; [exact Hfp|].
  split; [intros host rest Hhost ->; apply imageWithTag_tagged, Hhost|].
  split; [|apply retag_target].
  rewrite !imageWithTag_first_part.
  rewrite (first_part_app _ tag Hfp). reflexivity.
Qed.

Section FirstProbe.
Context {W : Type} `{Runtime W}.
Variable fl : Flags.
Variable time_Parse : string -> Result Z.
Variable json_Marshal : AuthConfig -> string.
Variable base64_EncodeToString : string -> string.

(** X14. When the first probe, that of [latest], finds an update, the tag
    loop stops there: the second tag is not probed. The retag block runs
    exactly when [REGISTRY_TAG] is itself [latest]; the image is then tagged
    under its own reference and, if that call succeeds, this very reference
    is removed again. *)
Theorem X14_update_on_the_first_probe registryTag image auth platform name url
    currentImgID (w w1 : W) e1 :
  let ref := V2.imageWithTag image "latest" in
  V2.pullImageAndCheckUpdate fl time_Parse json_Marshal base64_EncodeToString
    ref auth platform name url currentImgID w = (Done (true, None), w1, e1) ->
  let rt := fst (ImageTag ref ref w1) in
  let w2 := snd (ImageTag ref ref w1) in
  let rr := fst (ImageRemove ref removeOptions w2) in
  let run := V2.probeTags fl time_Parse json_Marshal base64_EncodeToString
               (V2.tagsToCheck registryTag) image auth platform name url registryTag
               currentImgID w in
  outcome run = Done true /\
  events run
  = events (logVerbose fl "Checking container %s with tag %s" [VStr name; VStr "latest"] w)
    ++ e1
    ++ (if String.eqb registryTag "latest"
        then EvImageTag ref ref rt ::
             match rt with
             | Failure e =>
                 [EvLog "[WARN] Failed to retag %s as latest: %v" [VStr ref; VErr e]]
             | Success _ =>
                 [EvLog "[UPDATE] Retagged %s as latest" [VStr ref];
                  EvImageRemove ref removeOptions rr;
                  match rr with
                  | Failure e =>
                      EvLog "[WARN] Failed to remove old tag %s: %v" [VStr ref; VErr e]
                  | Success _ => EvLog "[UPDATE] Removed old tag %s" [VStr ref]
                  end]
             end
        else []).
Proof.
  intros ref Hpull rt w2 rr run. subst run.
  assert (Htarget : V2.first_part ref +:+ ":latest" = ref).
  { apply retag_target. }
  unfold V2.tagsToCheck. cbn [app V2.probeTags]. fold ref.
  rewrite (bind_Done _ _ _ _ _ _ (logVerbose_run fl _ _ w)).
  rewrite (bind_Done _ _ _ _ _ _ Hpull). cbn [outcome world events fst snd].
  destruct (String.eqb registryTag "latest") eqn:Htag.
  - apply String.eqb_eq in Htag. subst registryTag.
    pose proof (retagAsLatest_run (W:=W) "latest" ref w1 ltac:(discriminate)) as Hretag.
    cbn zeta in Hretag. rewrite Htarget in Hretag.
    rewrite (bind_Done _ _ _ _ _ _ Hretag).
    cbn [outcome world events fst snd ret]. split; [reflexivity|].
    unfold retagEvents. rewrite Htarget, app_nil_r. reflexivity.
  - assert (Hskip : V2.retagAsLatest registryTag "latest" ref = ret tt).
    { unfold V2.retagAsLatest. rewrite (String.eqb_sym "latest" registryTag), Htag, andb_false_r.
      reflexivity. }
    rewrite Hskip. cbn. rewrite !app_nil_r. split; reflexivity.
Qed.

End FirstProbe.

(** ** Recreation *)

Section Steps.
Context {W : Type} `{Runtime W}.
Variable fl : Flags.

(** X16. The recreation of a container calls the daemon for an initial run
    of the steps inspect, stop, remove, create and start, in this order, and
    ends in one of three ways. It returns no error exactly when all five
    calls were made and succeeded. It returns an error when a call failed:
    that call is the last one made and the only one that failed, and the
    error names its step and carries the daemon's error. It panics, reading
    through a nil pointer, when the inspection answer lacks its base or its
    network settings: this happens while the arguments of the creation are
    built, after the container was stopped and removed, so the old container
    is gone and none is created in its place. A failure of the creation
    leaves the daemon in the same state. *)
Theorem X16_recreation_stops_at_the_first_failure containerID name url (w : W) :
  let run := V2.recreateContainer containerID name url w in
  (exists rest, map Some recreation_steps = map step_of (events run) ++ rest) /\
  match outcome run with
  | Done None =>
      length (events run) = 5%nat /\
      Forall (fun e => failure_of e = None) (events run)
  | Done (Some msg) =>
      exists before last step err,
        events run = before ++ [last] /\
        Forall (fun e => failure_of e = None) before /\
        step_of last = Some step /\
        failure_of last = Some err /\
        msg = step +:+ " failed: " +:+ err
  | Panicked msg =>
      msg = nilDereference /\
      exists inspect,
        incomplete inspect /\
        events run = [EvContainerInspect containerID (Success inspect);
                      EvContainerStop containerID 10 (Success tt);
                      EvContainerRemove containerID (Success tt)]
  | _ => False
  end.
Proof.
  cbv zeta. unfold V2.recreateContainer, bind, call, ret, panic.
  destruct (ContainerInspect containerID w) as [[inspect|e] w1];
    cbn [outcome world events fst snd app];
    [|split; [eexists; reflexivity|];
      exists [], (EvContainerInspect containerID (Failure e)), "inspect", e;
      repeat split; constructor].
  destruct (ContainerStop containerID 10 w1) as [[[]|e] w2];
    cbn [outcome world events fst snd app];
    [|split; [eexists; reflexivity|];
      exists [EvContainerInspect containerID (Success inspect)],
             (EvContainerStop containerID 10 (Failure e)), "stop", e;
      repeat split; repeat constructor].
  destruct (ContainerRemove containerID w2) as [[[]|e] w3];
    cbn [outcome world events fst snd app];
    [|split; [eexists; reflexivity|];
      exists [EvContainerInspect containerID (Success inspect);
              EvContainerStop containerID 10 (Success tt)],
             (EvContainerRemove containerID (Failure e)), "remove", e;
      repeat split; repeat constructor].
  destruct (cj_Base inspect) as [base|] eqn:Hbase;
    cbn [outcome world events fst snd app];
    [|split; [eexists; reflexivity|]; split; [reflexivity|];
      exists inspect; split; [left; exact Hbase | reflexivity]].
  destruct (cj_NetworkSettings inspect) as [settings|] eqn:Hsettings;
    cbn [outcome world events fst snd app];
    [|split; [eexists; reflexivity|]; split; [reflexivity|];
      exists inspect; split; [right; exact Hsettings | reflexivity]].
  destruct (ContainerCreate (cj_Config inspect) (cjb_HostConfig base)
              (ns_Networks settings) name w3) as [[newID|e] w4];
    cbn [outcome world events fst snd app];
    [|split; [eexists; reflexivity|];
      exists [EvContainerInspect containerID (Success inspect);
              EvContainerStop containerID 10 (Success tt);
              EvContainerRemove containerID (Success tt)],
             (EvContainerCreate (cj_Config inspect) (cjb_HostConfig base)
                (ns_Networks settings) name (Failure e)), "create", e;
      repeat split; repeat constructor].
  destruct (ContainerStart newID w4) as [[[]|e] w5];
    cbn [outcome world events fst snd app].
  - split; [exists []; reflexivity|]. split; [reflexivity|]. repeat constructor.
  - split; [eexists; reflexivity|].
    exists [EvContainerInspect containerID (Success inspect);
            EvContainerStop containerID 10 (Success tt);
            EvContainerRemove containerID (Success tt);
            EvContainerCreate (cj_Config inspect) (cjb_HostConfig base)
              (ns_Networks settings) name (Success newID)],
           (EvContainerStart newID (Failure e)), "start", e.
    repeat split; repeat constructor.
Qed.

End Steps.

(** ** One notification per update *)

Lemma hushed_app (a b : list Event) : hushed a -> hushed b -> hushed (a ++ b).
Proof.
  intros [Ha1 Ha2] [Hb1 Hb2]. unfold hushed. rewrite !count_ev_app, Ha1, Ha2, Hb1, Hb2.
  split; reflexivity.
Qed.

Lemma notified_app url (a b : list Event) :
  notified url a -> notified url b -> notified url (a ++ b).
Proof.
  unfold notified. intros Ha Hb. rewrite !count_ev_app, Ha, Hb.
  destruct (String.eqb url ""); reflexivity.
Qed.

Lemma hushed_notified url (evs : list Event) : hushed evs -> notified url evs.
Proof.
  intros [Hp Hs]. unfold notified. rewrite Hp, Hs. destruct (String.eqb url ""); reflexivity.
Qed.

#[global] Instance hushed_invariant : LogInvariant hushed any_end.
Proof. split; [split; reflexivity | exact hushed_app | exact I]. Qed.

#[global] Instance notified_invariant url : LogInvariant (notified url) any_end.
Proof.
  split; [unfold notified; destruct (String.eqb url ""); reflexivity
         | exact (notified_app url) | exact I].
Qed.

Lemma emits_hushed_notified {W A} url (m : M W A) : emits hushed m -> emits (notified url) m.
Proof. intros Hm w. split; [apply hushed_notified, Hm | exact I]. Qed.

Ltac hushed_side := first [ exact I | split; reflexivity ].

Ltac notified_side :=
  first [ exact I | apply hushed_notified; split; reflexivity ].

Section Notifications.
Context {W : Type} `{Runtime W}.
Variable fl : Flags.
Variable time_Parse : string -> Result Z.
Variable json_Marshal : AuthConfig -> string.
Variable base64_EncodeToString : string -> string.

Lemma hushed_notify url message :
  other_body message -> emits hushed (notify (W:=W) fl url message).
Proof.
  intros Hm. unfold notify. walk hushed_side.
  apply emits_call. intros r. split; [|reflexivity].
  unfold count_ev. cbn [List.filter is_success_post]. rewrite Hm. reflexivity.
Qed.

Lemma hushed_pruneImages url : emits hushed (pruneImages (W:=W) fl url).
Proof. unfold pruneImages. walk hushed_side. apply hushed_notify. reflexivity. Qed.

(** The notification of an update is posted whenever a URL is set, whatever
    becomes of the post. *)
Lemma notify_success url name (w : W) :
  count_ev is_success_post (events (notify fl url ("Successfully updated " +:+ name) w))
  = (if String.eqb url "" then 0%nat else 1%nat) /\
  count_ev is_success_log (events (notify fl url ("Successfully updated " +:+ name) w))
  = 0%nat.
Proof.
  split; [|exact (proj2 (emits_events _ (neutral_notify fl url _) w))].
  unfold notify. destruct (String.eqb url ""); [reflexivity|].
  rewrite events_bind, outcome_call, events_call, world_call, count_ev_app.
  unfold count_ev at 1. cbn [List.filter is_success_post]. rewrite HasPrefix_app.
  match goal with
  | |- (_ + count_ev is_success_post (events (?K ?w1)))%nat = _ =>
      assert (Hk : emits hushed K)
  end.
  { destruct (fst (http_Post url "text/plain" _ w)); walk hushed_side. }
  rewrite (proj1 (emits_events _ Hk _)). reflexivity.
Qed.

Lemma hushed_pullImageAndCheckUpdate2 image auth platform name url currentImgID :
  emits hushed (V2.pullImageAndCheckUpdate (W:=W) fl time_Parse json_Marshal
                  base64_EncodeToString image auth platform name url currentImgID).
Proof. unfold V2.pullImageAndCheckUpdate, V2.compareImages. walk hushed_side. Qed.

Lemma hushed_probeTags tags image auth platform name url registryTag currentImgID :
  emits hushed (V2.probeTags (W:=W) fl time_Parse json_Marshal base64_EncodeToString
                  tags image auth platform name url registryTag currentImgID).
Proof.
  induction tags as [|tag rest IH]; cbn [V2.probeTags]; [walk hushed_side|].
  apply emits_bind; [walk hushed_side | intros _].
  apply emits_bind; [apply hushed_pullImageAndCheckUpdate2 | intros r].
  destruct r as [[|] [e|]]; unfold V2.retagAsLatest; walk hushed_side; exact IH.
Qed.

Lemma hushed_resolveDigest c : emits hushed (V2.resolveDigest (W:=W) fl c).
Proof. unfold V2.resolveDigest. walk hushed_side. Qed.

Lemma hushed_countEligible containers registryURL user n :
  emits hushed (V2.countEligible (W:=W) fl containers registryURL user n).
Proof.
  revert n. induction containers as [|c rest IH]; intros n; cbn [V2.countEligible].
  - walk hushed_side.
  - apply emits_bind; [apply hushed_resolveDigest | intros image; apply IH].
Qed.

Lemma hushed_recreateContainer containerID name url :
  emits hushed (V2.recreateContainer (W:=W) containerID name url).
Proof. unfold V2.recreateContainer. walk hushed_side. Qed.

Lemma hushed_decodeLoop fuel :
  forall stream needsUpdate image auth name,
    emits hushed (V1.decodeLoop (W:=W) fl json_Marshal base64_EncodeToString
                    fuel stream needsUpdate image auth name).
Proof.
  induction fuel as [|n IH]; intros stream needsUpdate image auth name;
    cbn [V1.decodeLoop]; [walk hushed_side|].
  destruct stream as [|[status error|e] rest]; walk hushed_side; apply IH.
Qed.

Lemma hushed_pullImageAndCheckUpdate1 fuel image auth platform name url :
  emits hushed (V1.pullImageAndCheckUpdate (W:=W) fl json_Marshal base64_EncodeToString
                  fuel image auth platform name url).
Proof. unfold V1.pullImageAndCheckUpdate. walk hushed_side. apply hushed_decodeLoop. Qed.

(** The success line, the notification and the prune block of revision 2. *)
Lemma notified_success2 url name (n : nat) :
  emits (notified url)
    (logUpdate (W:=W) ("Successfully updated " +:+ name) [] ;;;
     notify fl url ("Successfully updated " +:+ name) ;;;
     pruneImages fl url ;;;
     ret n).
Proof.
  intros w. split; [|exact I]. unfold notified.
  rewrite events_bind. cbn [logUpdate emit outcome world events fst snd].
  rewrite events_bind, outcome_notify, events_bind, outcome_pruneImages.
  destruct (notify_success url name w) as [Hn1 Hn2].
  destruct (emits_events _ (hushed_pruneImages url)
              (world (notify fl url ("Successfully updated " +:+ name) w))) as [Hp1 Hp2].
  rewrite !count_ev_app, Hn1, Hn2, Hp1, Hp2.
  unfold count_ev. cbn [List.filter is_success_post is_success_log].
  change ("[UPDATE] " +:+ "Successfully updated " +:+ name)
    with ("[UPDATE] Successfully updated " +:+ name).
  rewrite HasPrefix_app. destruct (String.eqb url ""); reflexivity.
Qed.

(** The notification, the success line and the prune block of revision 1. *)
Lemma notified_success1 url name (k : nat * nat) :
  emits (notified url)
    (notify (W:=W) fl url ("Successfully updated " +:+ name) ;;;
     logUpdate ("Successfully updated " +:+ name) [] ;;;
     pruneImages fl url ;;;
     ret k).
Proof.
  intros w. split; [|exact I]. unfold notified.
  rewrite events_bind, outcome_notify, events_bind.
  cbn [logUpdate emit outcome world events fst snd].
  rewrite events_bind, outcome_pruneImages.
  destruct (notify_success url name w) as [Hn1 Hn2].
  destruct (emits_events _ (hushed_pruneImages url)
              (world (notify fl url ("Successfully updated " +:+ name) w))) as [Hp1 Hp2].
  rewrite !count_ev_app, Hn1, Hn2, Hp1, Hp2.
  unfold count_ev. cbn [List.filter is_success_post is_success_log].
  change ("[UPDATE] " +:+ "Successfully updated " +:+ name)
    with ("[UPDATE] Successfully updated " +:+ name).
  rewrite HasPrefix_app. destruct (String.eqb url ""); reflexivity.
Qed.

Lemma notified_checkContainer2 registryTag url auth c n :
  emits (notified url)
    (V2.checkContainer (W:=W) fl time_Parse json_Marshal base64_EncodeToString
       registryTag url auth c n).
Proof.
  unfold V2.checkContainer. destruct (c_Names c) as [|n0 ns]; [emits_with notified_side|].
  apply emits_bind; [apply emits_hushed_notified, hushed_resolveDigest | intros image].
  apply emits_bind; [emits_with notified_side | intros ri].
  destruct ri as [img|e]; [|emits_with notified_side].
  apply emits_bind; [apply emits_hushed_notified, hushed_probeTags | intros needsUpdate].
  destruct needsUpdate; cbn [negb]; [|emits_with notified_side].
  apply emits_bind; [emits_with notified_side | intros _].
  apply emits_bind; [apply emits_hushed_notified, hushed_recreateContainer | intros err].
  destruct err as [e|]; [emits_with notified_side|].
  apply notified_success2.
Qed.

Lemma notified_checkLoop2 containers registryTag url auth :
  forall n, emits (notified url)
    (V2.checkLoop (W:=W) fl time_Parse json_Marshal base64_EncodeToString
       containers registryTag url auth n).
Proof.
  induction containers as [|c rest IH]; intros n; cbn [V2.checkLoop].
  - emits_with notified_side.
  - apply emits_bind; [apply notified_checkContainer2 | intros u; apply IH].
Qed.

Lemma notified_checkContainer1 fuel registryURL url auth c k :
  emits (notified url)
    (V1.checkContainer (W:=W) fl json_Marshal base64_EncodeToString
       fuel registryURL url auth c k).
Proof.
  unfold V1.checkContainer. destruct k as [updated skipped].
  destruct (c_Names c) as [|name ns]; [emits_with notified_side|].
  destruct (negb (Strings.Contains (c_Image c) registryURL)); [emits_with notified_side|].
  apply emits_bind; [emits_with notified_side | intros ri].
  destruct ri as [img|e]; [|emits_with notified_side].
  apply emits_bind; [emits_with notified_side | intros _].
  apply emits_bind;
    [apply emits_hushed_notified, hushed_pullImageAndCheckUpdate1 | intros r].
  destruct r as [[|] [e|]]; try solve [emits_with notified_side].
  apply emits_bind; [emits_with notified_side | intros _].
  apply emits_bind; [emits_with notified_side | intros rr].
  destruct rr as [[]|e].
  - apply notified_success1.
  - cbv zeta. apply emits_bind; [emits_with notified_side | intros _].
    apply emits_bind; [apply emits_hushed_notified, hushed_notify; reflexivity | intros _].
    emits_with notified_side.
Qed.

Lemma notified_checkLoop1 fuel containers registryURL url auth :
  forall k, emits (notified url)
    (V1.checkLoop (W:=W) fl json_Marshal base64_EncodeToString
       fuel containers registryURL url auth k).
Proof.
  induction containers as [|c rest IH]; intros k; cbn [V1.checkLoop].
  - emits_with notified_side.
  - apply emits_bind; [apply notified_checkContainer1 | intros u; apply IH].
Qed.

(** X17. In a tick of either revision, with a notification URL set, the
    number of posts announcing an update equals the number of success lines:
    every updated container is announced once, whatever becomes of the post,
    and nothing else is announced as an update; without a URL no such post
    is made. This holds however the tick ends. *)
Theorem X17_one_success_notification_per_update fuel registryURL user pass registryTag url
    (w : W) :
  notified url
    (events (V2.checkContainers fl time_Parse json_Marshal base64_EncodeToString
               registryURL user pass registryTag url w)) /\
  notified url
    (events (V1.checkContainers fl json_Marshal base64_EncodeToString
               fuel registryURL user pass url w)).
Proof.
  split.
  - apply (emits_events (O:=any_end)). unfold V2.checkContainers.
    apply emits_bind; [emits_with notified_side | intros rc].
    destruct rc as [containers|e]; [|emits_with notified_side].
    apply emits_bind; [apply emits_hushed_notified, hushed_countEligible | intros eligible].
    apply emits_bind; [emits_with notified_side | intros _].
    destruct (eligible =? 0)%nat; [emits_with notified_side|].
    apply emits_bind; [apply notified_checkLoop2 | intros updated].
    emits_with notified_side.
  - apply (emits_events (O:=any_end)). unfold V1.checkContainers.
    apply emits_bind; [emits_with notified_side | intros rc].
    destruct rc as [containers|e]; [|emits_with notified_side].
    cbv zeta.
    apply emits_bind; [emits_with notified_side | intros _].
    destruct (V1.countEligible containers registryURL 0 =? 0)%nat;
      [emits_with notified_side|].
    apply emits_bind; [apply notified_checkLoop1 | intros k].
    destruct k as [updated skipped]. emits_with notified_side.
Qed.

End Notifications.

(** ** A tick without eligible container, and the start of the ticker *)

Section Idle.
Context {W : Type} `{Runtime W}.
Variable fl : Flags.
Variable time_Parse : string -> Result Z.
Variable json_Marshal : AuthConfig -> string.
Variable base64_EncodeToString : string -> string.

Lemma logInfo_run format v (w : W) :
  logInfo fl format v w = (Done tt, w, events (logInfo fl format v w)).
Proof. unfold logInfo. destruct (negb (quiet fl)); reflexivity. Qed.

Lemma logInfo_if_run (b : bool) format v (w : W) :
  (if b then logInfo fl format v else ret tt) w
  = (Done tt, w, events ((if b then logInfo fl format v else ret tt) w)).
Proof. destruct b; [apply logInfo_run|reflexivity]. Qed.

Lemma calls_logInfo_if (b : bool) format v (w : W) :
  calls (events ((if b then logInfo fl format v else ret tt) w)) = [].
Proof. destruct b; [apply calls_logInfo|reflexivity]. Qed.

Lemma countEligible1_foreign containers registryURL :
  Forall (fun c => Strings.Contains (c_Image c) registryURL = false) containers ->
  forall n, V1.countEligible containers registryURL n = n.
Proof.
  induction 1 as [|c rest Hc _ IH]; intros n; cbn [V1.countEligible]; [reflexivity|].
  rewrite Hc. apply IH.
Qed.

Lemma countEligible2_foreign containers registryURL user :
  Forall (plainly_foreign registryURL user) containers ->
  forall n (w : W), V2.countEligible fl containers registryURL user n w = (Done n, w, []).
Proof.
  induction 1 as [|c rest (Hplain & Hurl & Huser) _ IH]; intros n w;
    cbn [V2.countEligible]; [reflexivity|].
  rewrite (bind_Done _ _ _ _ _ _ (resolveDigest_plain fl c w Hplain)).
  rewrite Hurl, Huser, IH. reflexivity.
Qed.

(** X18. A tick that finds no eligible container in the listing (this
    includes an empty listing) makes no call besides the listing itself: no
    image is inspected, nothing is pulled and nothing is posted; it returns
    without error. In revision 1 a container is not eligible when its image
    reference does not contain the registry URL; in revision 2 when, being no
    digest, it contains neither the registry URL nor the user name. *)
Theorem X18_tick_without_eligible_container fuel registryURL user pass registryTag url
    (w : W) (containers1 containers2 : list Container) :
  let tick1 := V1.checkContainers fl json_Marshal base64_EncodeToString fuel
                 registryURL user pass url w in
  let tick2 := V2.checkContainers fl time_Parse json_Marshal base64_EncodeToString
                 registryURL user pass registryTag url w in
  fst (ContainerList (V1.listOptions fl) w) = Success containers1 ->
  fst (ContainerList (V2.listOptions fl) w) = Success containers2 ->
  Forall (fun c => Strings.Contains (c_Image c) registryURL = false) containers1 ->
  Forall (plainly_foreign registryURL user) containers2 ->
  (outcome tick1 = Done None /\
   calls (events tick1) = [EvContainerList (V1.listOptions fl) (Success containers1)]) /\
  (outcome tick2 = Done None /\
   calls (events tick2) = [EvContainerList (V2.listOptions fl) (Success containers2)]).
Proof.
  intros tick1 tick2 Hlist1 Hlist2 Hforeign1 Hforeign2. subst tick1 tick2. split.
  - unfold V1.checkContainers.
    destruct (ContainerList (V1.listOptions fl) w) as [r w1] eqn:Hcall.
    cbn [fst] in Hlist1. subst r.
    rewrite (bind_Done _ _ _ _ _ _ (call_eq _ _ _ _ _ Hcall)).
    rewrite (countEligible1_foreign _ _ Hforeign1). cbn [Nat.eqb].
    rewrite (bind_Done _ _ _ _ _ _ (logVerbose_run fl _ _ w1)).
    rewrite (bind_Done _ _ _ _ _ _ (logVerbose_run fl _ _ w1)).
    cbn [outcome world events fst snd ret]. split; [reflexivity|].
    rewrite !calls_app, !calls_logVerbose. reflexivity.
  - unfold V2.checkContainers.
    destruct (ContainerList (V2.listOptions fl) w) as [r w1] eqn:Hcall.
    cbn [fst] in Hlist2. subst r.
    rewrite (bind_Done _ _ _ _ _ _ (call_eq _ _ _ _ _ Hcall)).
    rewrite (bind_Done _ _ _ _ _ _ (countEligible2_foreign _ _ _ Hforeign2 0%nat w1)).
    cbn [Nat.eqb].
    rewrite (bind_Done _ _ _ _ _ _ (logVerbose_run fl _ _ w1)).
    rewrite (bind_Done _ _ _ _ _ _ (logVerbose_run fl _ _ w1)).
    cbn [outcome world events fst snd ret]. split; [reflexivity|].
    rewrite !calls_app, !calls_logVerbose. reflexivity.
Qed.

Lemma wrap64_refused (seconds : Z) :
  refused_interval seconds -> (wrap64 (seconds * 1000000000) <=? 0) = true.
Proof.
  intros Hrange. apply Z.leb_le. unfold wrap64.
  change (2 ^ 63) with 9223372036854775808.
  change (2 ^ 64) with 18446744073709551616.
  destruct Hrange as [Hlow|Hhigh].
  - rewrite Z.mod_small by lia. lia.
  - replace ((seconds * 1000000000 + 9223372036854775808) mod 18446744073709551616)
      with (seconds * 1000000000 + 9223372036854775808 - 18446744073709551616).
    + lia.
    + rewrite <- (Z.mod_add _ (-1) 18446744073709551616) by lia.
      rewrite Z.mod_small by lia. lia.
Qed.

Lemma newTicker_refused (w : W) :
  refused_interval (interval fl) ->
  newTicker fl w = (Panicked "non-positive interval for NewTicker", w, []).
Proof. intros Hrange. unfold newTicker. rewrite (wrap64_refused _ Hrange). reflexivity. Qed.

(** X19. Started with an interval that [time.NewTicker] refuses, the program
    panics right after its startup lines and before the initial check: the
    client has been created and no other call is made. This is so for every
    value of the flag from -9223372036 to 0 seconds and, the product with
    [time.Second] being taken in [int64], also for every value from
    9223372037 to 18446744073 seconds. *)
Theorem X19_refused_interval_panics_before_the_first_check fuel getenv ticks (w : W) :
  let run1 := V1.main fl json_Marshal base64_EncodeToString fuel getenv ticks w in
  let run2 := V2.main fl time_Parse json_Marshal base64_EncodeToString getenv ticks w in
  refused_interval (interval fl) ->
  fst (NewClientWithOpts w) = Success tt ->
  getenv "REGISTRY_USERNAME" <> "" ->
  getenv "REGISTRY_PASSWORD" <> "" ->
  (outcome run1 = Panicked "non-positive interval for NewTicker" /\
   calls (events run1) = [EvNewClient (Success tt)]) /\
  (outcome run2 = Panicked "non-positive interval for NewTicker" /\
   calls (events run2) = [EvNewClient (Success tt)]).
Proof.
  intros run1 run2 Hrange Hclient Huser Hpass. subst run1 run2.
  destruct (NewClientWithOpts w) as [r w1] eqn:Hcall. cbn [fst] in Hclient. subst r.
  apply String.eqb_neq in Huser, Hpass. split.
  - unfold V1.main. rewrite Huser, Hpass. cbn [orb].
    rewrite (bind_Done _ _ _ _ _ _ (call_eq _ _ _ _ _ Hcall)).
    rewrite !(bind_Done _ _ _ _ _ _ (logInfo_run _ _ w1)).
    rewrite !(bind_Done _ _ _ _ _ _ (logInfo_if_run _ _ _ w1)).
    rewrite outcome_bind, events_bind, (newTicker_refused w1 Hrange).
    cbn [outcome world events fst snd]. split; [reflexivity|].
    rewrite !calls_app, !calls_logInfo, !calls_logInfo_if. reflexivity.
  - unfold V2.main.
    rewrite (bind_Done _ _ _ _ _ _ (call_eq _ _ _ _ _ Hcall)).
    rewrite !(bind_Done _ _ _ _ _ _ (logInfo_run _ _ w1)).
    rewrite !(bind_Done _ _ _ _ _ _ (logInfo_if_run _ _ _ w1)).
    rewrite outcome_bind, events_bind, (newTicker_refused w1 Hrange).
    cbn [outcome world events fst snd]. split; [reflexivity|].
    rewrite !calls_app, !calls_logInfo, !calls_logInfo_if. reflexivity.
Qed.

End Idle.

(** ** The counters of the second loop *)

Section Tally.
Context {W : Type} `{Runtime W}.
Variable fl : Flags.
Variable time_Parse : string -> Result Z.
Variable json_Marshal : AuthConfig -> string.
Variable base64_EncodeToString : string -> string.

(** A step that prints no success line leaves the count to what follows. *)
Lemma plain_step {A B} (m : M W A) (f : A -> M W B) (w : W) (b : B) :
  (forall w, successes (events (m w)) = 0%nat) ->
  outcome (bind m f w) = Done b ->
  exists a w1, outcome (f a w1) = Done b /\
               successes (events (bind m f w)) = successes (events (f a w1)).
Proof.
  intros Hm Hdone.
  destruct (bind_Done_inv _ _ _ _ Hdone) as (a & w1 & e1 & Hrun & Hrest & Hev).
  exists a, w1. split; [exact Hrest|].
  rewrite Hev. unfold successes. rewrite count_ev_app.
  specialize (Hm w). rewrite Hrun in Hm. unfold successes in Hm. cbn [events snd] in Hm.
  rewrite Hm. reflexivity.
Qed.

(** The success line counts for one. *)
Lemma success_step {B} name (f : unit -> M W B) (w : W) :
  outcome (bind (logUpdate ("Successfully updated " +:+ name) []) f w) = outcome (f tt w) /\
  successes (events (bind (logUpdate ("Successfully updated " +:+ name) []) f w))
  = S (successes (events (f tt w))).
Proof.
  unfold bind, logUpdate, emit. destruct (f tt w) as [[o w1] e1].
  cbn [outcome events fst snd]. split; [reflexivity|].
  unfold successes, count_ev. cbn [app List.filter is_success_log].
  change ("[UPDATE] " +:+ "Successfully updated " +:+ name)
    with ("[UPDATE] Successfully updated " +:+ name).
  rewrite HasPrefix_app. reflexivity.
Qed.

Lemma successes_neutral {A} (m : M W A) :
  emits neutral m -> forall w, successes (events (m w)) = 0%nat.
Proof. intros Hm w. exact (proj2 (emits_events _ Hm w)). Qed.

Lemma successes_pruneImages url (w : W) : successes (events (pruneImages fl url w)) = 0%nat.
Proof. exact (proj2 (count_pruneImages fl url w)). Qed.

Lemma successes_logInfo format v (w : W) : successes (events (logInfo fl format v w)) = 0%nat.
Proof. unfold logInfo. destruct (negb (quiet fl)); [destruct v|]; reflexivity. Qed.

Lemma successes_logVerbose format v (w : W) :
  successes (events (logVerbose fl format v w)) = 0%nat.
Proof.
  unfold logVerbose. destruct (verbose fl && negb (quiet fl)); [destruct v|]; reflexivity.
Qed.

Ltac plain :=
  first [ apply successes_pruneImages
        | apply successes_neutral;
          first [ apply neutral_notify
                | apply neutral_pullImageAndCheckUpdate1
                | apply neutral_probeTags
                | apply neutral_resolveDigest
                | apply neutral_recreateContainer
                | emits_with neutral_side ] ].

Ltac step Hdone a w :=
  let Hev := fresh "Hev" in
  apply plain_step in Hdone; [|solve [intros; plain]];
  destruct Hdone as (a & w & Hdone & Hev); rewrite Hev; clear Hev.

Ltac tallied Hdone :=
  cbn in Hdone |- *; inversion Hdone; subst; repeat split; lia.

(** One container of revision 1: the update counter grows by the number of
    success lines, which is at most one and zero for a skipped container;
    the skip counter grows by one exactly for a skipped container. *)
Lemma checkContainer1_tally fuel registryURL url auth c u0 s0 (w : W) u s :
  let run := V1.checkContainer fl json_Marshal base64_EncodeToString
               fuel registryURL url auth c (u0, s0) w in
  outcome run = Done (u, s) ->
  u = (u0 + successes (events run))%nat /\
  if foreign1 registryURL c
  then s = S s0 /\ successes (events run) = 0%nat
  else s = s0 /\ (successes (events run) <= 1)%nat.
Proof.
  cbv zeta. unfold V1.checkContainer, foreign1. intros Hdone.
  destruct (c_Names c) as [|name ns]; [discriminate Hdone|].
  destruct (negb (Strings.Contains (c_Image c) registryURL)).
  - step Hdone a1 w1. tallied Hdone.
  - step Hdone ri w1. destruct ri as [img|e]; [|step Hdone a2 w2; tallied Hdone].
    step Hdone a2 w2. step Hdone r w3.
    destruct r as [[|] [e|]]; try solve [step Hdone a4 w4; tallied Hdone].
    step Hdone a4 w4. step Hdone rr w5. destruct rr as [[]|e].
    + cbv zeta in Hdone |- *. step Hdone a6 w6.
      destruct (success_step name (fun _ => pruneImages fl url ;;; ret (S u0, s0)) w6)
        as [Hout Hcount].
      rewrite Hout in Hdone. rewrite Hcount. step Hdone a7 w7. tallied Hdone.
    + cbv zeta in Hdone |- *. step Hdone a6 w6. step Hdone a7 w7. tallied Hdone.
Qed.

(** One container of revision 2: the update counter grows by the number of
    success lines, which is at most one. *)
Lemma checkContainer2_tally registryTag url auth c n (w : W) u :
  let run := V2.checkContainer fl time_Parse json_Marshal base64_EncodeToString
               registryTag url auth c n w in
  outcome run = Done u ->
  u = (n + successes (events run))%nat /\ (successes (events run) <= 1)%nat.
Proof.
  cbv zeta. unfold V2.checkContainer. intros Hdone.
  destruct (c_Names c) as [|n0 ns]; [discriminate Hdone|].
  step Hdone image w1. step Hdone ri w2.
  destruct ri as [img|e]; [|step Hdone a3 w3; tallied Hdone].
  step Hdone needsUpdate w3.
  destruct needsUpdate; cbn [negb] in Hdone |- *; [|step Hdone a4 w4; tallied Hdone].
  step Hdone a4 w4. step Hdone err w5.
  destruct err as [e|]; [step Hdone a6 w6; tallied Hdone|].
  cbv zeta in Hdone |- *.
  destruct (success_step (Strings.TrimPrefix n0 "/")
              (fun _ => notify fl url ("Successfully updated " +:+ Strings.TrimPrefix n0 "/") ;;;
                        pruneImages fl url ;;; ret (S n)) w5) as [Hout Hcount].
  rewrite Hout in Hdone. rewrite Hcount.
  step Hdone a6 w6. step Hdone a7 w7. tallied Hdone.
Qed.

Lemma checkLoop1_tally fuel registryURL url auth containers :
  forall u0 s0 (w : W) u s,
    let run := V1.checkLoop fl json_Marshal base64_EncodeToString
                 fuel containers registryURL url auth (u0, s0) w in
    outcome run = Done (u, s) ->
    u = (u0 + successes (events run))%nat /\
    s = (s0 + length (List.filter (foreign1 registryURL) containers))%nat /\
    (successes (events run)
     <= length (List.filter (fun c => negb (foreign1 registryURL c)) containers))%nat.
Proof.
  induction containers as [|c rest IH]; intros u0 s0 w u s; cbv zeta;
    cbn [V1.checkLoop List.filter]; intros Hdone.
  - tallied Hdone.
  - destruct (bind_Done_inv _ _ _ _ Hdone) as ([u1 s1] & w1 & e1 & Hfirst & Hrest & Hev).
    rewrite Hev. unfold successes. rewrite count_ev_app. fold (successes e1).
    match goal with
    | |- context [count_ev is_success_log ?evs] => fold (successes evs)
    end.
    pose proof (checkContainer1_tally fuel registryURL url auth c u0 s0 w u1 s1) as Hc.
    cbv zeta in Hc. rewrite Hfirst in Hc. cbn [outcome events fst snd] in Hc.
    destruct (Hc eq_refl) as [Hu1 Hs1]. clear Hc.
    destruct (IH u1 s1 w1 u s Hrest) as (Hu & Hs & Hle).
    destruct (foreign1 registryURL c); cbn [negb length]; destruct Hs1 as [Hs1 Hk]; lia.
Qed.

Lemma checkLoop2_tally registryTag url auth containers :
  forall n (w : W) u,
    let run := V2.checkLoop fl time_Parse json_Marshal base64_EncodeToString
                 containers registryTag url auth n w in
    outcome run = Done u ->
    u = (n + successes (events run))%nat /\
    (successes (events run) <= length containers)%nat.
Proof.
  induction containers as [|c rest IH]; intros n w u; cbv zeta;
    cbn [V2.checkLoop length]; intros Hdone.
  - tallied Hdone.
  - destruct (bind_Done_inv _ _ _ _ Hdone) as (u1 & w1 & e1 & Hfirst & Hrest & Hev).
    rewrite Hev. unfold successes. rewrite count_ev_app. fold (successes e1).
    match goal with
    | |- context [count_ev is_success_log ?evs] => fold (successes evs)
    end.
    pose proof (checkContainer2_tally registryTag url auth c n w u1) as Hc.
    cbv zeta in Hc. rewrite Hfirst in Hc. cbn [outcome events fst snd] in Hc.
    destruct (Hc eq_refl) as [Hu1 Hk]. clear Hc.
    destruct (IH u1 w1 u Hrest) as (Hu & Hle). lia.
Qed.

Lemma countEligible1_count containers registryURL :
  forall n,
    V1.countEligible containers registryURL n
    = (n + length (List.filter (fun c => negb (foreign1 registryURL c)) containers))%nat.
Proof.
  unfold foreign1.
  induction containers as [|c rest IH]; intros n; cbn [V1.countEligible List.filter].
  - cbn. lia.
  - rewrite IH. destruct (Strings.Contains (c_Image c) registryURL); cbn [negb length]; lia.
Qed.

Lemma filter_partition {A} (p : A -> bool) (l : list A) :
  (length (List.filter p l) + length (List.filter (fun a => negb (p a)) l))%nat = length l.
Proof.
  induction l as [|a l IH]; [reflexivity|].
  cbn [List.filter]. destruct (p a); cbn [negb length]; lia.
Qed.

(** The last line of a tick of revision 1 that returns no error, in terms
    of the success lines printed before it. *)
Lemma tick1_shape fuel registryURL user pass url (w : W) containers :
  let tick := V1.checkContainers fl json_Marshal base64_EncodeToString
                fuel registryURL user pass url w in
  let skipped := length (List.filter (foreign1 registryURL) containers) in
  let eligible := V1.countEligible containers registryURL 0 in
  fst (ContainerList (V1.listOptions fl) w) = Success containers ->
  outcome tick = Done None ->
  exists before,
    (successes before <= eligible)%nat /\
    events tick
    = before ++ events
        ((if (eligible =? 0)%nat
          then logVerbose fl "No containers from registry %s found, skipping check"
                 [VStr registryURL]
          else if (0 <? successes before)%nat
               then logInfo fl summaryFormat
                      [VInt (Z.of_nat (successes before)); VInt (Z.of_nat skipped)]
               else logVerbose fl "Check completed: no updates needed for %d containers"
                      [VInt (Z.of_nat eligible)]) w).
Proof.
  intros tick skipped eligible Hlist Hdone. subst tick eligible skipped.
  unfold V1.checkContainers in *.
  destruct (ContainerList (V1.listOptions fl) w) as [r w1] eqn:Hcall.
  cbn [fst] in Hlist. subst r.
  rewrite (bind_Done _ _ _ _ _ _ (call_eq _ _ _ _ _ Hcall)) in Hdone |- *.
  cbv zeta in Hdone |- *.
  remember (V1.countEligible containers registryURL 0) as eligible eqn:Heligible in *.
  remember (length (List.filter (foreign1 registryURL) containers)) as skipped eqn:Hskipped.
  rewrite (bind_Done _ _ _ _ _ _ (logVerbose_run fl _ _ w1)) in Hdone |- *.
  cbn [outcome world events fst snd] in Hdone |- *.
  destruct (eligible =? 0)%nat eqn:Hnone.
  - rewrite (bind_Done _ _ _ _ _ _ (logVerbose_run fl _ _ w1)).
    cbn [outcome world events fst snd ret].
    eexists. split; [|rewrite app_nil_r, !app_assoc; f_equal;
                      unfold logVerbose; destruct (verbose fl && negb (quiet fl)); reflexivity].
    unfold successes. rewrite count_ev_app. fold (successes (events
      (logVerbose fl "Found %d total containers, %d eligible for updates"
         [VInt (Z.of_nat (length containers)); VInt (Z.of_nat eligible)] w1))).
    rewrite successes_logVerbose. cbn. lia.
  - set (auth := {| Username := user; Password := pass; ServerAddress := registryURL |})
      in Hdone |- *.
    destruct (V1.checkLoop fl json_Marshal base64_EncodeToString fuel containers
                registryURL url auth (0%nat, 0%nat) w1) as [[o w2] e2] eqn:Hloop.
    unfold bind at 1 in Hdone. rewrite Hloop in Hdone.
    destruct o as [[u s]| | |]; try discriminate Hdone. clear Hdone.
    rewrite (bind_Done _ _ _ _ _ _ Hloop).
    pose proof (checkLoop1_tally fuel registryURL url auth containers 0%nat 0%nat w1 u s)
      as Ht.
    cbv zeta in Ht. rewrite Hloop in Ht. cbn [outcome events fst snd] in Ht.
    destruct (Ht eq_refl) as (Hu & Hs & Hle). clear Ht.
    cbn [Nat.add] in Hu, Hs. rewrite <- Hskipped in Hs.
    assert (Hel : eligible
                  = length (List.filter (fun c => negb (foreign1 registryURL c)) containers)).
    { rewrite Heligible, countEligible1_count. reflexivity. }
    rewrite <- Hel in Hle.
    assert (Hpos : (0 <? eligible)%nat = true).
    { apply Nat.ltb_lt. apply Nat.eqb_neq in Hnone. lia. }
    rewrite Hpos.
    assert (Hbefore : successes
              ([EvContainerList (V1.listOptions fl) (Success containers)]
               ++ events (logVerbose fl "Found %d total containers, %d eligible for updates"
                            [VInt (Z.of_nat (length containers)); VInt (Z.of_nat eligible)] w1)
               ++ e2) = u).
    { unfold successes. rewrite !count_ev_app.
      fold (successes (events
        (logVerbose fl "Found %d total containers, %d eligible for updates"
           [VInt (Z.of_nat (length containers)); VInt (Z.of_nat eligible)] w1))).
      rewrite successes_logVerbose. fold (successes e2). rewrite Hu. reflexivity. }
    eexists. split; [rewrite Hbefore, Hu; exact Hle|].
    rewrite Hbefore. subst s.
    cbn [outcome world events fst snd].
    rewrite !app_assoc. f_equal.
    destruct (0 <? u)%nat.
    + rewrite (bind_Done _ _ _ _ _ _ (logInfo_run fl _ _ w2)).
      cbn [events snd ret]. rewrite app_nil_r.
      unfold logInfo. destruct (negb (quiet fl)); reflexivity.
    + rewrite (bind_Done _ _ _ _ _ _ (logVerbose_run fl _ _ w2)).
      cbn [events snd ret]. rewrite app_nil_r.
      unfold logVerbose. destruct (verbose fl && negb (quiet fl)); reflexivity.
Qed.

(** X20. A tick of revision 1 that returns no error ends with a line that
    tells the truth. Skipped and eligible containers add up to the listing,
    and no more containers are updated than are eligible. With no eligible
    container the last line says so; otherwise, if at least one success line
    was printed, it is the summary, whose first number is the number of
    success lines of the tick and whose second is the number of listed
    containers that do not contain the registry URL; and if none was printed
    it is the line that reports no update, with the number of eligible
    containers. Each line is subject to its log level. *)
Theorem X20_summary_of_a_tick_of_revision1 fuel registryURL user pass url (w : W)
    containers :
  let tick := V1.checkContainers fl json_Marshal base64_EncodeToString
                fuel registryURL user pass url w in
  let updated := successes (events tick) in
  let skipped := length (List.filter (foreign1 registryURL) containers) in
  let eligible := V1.countEligible containers registryURL 0 in
  fst (ContainerList (V1.listOptions fl) w) = Success containers ->
  outcome tick = Done None ->
  (skipped + eligible)%nat = length containers /\
  (updated <= eligible)%nat /\
  exists before,
    successes before = updated /\
    events tick
    = before ++ events
        ((if (eligible =? 0)%nat
          then logVerbose fl "No containers from registry %s found, skipping check"
                 [VStr registryURL]
          else if (0 <? updated)%nat
               then logInfo fl summaryFormat
                      [VInt (Z.of_nat updated); VInt (Z.of_nat skipped)]
               else logVerbose fl "Check completed: no updates needed for %d containers"
                      [VInt (Z.of_nat eligible)]) w).
Proof.
  intros tick updated skipped eligible Hlist Hdone.
  destruct (tick1_shape fuel registryURL user pass url w containers Hlist Hdone)
    as (before & Hle & Hev).
  cbv zeta in Hev, Hle. fold tick skipped eligible in Hev, Hle.
  assert (Hupdated : updated = successes before).
  { unfold updated. rewrite Hev. unfold successes at 1. rewrite count_ev_app.
    fold (successes before).
    match goal with
    | |- (_ + count_ev is_success_log ?evs)%nat = _ =>
        assert (Hz : count_ev is_success_log evs = 0%nat)
    end.
    { destruct (eligible =? 0)%nat; [apply successes_logVerbose|].
      destruct (0 <? successes before)%nat;
        [apply successes_logInfo | apply successes_logVerbose]. }
    rewrite Hz. lia. }
  split.
  { unfold skipped, eligible. rewrite countEligible1_count. cbn [Nat.add].
    apply filter_partition. }
  split; [rewrite Hupdated; exact Hle|].
  exists before. split; [symmetry; exact Hupdated|].
  rewrite Hupdated. exact Hev.
Qed.

(** X21. In revision 2 the summary of a tick counts the updates and nothing
    else: when a tick that returns no error has printed at least one success
    line, its last line is the summary, subject to its log level, and it
    reports the number of success lines as updated and zero containers as
    skipped, whatever the listing was. No more containers are updated than
    are listed. *)
Theorem X21_summary_of_a_tick_of_revision2 registryURL user pass registryTag url (w : W)
    containers :
  let tick := V2.checkContainers fl time_Parse json_Marshal base64_EncodeToString
                registryURL user pass registryTag url w in
  let updated := successes (events tick) in
  fst (ContainerList (V2.listOptions fl) w) = Success containers ->
  outcome tick = Done None ->
  (updated <= length containers)%nat /\
  ((0 < updated)%nat ->
   exists before,
     successes before = updated /\
     events tick
     = before ++ events (logInfo fl summaryFormat [VInt (Z.of_nat updated); VInt 0] w)).
Proof.
  intros tick updated Hlist Hdone. subst updated tick. unfold V2.checkContainers in *.
  destruct (ContainerList (V2.listOptions fl) w) as [r w1] eqn:Hcall.
  cbn [fst] in Hlist. subst r.
  rewrite (bind_Done _ _ _ _ _ _ (call_eq _ _ _ _ _ Hcall)) in Hdone |- *.
  cbn [outcome world events fst snd] in Hdone |- *.
  destruct (V2.countEligible fl containers registryURL user 0%nat w1)
    as [[o w2] e2] eqn:Hcount.
  pose proof Hdone as Ho. unfold bind at 1 in Ho. rewrite Hcount in Ho.
  destruct o as [n| | |]; try discriminate Ho. clear Ho.
  pose proof (successes_neutral _ (neutral_countEligible fl containers registryURL user 0%nat)
                w1) as He2.
  rewrite Hcount in He2. cbn [events snd] in He2.
  rewrite (bind_Done _ _ _ _ _ _ Hcount) in Hdone |- *.
  rewrite (bind_Done _ _ _ _ _ _ (logVerbose_run fl _ _ w2)) in Hdone |- *.
  cbn [outcome world events fst snd] in Hdone |- *.
  remember (events (logVerbose fl "Found %d total containers, %d eligible for updates"
                      [VInt (Z.of_nat (length containers)); VInt (Z.of_nat n)] w2))
    as found eqn:Hfound.
  assert (Hf : successes found = 0%nat) by (rewrite Hfound; apply successes_logVerbose).
  destruct (n =? 0)%nat eqn:Hnone.
  - rewrite (bind_Done _ _ _ _ _ _ (logVerbose_run fl _ _ w2)).
    cbn [outcome world events fst snd ret].
    assert (Hzero : successes
              ([EvContainerList (V2.listOptions fl) (Success containers)] ++ e2 ++ found ++
               events (logVerbose fl "No eligible containers found, skipping check" [] w2)
               ++ []) = 0%nat).
    { unfold successes in *. rewrite !count_ev_app, He2, Hf.
      fold (successes (events
        (logVerbose fl "No eligible containers found, skipping check" [] w2))).
      rewrite successes_logVerbose. reflexivity. }
    rewrite Hzero. split; lia.
  - set (auth := V2.makeAuthConfig registryURL user pass) in Hdone |- *.
    destruct (V2.checkLoop fl time_Parse json_Marshal base64_EncodeToString containers
                registryTag url auth 0%nat w2) as [[o w3] e3] eqn:Hloop.
    pose proof Hdone as Ho. unfold bind at 1 in Ho. rewrite Hloop in Ho.
    destruct o as [u| | |]; try discriminate Ho. clear Ho Hdone.
    rewrite (bind_Done _ _ _ _ _ _ Hloop).
    pose proof (checkLoop2_tally registryTag url auth containers 0%nat w2 u) as Ht.
    cbv zeta in Ht. rewrite Hloop in Ht. cbn [outcome events fst snd] in Ht.
    destruct (Ht eq_refl) as (Hu & Hle). clear Ht. cbn [Nat.add] in Hu.
    assert (Hpos : (0 <? n)%nat = true).
    { apply Nat.ltb_lt. apply Nat.eqb_neq in Hnone. lia. }
    rewrite Hpos. cbn [outcome world events fst snd].
    assert (Hbefore : successes
              ([EvContainerList (V2.listOptions fl) (Success containers)] ++ e2 ++ found ++ e3)
              = u).
    { unfold successes in *. rewrite !count_ev_app, He2, Hf, Hu. reflexivity. }
    destruct (0 <? u)%nat eqn:Hany.
    + rewrite (bind_Done _ _ _ _ _ _ (logInfo_run fl _ _ w3)).
      cbn [events snd ret]. rewrite app_nil_r.
      assert (Hall : forall tail,
                successes tail = 0%nat ->
                successes
                  ([EvContainerList (V2.listOptions fl) (Success containers)] ++ e2 ++ found
                   ++ e3 ++ tail) = u).
      { intros tail Htail. rewrite <- Hbefore. unfold successes in *.
        rewrite !count_ev_app, Htail. lia. }
      rewrite (Hall _ (successes_logInfo _ _ w3)).
      split; [rewrite Hu; exact Hle|]. intros _.
      exists ([EvContainerList (V2.listOptions fl) (Success containers)] ++ e2 ++ found ++ e3).
      split; [exact Hbefore|].
      assert (Hw : events (logInfo fl summaryFormat [VInt (Z.of_nat u); VInt 0] w3)
                   = events (logInfo fl summaryFormat [VInt (Z.of_nat u); VInt 0] w)).
      { unfold logInfo. destruct (negb (quiet fl)); reflexivity. }
      rewrite <- Hw, <- !app_assoc. reflexivity.
    + rewrite (bind_Done _ _ _ _ _ _ (logVerbose_run fl _ _ w3)).
      cbn [events snd ret]. rewrite app_nil_r.
      apply Nat.ltb_ge in Hany.
      assert (Hzero : successes
                ([EvContainerList (V2.listOptions fl) (Success containers)] ++ e2 ++ found
                 ++ e3 ++ events (logVerbose fl
                     "Check completed: no updates needed for %d containers"
                     [VInt (Z.of_nat n)] w3)) = 0%nat).
      { unfold successes in *. rewrite !count_ev_app, He2, Hf.
        fold (successes (events
          (logVerbose fl "Check completed: no updates needed for %d containers"
             [VInt (Z.of_nat n)] w3))).
        rewrite successes_logVerbose.
        change (count_ev is_success_log
                  [EvContainerList (V2.listOptions fl) (Success containers)]) with 0%nat.
        lia. }
      rewrite Hzero. split; lia.
Qed.

End Tally.

(** ** Listings *)

Lemma count_list_none (evs : list Event) :
  Forall (fun e => is_list e = false) evs -> count_ev is_list evs = 0%nat.
Proof.
  induction 1 as [|e evs He _ IH]; [reflexivity|].
  unfold count_ev in *. cbn [List.filter]. rewrite He. exact IH.
Qed.

Section Listings.
Context {W : Type} `{Runtime W}.
Variable fl : Flags.
Variable time_Parse : string -> Result Z.
Variable json_Marshal : AuthConfig -> string.
Variable base64_EncodeToString : string -> string.

Lemma no_listing_admits url :
  Admits fl url (fun _ => True) (fun _ => True) (fun e => is_list e = false) any_end.
Proof. split; intros; first [reflexivity | exact I]. Qed.

#[local] Instance no_listing_invariant :
  LogInvariant (Forall (fun e => is_list e = false)) any_end.
Proof.
  split; [constructor | | exact I].
  intros a b Ha Hb. apply Forall_app. split; assumption.
Qed.

(** A check lists the containers once, however it ends. *)
Lemma one_listing2 registryURL user pass registryTag url (w : W) :
  count_ev is_list
    (events (V2.checkContainers fl time_Parse json_Marshal base64_EncodeToString
               registryURL user pass registryTag url w)) = 1%nat.
Proof.
  pose proof (no_listing_admits url) as Hadm.
  unfold V2.checkContainers.
  rewrite events_bind, outcome_call, events_call, world_call, count_ev_app.
  match goal with
  | |- (_ + count_ev is_list (events (?K ?w1)))%nat = _ =>
      assert (Hk : produces (Forall (fun e => is_list e = false)) any_end K)
  end.
  { destruct (fst (ContainerList (V2.listOptions fl) w)) as [containers|e];
      walk ltac:(adm_side Hadm).
    - apply (admitted_countEligible2 fl _ _ _ _ _ Hadm).
    - apply (admitted_checkLoop2 fl _ _ _ _ _ Hadm); intros; exact I. }
  rewrite (count_list_none _ (emits_events _ Hk _)). reflexivity.
Qed.

Lemma one_listing1 fuel registryURL user pass url (w : W) :
  count_ev is_list
    (events (V1.checkContainers fl json_Marshal base64_EncodeToString
               fuel registryURL user pass url w)) = 1%nat.
Proof.
  pose proof (no_listing_admits url) as Hadm.
  unfold V1.checkContainers.
  rewrite events_bind, outcome_call, events_call, world_call, count_ev_app.
  match goal with
  | |- (_ + count_ev is_list (events (?K ?w1)))%nat = _ =>
      assert (Hk : produces (Forall (fun e => is_list e = false)) any_end K)
  end.
  { destruct (fst (ContainerList (V1.listOptions fl) w)) as [containers|e];
      walk ltac:(adm_side Hadm).
    apply (admitted_checkLoop1 fl _ _ _ _ _ Hadm); intros; exact I. }
  rewrite (count_list_none _ (emits_events _ Hk _)). reflexivity.
Qed.

Lemma count_list_logInfo format v (w : W) :
  count_ev is_list (events (logInfo fl format v w)) = 0%nat.
Proof. unfold logInfo. destruct (negb (quiet fl)); reflexivity. Qed.

Lemma count_list_logInfo_if (b : bool) format v (w : W) :
  count_ev is_list (events ((if b then logInfo fl format v else ret tt) w)) = 0%nat.
Proof. destruct b; [apply count_list_logInfo|reflexivity]. Qed.

Lemma runCheck2_listing getenv what (w : W) :
  let run := V2.runCheck fl time_Parse json_Marshal base64_EncodeToString getenv what w in
  count_ev is_list (events run) = 1%nat /\ outcome run <> OutOfFuel.
Proof.
  cbv zeta. split.
  - pose proof (no_listing_admits (getenv "NOTIFICATION_URL")) as Hadm.
    unfold V2.runCheck. cbv zeta. rewrite events_bind, count_ev_app, one_listing2.
    destruct (outcome _) as [[e|]| | |]; try reflexivity.
    match goal with
    | |- (_ + count_ev is_list (events (?K ?w1)))%nat = _ =>
        assert (Hk : produces (Forall (fun e => is_list e = false)) any_end K)
    end.
    { apply emits_bind; [walk ltac:(adm_side Hadm) | intros _].
      apply (admitted_notify fl _ _ _ _ _ Hadm). exact I. }
    rewrite (count_list_none _ (emits_events _ Hk _)). reflexivity.
  - pose proof (admits_anything fl (getenv "NOTIFICATION_URL")
                  (fun e => e <> Starves) ltac:(discriminate)) as Hadm.
    assert (Hrun : produces (Forall (fun _ => True)) (fun e => e <> Starves)
                     (V2.runCheck (W:=W) fl time_Parse json_Marshal base64_EncodeToString
                        getenv what)).
    { apply (admitted_runCheck2 fl _ _ _ _ _ Hadm); intros; try exact I; try reflexivity;
        discriminate. }
    destruct (Hrun w) as [_ Hend]. intros Hout. rewrite Hout in Hend. apply Hend. reflexivity.
Qed.

Lemma runCheck1_listing fuel getenv what (w : W) :
  count_ev is_list
    (events (V1.runCheck fl json_Marshal base64_EncodeToString fuel getenv what w)) = 1%nat.
Proof.
  pose proof (no_listing_admits (getenv "NOTIFICATION_URL")) as Hadm.
  unfold V1.runCheck. cbv zeta. rewrite events_bind, count_ev_app, one_listing1.
  destruct (outcome _) as [[e|]| | |]; try reflexivity.
  match goal with
  | |- (_ + count_ev is_list (events (?K ?w1)))%nat = _ =>
      assert (Hk : produces (Forall (fun e => is_list e = false)) any_end K)
  end.
  { apply emits_bind; [walk ltac:(adm_side Hadm) | intros _].
    apply (admitted_notify fl _ _ _ _ _ Hadm). exact I. }
  rewrite (count_list_none _ (emits_events _ Hk _)). reflexivity.
Qed.

Lemma tickerLoop2_listings getenv ticks :
  forall w : W,
    let run := V2.tickerLoop fl time_Parse json_Marshal base64_EncodeToString
                 getenv ticks w in
    (count_ev is_list (events run) <= ticks)%nat /\
    (outcome run = OutOfFuel -> count_ev is_list (events run) = ticks).
Proof.
  induction ticks as [|n IH]; intros w; cbv zeta; cbn [V2.tickerLoop].
  - split; [apply Nat.le_refl|reflexivity].
  - rewrite events_bind, outcome_bind, count_ev_app.
    destruct (runCheck2_listing getenv "Error in check cycle" w) as [Hone Hrun].
    cbv zeta in Hone, Hrun. rewrite Hone.
    destruct (outcome (V2.runCheck _ _ _ _ _ _ w)) as [[]| | |].
    + destruct (IH (world (V2.runCheck fl time_Parse json_Marshal base64_EncodeToString
                             getenv "Error in check cycle" w))) as [Hle Heq].
      cbv zeta in Hle, Heq. split; [lia|]. intros Hout. rewrite (Heq Hout). reflexivity.
    + split; [cbn; lia | discriminate].
    + split; [cbn; lia | discriminate].
    + exfalso. apply Hrun. reflexivity.
Qed.

Lemma tickerLoop1_listings fuel getenv ticks :
  forall w : W,
    (count_ev is_list
       (events (V1.tickerLoop fl json_Marshal base64_EncodeToString fuel getenv ticks w))
     <= ticks)%nat.
Proof.
  induction ticks as [|n IH]; intros w; cbn [V1.tickerLoop].
  - apply Nat.le_refl.
  - rewrite events_bind, count_ev_app, runCheck1_listing.
    destruct (outcome _) as [[]| | |]; [|cbn; lia..].
    specialize (IH (world (V1.runCheck fl json_Marshal base64_EncodeToString fuel getenv
                             "Error in check cycle" w))). lia.
Qed.

(** X22. A check lists the containers exactly once, and [main] makes one
    check at startup, before the first firing of the ticker, and one per
    firing: after [ticks] firings the log of either revision holds at most
    [ticks + 1] listings, and that of revision 2 holds exactly [ticks + 1]
    when the process is still running. *)
Theorem X22_one_listing_per_check fuel getenv ticks (w : W) :
  let run1 := V1.main fl json_Marshal base64_EncodeToString fuel getenv ticks w in
  let run2 := V2.main fl time_Parse json_Marshal base64_EncodeToString getenv ticks w in
  (count_ev is_list (events run1) <= S ticks)%nat /\
  (count_ev is_list (events run2) <= S ticks)%nat /\
  (outcome run2 = OutOfFuel -> count_ev is_list (events run2) = S ticks).
Proof.
  cbv zeta. split.
  - unfold V1.main. cbv zeta. destruct (_ || _); [cbn; lia|].
    destruct (NewClientWithOpts w) as [r w1] eqn:Hclient.
    rewrite (bind_Done _ _ _ _ _ _ (call_eq _ _ _ _ _ Hclient)).
    destruct r as [[]|e]; [|cbn; lia].
    rewrite !(bind_Done _ _ _ _ _ _ (logInfo_run fl _ _ w1)).
    rewrite !(bind_Done _ _ _ _ _ _ (logInfo_if_run fl _ _ _ w1)).
    cbn [events snd]. rewrite !count_ev_app, !count_list_logInfo, !count_list_logInfo_if.
    unfold newTicker. destruct (_ <=? 0); [cbn; lia|].
    rewrite (bind_Done _ _ _ _ _ _ (eq_refl : ret tt w1 = (Done tt, w1, []))).
    cbn [events snd app]. rewrite events_bind, count_ev_app, runCheck1_listing.
    destruct (outcome _) as [[]| | |]; [|cbn; lia..].
    pose proof (tickerLoop1_listings fuel getenv ticks
                  (world (V1.runCheck fl json_Marshal base64_EncodeToString fuel getenv
                            "Error in initial check" w1))) as Hle.
    cbn [count_ev List.filter is_list length Nat.add]. lia.
  - unfold V2.main. cbv zeta.
    destruct (NewClientWithOpts w) as [r w1] eqn:Hclient.
    rewrite (bind_Done _ _ _ _ _ _ (call_eq _ _ _ _ _ Hclient)).
    destruct r as [[]|e]; [|cbn; split; [lia|discriminate]].
    rewrite !(bind_Done _ _ _ _ _ _ (logInfo_run fl _ _ w1)).
    rewrite !(bind_Done _ _ _ _ _ _ (logInfo_if_run fl _ _ _ w1)).
    cbn [outcome events fst snd].
    rewrite !count_ev_app, !count_list_logInfo, !count_list_logInfo_if.
    unfold newTicker. destruct (_ <=? 0); [cbn; split; [lia|discriminate]|].
    rewrite (bind_Done _ _ _ _ _ _ (eq_refl : ret tt w1 = (Done tt, w1, []))).
    cbn [outcome events fst snd app]. rewrite events_bind, outcome_bind, count_ev_app.
    destruct (runCheck2_listing getenv "Error in initial check" w1) as [Hone Hrun].
    cbv zeta in Hone, Hrun. rewrite Hone.
    cbn [count_ev List.filter is_list length Nat.add].
    destruct (outcome (V2.runCheck _ _ _ _ _ _ w1)) as [[]| | |].
    + destruct (tickerLoop2_listings getenv ticks
                  (world (V2.runCheck fl time_Parse json_Marshal base64_EncodeToString
                            getenv "Error in initial check" w1))) as [Hle Heq].
      cbv zeta in Hle, Heq. split; [lia|]. intros Hout. rewrite (Heq Hout). reflexivity.
    + split; [cbn; lia | discriminate].
    + split; [cbn; lia | discriminate].
    + exfalso. apply Hrun. reflexivity.
Qed.

End Listings.

(** ** The options of the listings, and references in digest form *)

Lemma HasPrefix_split (p s : string) :
  Strings.HasPrefix s p = true -> exists rest, s = p +:+ rest.
Proof.
  revert s. induction p as [|b p IH]; intros s Hp.
  - exists s. reflexivity.
  - destruct s as [|a s]; [discriminate Hp|]. cbn [Strings.HasPrefix] in Hp.
    apply andb_true_iff in Hp. destruct Hp as [Hab Hrest].
    apply Ascii.eqb_eq in Hab. subst b.
    destruct (IH s Hrest) as [rest ->]. exists rest. rewrite append_cons. reflexivity.
Qed.

Lemma imageWithTag_digest (image tag : string) :
  Strings.HasPrefix image "sha256:" = true -> V2.imageWithTag image tag = "sha256:" +:+ tag.
Proof.
  intros Hp. destruct (HasPrefix_split _ _ Hp) as [rest ->].
  change ("sha256:" +:+ rest) with ("sha256" +:+ ":" +:+ rest).
  rewrite imageWithTag_tagged by reflexivity. reflexivity.
Qed.

Section Options.
Context {W : Type} `{Runtime W}.
Variable fl : Flags.
Variable time_Parse : string -> Result Z.
Variable json_Marshal : AuthConfig -> string.
Variable base64_EncodeToString : string -> string.

(** X23. Every listing of a run, at startup and at every firing of the
    ticker, asks for all containers, running or not, and carries a label
    filter exactly when label filtering is on: revision 1 passes the filter
    [label=puller.update.enable], revision 2 the filter
    [label=puller.update.enable=true]. *)
Theorem X23_options_of_every_listing fuel getenv ticks (w : W) :
  Forall (lists_with (listing fl "puller.update.enable"))
    (events (V1.main fl json_Marshal base64_EncodeToString fuel getenv ticks w)) /\
  Forall (lists_with (listing fl "puller.update.enable=true"))
    (events (V2.main fl time_Parse json_Marshal base64_EncodeToString getenv ticks w)).
Proof.
  split.
  - assert (Hadm : Admits fl (getenv "NOTIFICATION_URL") (fun _ => True) (fun _ => True)
                     (lists_with (listing fl "puller.update.enable")) any_end).
    { split; intros; exact I. }
    apply (emits_events (O:=any_end)).
    apply (admitted_main1 fl _ _ _ _ _ Hadm); intros; try exact I; reflexivity.
  - assert (Hadm : Admits fl (getenv "NOTIFICATION_URL") (fun _ => True) (fun _ => True)
                     (lists_with (listing fl "puller.update.enable=true")) any_end).
    { split; intros; exact I. }
    apply (emits_events (O:=any_end)).
    apply (admitted_main2 fl _ _ _ _ _ Hadm); intros; try exact I; reflexivity.
Qed.

(** X24. A container whose image reference is in digest form, and for which
    the inspection of its image finds no tag (it fails, or returns no
    [RepoTags]), is probed under the reference [sha256:latest]: the digest
    is cut at its colon like any other reference. The pull is issued as soon
    as the second inspection of the image succeeds. *)
Theorem X24_unresolved_digest_is_probed_as_sha256_latest registryTag url auth c n0 ns n
    (w : W) :
  let w1 := snd (ImageInspectWithRaw (c_ImageID c) w) in
  c_Names c = n0 :: ns ->
  Strings.HasPrefix (c_Image c) "sha256:" = true ->
  match fst (ImageInspectWithRaw (c_ImageID c) w) with
  | Success i => ii_RepoTags i = []
  | Failure _ => True
  end ->
  (exists img, fst (ImageInspectWithRaw (c_ImageID c) w1) = Success img) ->
  exists opts r,
    In (EvImagePull "sha256:latest" opts r)
       (events (V2.checkContainer fl time_Parse json_Marshal base64_EncodeToString
                  registryTag url auth c n w)).
Proof.
  intros w1 Hnames Hdigest Hnotag [img Himg]. subst w1.
  assert (Hresolve : V2.resolveDigest fl c w
                     = (Done (c_Image c), snd (ImageInspectWithRaw (c_ImageID c) w),
                        [EvImageInspect (c_ImageID c)
                           (fst (ImageInspectWithRaw (c_ImageID c) w))])).
  { unfold V2.resolveDigest. rewrite Hdigest. unfold bind, call.
    destruct (ImageInspectWithRaw (c_ImageID c) w) as [[i|e] w1]; cbn [fst snd] in *.
    - rewrite Hnotag. reflexivity.
    - reflexivity. }
  unfold V2.checkContainer. rewrite Hnames.
  rewrite (bind_Done _ _ _ _ _ _ Hresolve).
  destruct (ImageInspectWithRaw (c_ImageID c) (snd (ImageInspectWithRaw (c_ImageID c) w)))
    as [r2 w2] eqn:Hcall.
  cbn [fst] in Himg. subst r2.
  rewrite (bind_Done _ _ _ _ _ _ (call_eq _ _ _ _ _ Hcall)).
  cbn [outcome world events fst snd]. rewrite events_bind.
  unfold V2.tagsToCheck. cbn [app].
  destruct (probeTags_first_pull fl time_Parse json_Marshal base64_EncodeToString
              "latest" (if negb (String.eqb registryTag "") then [registryTag] else [])
              (c_Image c) auth (ii_Os img +:+ "/" +:+ ii_Architecture img)
              (Strings.TrimPrefix n0 "/") url registryTag (c_ImageID c) w2)
    as (opts & r & Hin).
  rewrite (imageWithTag_digest _ _ Hdigest) in Hin.
  change ("sha256:" +:+ "latest") with "sha256:latest" in Hin.
  exists opts, r. right. right. apply in_or_app. left. exact Hin.
Qed.

End Options.

(** ** How a tick and the process end *)

Section Ends.
Context {W : Type} `{Runtime W}.
Variable fl : Flags.
Variable time_Parse : string -> Result Z.
Variable json_Marshal : AuthConfig -> string.
Variable base64_EncodeToString : string -> string.

Lemma stopped_and_removed_after (pre evs : list Event) :
  stopped_and_removed evs -> stopped_and_removed (pre ++ evs).
Proof.
  intros (before & containerID & inspect & Hinc & ->).
  exists (pre ++ before), containerID, inspect. split; [exact Hinc|].
  apply app_assoc.
Qed.

Lemma excused_Done {A} (r : Outcome A * W * list Event) a :
  outcome r = Done a -> excused r.
Proof. intros Hr. unfold excused. rewrite Hr. exact I. Qed.

Lemma excused_bind {A B} (m : M W A) (f : A -> M W B) (w : W) :
  excused (m w) -> (forall a w', excused (f a w')) -> excused (bind m f w).
Proof.
  unfold excused. intros Hm Hf. rewrite outcome_bind, events_bind.
  destruct (outcome (m w)) as [a|msg|code|]; try contradiction.
  - specialize (Hf a (world (m w))).
    destruct (outcome (f a (world (m w)))) as [b|msg|code|]; try contradiction; [exact I|].
    destruct Hf as [Hmsg Hseen]. split; [exact Hmsg|].
    apply stopped_and_removed_after. exact Hseen.
  - destruct Hm as [Hmsg Hseen]. split; [exact Hmsg|].
    rewrite app_nil_r. exact Hseen.
Qed.

Lemma excused_after {A} (pre : list Event) (r : Outcome A * W * list Event) :
  excused r -> excused (outcome r, world r, pre ++ events r).
Proof.
  unfold excused. cbn [outcome events fst snd].
  destruct (outcome r); try exact (fun x => x).
  intros [Hmsg Hseen]. split; [exact Hmsg|].
  apply stopped_and_removed_after. exact Hseen.
Qed.

Lemma outcome_retagAsLatest registryTag tag ref (w : W) :
  outcome (V2.retagAsLatest registryTag tag ref w) = Done tt.
Proof.
  unfold V2.retagAsLatest.
  destruct (_ && _); [|reflexivity].
  rewrite outcome_bind, outcome_call.
  destruct (fst (ImageTag _ _ w)); [|reflexivity].
  rewrite outcome_bind. cbn [logUpdate emit outcome world fst snd].
  rewrite outcome_bind, outcome_call.
  destruct (fst (ImageRemove _ _ _)); reflexivity.
Qed.

Lemma probeTags_returns tags image auth platform name url registryTag currentImgID :
  forall w : W,
    exists b, outcome (V2.probeTags fl time_Parse json_Marshal base64_EncodeToString
                         tags image auth platform name url registryTag currentImgID w)
              = Done b.
Proof.
  induction tags as [|tag rest IH]; intros w; cbn [V2.probeTags];
    [eexists; reflexivity|].
  rewrite outcome_bind, outcome_logVerbose, world_logVerbose. cbv beta iota zeta.
  rewrite outcome_bind.
  destruct (pullImageAndCheckUpdate_returns fl time_Parse json_Marshal
              base64_EncodeToString
              (V2.imageWithTag image tag) auth platform name url currentImgID w)
    as [[hasUpdate err] Hr].
  rewrite Hr.
  destruct hasUpdate, err as [e|]; cbv beta iota.
  - rewrite outcome_bind. cbn [logError emit outcome world fst snd]. apply IH.
  - rewrite outcome_bind, outcome_retagAsLatest. eexists; reflexivity.
  - rewrite outcome_bind. cbn [logError emit outcome world fst snd]. apply IH.
  - apply IH.
Qed.

Lemma countEligible2_returns containers registryURL user :
  forall n (w : W),
    exists k, outcome (V2.countEligible fl containers registryURL user n w) = Done k.
Proof.
  induction containers as [|c rest IH]; intros n w; cbn [V2.countEligible];
    [eexists; reflexivity|].
  rewrite outcome_bind.
  destruct (resolveDigest_run fl c w) as (image & Himage & _). rewrite Himage.
  apply IH.
Qed.

Lemma excused_recreateContainer containerID name url (w : W) :
  excused (V2.recreateContainer containerID name url w).
Proof.
  unfold excused, V2.recreateContainer, bind, call, ret, panic.
  destruct (ContainerInspect containerID w) as [[inspect|e] w1];
    cbn [outcome world events fst snd app]; [|exact I].
  destruct (ContainerStop containerID 10 w1) as [[[]|e] w2];
    cbn [outcome world events fst snd app]; [|exact I].
  destruct (ContainerRemove containerID w2) as [[[]|e] w3];
    cbn [outcome world events fst snd app]; [|exact I].
  destruct (cj_Base inspect) as [base|] eqn:Hbase;
    cbn [outcome world events fst snd app];
    [|split; [reflexivity|]; exists [], containerID, inspect;
      split; [left; exact Hbase|reflexivity]].
  destruct (cj_NetworkSettings inspect) as [settings|] eqn:Hsettings;
    cbn [outcome world events fst snd app];
    [|split; [reflexivity|]; exists [], containerID, inspect;
      split; [right; exact Hsettings|reflexivity]].
  destruct (ContainerCreate (cj_Config inspect) (cjb_HostConfig base)
              (ns_Networks settings) name w3) as [[newID|e] w4];
    cbn [outcome world events fst snd app]; [|exact I].
  destruct (ContainerStart newID w4) as [[[]|e] w5];
    cbn [outcome world events fst snd app]; exact I.
Qed.

Lemma excused_checkContainer2 registryTag url auth c updated (w : W) :
  c_Names c <> [] ->
  excused (V2.checkContainer fl time_Parse json_Marshal base64_EncodeToString
             registryTag url auth c updated w).
Proof.
  intros Hnames. unfold V2.checkContainer.
  destruct (c_Names c) as [|n0 names]; [contradiction|]. cbv zeta.
  apply excused_bind.
  { destruct (resolveDigest_run fl c w) as (image & Himage & _).
    eapply excused_Done, Himage. }
  intros image w1.
  apply excused_bind; [eapply excused_Done, outcome_call|intros [imgInspect|e] w2].
  2:{ apply excused_bind; intros; eapply excused_Done; reflexivity. }
  apply excused_bind.
  { destruct (probeTags_returns (V2.tagsToCheck registryTag) image auth
                (ii_Os imgInspect +:+ "/" +:+ ii_Architecture imgInspect)
                (Strings.TrimPrefix n0 "/") url registryTag (c_ImageID c) w2) as [b Hb].
    eapply excused_Done, Hb. }
  intros needsUpdate w3.
  destruct needsUpdate; cbn [negb].
  2:{ apply excused_bind; [eapply excused_Done, outcome_logVerbose|].
      intros; eapply excused_Done; reflexivity. }
  apply excused_bind; [eapply excused_Done; reflexivity|intros [] w4].
  apply excused_bind; [apply excused_recreateContainer|intros [e|] w5].
  - apply excused_bind; intros; eapply excused_Done; reflexivity.
  - apply excused_bind; [eapply excused_Done; reflexivity|intros [] w6].
    apply excused_bind; [eapply excused_Done, outcome_notify|intros [] w7].
    apply excused_bind; [eapply excused_Done, outcome_pruneImages|intros [] w8].
    eapply excused_Done; reflexivity.
Qed.

Lemma excused_checkLoop2 registryTag url auth containers :
  (forall c, In c containers -> c_Names c <> []) ->
  forall updated (w : W),
    excused (V2.checkLoop fl time_Parse json_Marshal base64_EncodeToString
               containers registryTag url auth updated w).
Proof.
  induction containers as [|c rest IH]; intros Hnames updated w; cbn [V2.checkLoop].
  - eapply excused_Done; reflexivity.
  - apply excused_bind.
    + apply excused_checkContainer2. apply Hnames. left. reflexivity.
    + intros u w1. apply IH. intros c' Hc'. apply Hnames. right. exact Hc'.
Qed.

(** X9. A tick of revision 2 that lists the containers, each of them with a
    name, ends in one of two ways. It returns without error, whatever the
    runtime answers to the other calls: failed inspections, pulls, retags,
    removals, recreations, posts and prunes are logged or reported and the
    tick goes on. Or it panics reading through a nil pointer, and then its
    log ends with the inspection, the stop and the removal of a container
    whose inspection answer lacks its base or its network settings: the
    recreation reads through both after it stopped and removed the
    container. The tick neither exits the process nor runs without end. *)
Theorem X9_tick_of_revision2_returns_or_panics
    registryURL user pass registryTag url (w : W) containers :
  let tick := V2.checkContainers fl time_Parse json_Marshal base64_EncodeToString
                registryURL user pass registryTag url w in
  fst (ContainerList (V2.listOptions fl) w) = Success containers ->
  (forall c, In c containers -> c_Names c <> []) ->
  outcome tick = Done None \/
  (outcome tick = Panicked nilDereference /\ stopped_and_removed (events tick)).
Proof.
  cbv zeta. intros Hlist Hnames.
  assert (Hex : excused (V2.checkContainers fl time_Parse json_Marshal
                           base64_EncodeToString registryURL user pass registryTag url w)).
  { unfold V2.checkContainers.
    destruct (ContainerList (V2.listOptions fl) w) as [r w1] eqn:Hcall.
    cbn [fst] in Hlist. subst r.
    rewrite (bind_Done _ _ _ _ _ _ (call_eq _ _ _ _ _ Hcall)).
    apply excused_after.
    apply excused_bind.
    { destruct (countEligible2_returns containers registryURL user 0%nat w1) as [k Hk].
      eapply excused_Done, Hk. }
    intros n w2.
    apply excused_bind; [eapply excused_Done, outcome_logVerbose|intros [] w3].
    destruct (n =? 0)%nat.
    - apply excused_bind; [eapply excused_Done, outcome_logVerbose|].
      intros; eapply excused_Done; reflexivity.
    - cbv zeta. apply excused_bind; [apply excused_checkLoop2; exact Hnames|].
      intros u w4.
      apply excused_bind; [|intros; eapply excused_Done; reflexivity].
      destruct (0 <? n)%nat; [|eapply excused_Done; reflexivity].
      destruct (0 <? u)%nat;
        [eapply excused_Done, outcome_logInfo|eapply excused_Done, outcome_logVerbose]. }
  unfold excused in Hex.
  destruct (outcome (V2.checkContainers fl time_Parse json_Marshal base64_EncodeToString
                       registryURL user pass registryTag url w))
    as [[msg|]|msg|code|] eqn:Hout; try contradiction.
  - exfalso. destruct (tick2_error_inv _ _ _ _ _ _ _ _ _ _ _ Hout) as (e & Hfail & _).
    rewrite Hlist in Hfail. discriminate Hfail.
  - left. reflexivity.
  - right. destruct Hex as [-> Hseen]. split; [reflexivity|exact Hseen].
Qed.

Lemma tickerLoop2_never_returns getenv ticks :
  forall (w : W) a,
    outcome (V2.tickerLoop fl time_Parse json_Marshal base64_EncodeToString
               getenv ticks w) <> Done a.
Proof.
  induction ticks as [|n IH]; intros w a; cbn [V2.tickerLoop]; [discriminate|].
  rewrite outcome_bind.
  destruct (outcome (V2.runCheck fl time_Parse json_Marshal base64_EncodeToString
                       getenv "Error in check cycle" w)); try discriminate.
  apply IH.
Qed.

Lemma tickerLoop1_never_returns fuel getenv ticks :
  forall (w : W) a,
    outcome (V1.tickerLoop fl json_Marshal base64_EncodeToString
               fuel getenv ticks w) <> Done a.
Proof.
  induction ticks as [|n IH]; intros w a; cbn [V1.tickerLoop]; [discriminate|].
  rewrite outcome_bind.
  destruct (outcome (V1.runCheck fl json_Marshal base64_EncodeToString
                       fuel getenv "Error in check cycle" w)); try discriminate.
  apply IH.
Qed.

Lemma running2_ends getenv ticks (w : W) :
  let run := (V2.runCheck fl time_Parse json_Marshal base64_EncodeToString
                getenv "Error in initial check" ;;;
              V2.tickerLoop fl time_Parse json_Marshal base64_EncodeToString
                getenv ticks) w in
  outcome run = OutOfFuel \/ outcome run = Panicked indexOutOfRange \/
  outcome run = Panicked nilDereference.
Proof.
  cbv zeta.
  pose proof (admits_anything fl (getenv "NOTIFICATION_URL") ends_check2
                (or_introl eq_refl)) as Hadm.
  assert (Hend : ends_check2 (ending (outcome
            ((V2.runCheck fl time_Parse json_Marshal base64_EncodeToString
                getenv "Error in initial check" ;;;
              V2.tickerLoop fl time_Parse json_Marshal base64_EncodeToString
                getenv ticks) w)))).
  { apply (emits_ending (P:=Forall (fun _ => True))).
    apply (admitted_running2 fl _ _ _ _ _ Hadm);
      intros; first [exact I | reflexivity | unfold ends_check2; auto 6]. }
  destruct (outcome _) as [a|msg|code|] eqn:Hout in Hend |- *.
  - exfalso. rewrite outcome_bind in Hout.
    destruct (outcome (V2.runCheck _ _ _ _ _ _ w)); try discriminate Hout.
    exact (tickerLoop2_never_returns _ _ _ _ Hout).
  - cbn [ending] in Hend.
    destruct Hend as [Hx|[Hx|[Hx|Hx]]]; try discriminate Hx;
      inversion Hx; subst msg; auto.
  - cbn [ending] in Hend.
    destruct Hend as [Hx|[Hx|[Hx|Hx]]]; discriminate Hx.
  - left. reflexivity.
Qed.

Lemma running1_ends fuel getenv ticks (w : W) :
  let run := (V1.runCheck fl json_Marshal base64_EncodeToString
                fuel getenv "Error in initial check" ;;;
              V1.tickerLoop fl json_Marshal base64_EncodeToString
                fuel getenv ticks) w in
  outcome run = OutOfFuel \/ outcome run = Panicked indexOutOfRange.
Proof.
  cbv zeta.
  pose proof (admits_anything fl (getenv "NOTIFICATION_URL") ends_check1
                (or_introl eq_refl)) as Hadm.
  assert (Hend : ends_check1 (ending (outcome
            ((V1.runCheck fl json_Marshal base64_EncodeToString
                fuel getenv "Error in initial check" ;;;
              V1.tickerLoop fl json_Marshal base64_EncodeToString
                fuel getenv ticks) w)))).
  { apply (emits_ending (P:=Forall (fun _ => True))).
    apply (admitted_running1 fl _ _ _ _ _ Hadm);
      intros; first [exact I | reflexivity | unfold ends_check1; auto 6]. }
  destruct (outcome _) as [a|msg|code|] eqn:Hout in Hend |- *.
  - exfalso. rewrite outcome_bind in Hout.
    destruct (outcome (V1.runCheck _ _ _ _ _ _ w)); try discriminate Hout.
    exact (tickerLoop1_never_returns _ _ _ _ _ Hout).
  - cbn [ending] in Hend.
    destruct Hend as [Hx|[Hx|Hx]]; try discriminate Hx;
      inversion Hx; subst msg; auto.
  - cbn [ending] in Hend.
    destruct Hend as [Hx|[Hx|Hx]]; discriminate Hx.
  - left. reflexivity.
Qed.

(** X7. How [main] ends, from the parsed flags on ([flag.Parse], which ends
    the process itself on a bad command line, is not part of the model). It
    exits, with status 1 and after one fatal line, at startup only: in both
    revisions when the Docker client cannot be created, in revision 1 also,
    and before that, when the user name or the password is missing. With a
    client, it panics in [time.NewTicker] when the interval in nanoseconds,
    wrapped to 64 bits, is not positive. Otherwise the checks start and
    [main] never returns nor exits: the loop over the ticker goes on (in
    revision 1 this ending also stands for a pull stream that is still being
    decoded), or a check panics, on a container without a name or, in
    revision 2, on an inspection answer that lacks a part the recreation
    reads. *)
Theorem X7_endings_of_main (fuel : nat) (getenv : string -> string) (ticks : nat) (w : W) :
  let run2 := V2.main fl time_Parse json_Marshal base64_EncodeToString getenv ticks w in
  let run1 := V1.main fl json_Marshal base64_EncodeToString fuel getenv ticks w in
  match fst (NewClientWithOpts w) with
  | Failure e =>
      run2 = (Exited 1, snd (NewClientWithOpts w),
              [EvNewClient (Failure e); EvLog "Error creating Docker client: %v" [VErr e]])
  | Success _ =>
      if wrap64 (interval fl * 1000000000) <=? 0
      then outcome run2 = Panicked "non-positive interval for NewTicker"
      else outcome run2 = OutOfFuel \/
           outcome run2 = Panicked indexOutOfRange \/
           outcome run2 = Panicked nilDereference
  end /\
  if String.eqb (getenv "REGISTRY_USERNAME") "" || String.eqb (getenv "REGISTRY_PASSWORD") ""
  then run1 = (Exited 1, w, [EvLog "REGISTRY_USERNAME and REGISTRY_PASSWORD must be set" []])
  else match fst (NewClientWithOpts w) with
       | Failure e =>
           run1 = (Exited 1, snd (NewClientWithOpts w),
                   [EvNewClient (Failure e);
                    EvLog "Error creating Docker client: %v" [VErr e]])
       | Success _ =>
           if wrap64 (interval fl * 1000000000) <=? 0
           then outcome run1 = Panicked "non-positive interval for NewTicker"
           else outcome run1 = OutOfFuel \/ outcome run1 = Panicked indexOutOfRange
       end.
Proof.
  cbv zeta. split.
  - unfold V2.main. cbv zeta.
    destruct (NewClientWithOpts w) as [r w1] eqn:Hclient.
    rewrite (bind_Done _ _ _ _ _ _ (call_eq _ _ _ _ _ Hclient)).
    destruct r as [[]|e]; cbn [fst snd]; [|reflexivity].
    cbn [outcome fst].
    repeat (first [ rewrite (bind_Done _ _ _ _ _ _ (logInfo_run fl _ _ w1))
                  | rewrite (bind_Done _ _ _ _ _ _ (logInfo_if_run fl _ _ _ w1)) ];
            cbn [outcome fst]).
    unfold newTicker. destruct (wrap64 (interval fl * 1000000000) <=? 0).
    + rewrite outcome_bind. reflexivity.
    + rewrite (bind_Done _ _ _ _ _ _ (eq_refl : ret tt w1 = (Done tt, w1, []))).
      cbn [outcome fst]. apply running2_ends.
  - unfold V1.main. cbv zeta. destruct (_ || _); [reflexivity|].
    destruct (NewClientWithOpts w) as [r w1] eqn:Hclient.
    rewrite (bind_Done _ _ _ _ _ _ (call_eq _ _ _ _ _ Hclient)).
    destruct r as [[]|e]; cbn [fst snd]; [|reflexivity].
    cbn [outcome fst].
    repeat (first [ rewrite (bind_Done _ _ _ _ _ _ (logInfo_run fl _ _ w1))
                  | rewrite (bind_Done _ _ _ _ _ _ (logInfo_if_run fl _ _ _ w1)) ];
            cbn [outcome fst]).
    unfold newTicker. destruct (wrap64 (interval fl * 1000000000) <=? 0).
    + rewrite outcome_bind. reflexivity.
    + rewrite (bind_Done _ _ _ _ _ _ (eq_refl : ret tt w1 = (Done tt, w1, []))).
      cbn [outcome fst]. apply running1_ends.
Qed.

End Ends.

(** ** The further properties on the scripted daemon *)

Section FurtherRuns.
Import Sim.

Lemma X1_witness :
  Forall (fun e => is_chatter e = false)
    (events (V2.main (H:=Sim.runtime) quiet_flags parse marshal encode (env "alice") 2 world0)) /\
  Forall (fun e => is_chatter e = false)
    (events (V1.main (H:=Sim.runtime) quiet_flags marshal encode 10 (env "alice") 2 world0)).
Proof. apply (X1_quiet_silences_info_and_verbose (H:=Sim.runtime)). reflexivity. Defined.

Lemma X2_witness :
  Forall (fun e => is_verbose_line e = false)
    (events (V2.main (H:=Sim.runtime) (flags true) parse marshal encode (env "alice") 2 world0)) /\
  Forall (fun e => is_verbose_line e = false)
    (events (V1.main (H:=Sim.runtime) (flags true) marshal encode 10 (env "alice") 2 world0)).
Proof. apply (X2_verbose_lines_need_the_flag (H:=Sim.runtime)). reflexivity. Defined.

Lemma X4_witness :
  Forall (fun e => is_post e = false)
    (events (V2.main (H:=Sim.runtime) (flags true) parse marshal encode silent_env 2 world0)) /\
  Forall (fun e => is_post e = false)
    (events (V1.main (H:=Sim.runtime) (flags true) marshal encode 10 silent_env 2 world0)).
Proof. apply (X4_no_url_no_post (H:=Sim.runtime)). reflexivity. Defined.

Lemma X9_witness :
  let tick := V2.checkContainers (H:=Sim.runtime) (flags true) parse marshal encode
                "registry.example.com" "alice" "secret" "canary" "http://hook" world0 in
  outcome tick = Done None \/
  (outcome tick = Panicked nilDereference /\ stopped_and_removed (events tick)).
Proof.
  apply (X9_tick_of_revision2_returns_or_panics (H:=Sim.runtime) (flags true)
           parse marshal encode
           "registry.example.com" "alice" "secret" "canary" "http://hook" world0
           [app; redis]).
  - reflexivity.
  - intros c [<-|[<-|[]]]; discriminate.
Defined.

(** The panic of a recreation on the scripted daemon: the inspection of [app]
    answers without base and network settings; the tick stops and removes the
    container, then panics, and nothing is created. *)
Example tick_panics_on_a_bare_inspection :
  let tick := V2.checkContainers (H:=Sim.runtime) (flags true) parse marshal encode
                "registry.example.com" "alice" "secret" "" "http://hook" world_bare in
  outcome tick = Panicked nilDereference /\
  In (EvContainerStop "c1" 10 (Success tt)) (events tick) /\
  In (EvContainerRemove "c1" (Success tt)) (events tick) /\
  created_configs (events tick) = [].
Proof. vm_compute. repeat split; tauto. Qed.

Lemma X10_witness :
  let tick := V2.checkContainers (H:=Sim.runtime) (flags true) parse marshal encode
                "registry.example.com" "alice" "secret" "" "http://hook" world0 in
  checked2 app (events tick) /\ checked2 redis (events tick).
Proof.
  assert (Hall : forall c, In c [app; redis] ->
            checked2 c
              (events (V2.checkContainers (H:=Sim.runtime) (flags true) parse marshal encode
                         "registry.example.com" "alice" "secret" "" "http://hook" world0))).
  { apply (X10_revision2_checks_every_container (H:=Sim.runtime) (flags true) parse marshal
             encode "registry.example.com" "alice" "secret" "" "http://hook" world0
             [app; redis]).
    - reflexivity.
    - vm_compute. reflexivity.
    - exists app. split; [left; reflexivity|].
      split; [reflexivity | left; vm_compute; reflexivity]. }
  split; apply Hall; [left | right; left]; reflexivity.
Defined.

Lemma X11_witness :
  let run := V1.pullImageAndCheckUpdate (H:=Sim.runtime) (flags false) marshal encode
               10 "registry.example.com/app:1.2" zeroAuthConfig "linux/arm64" "/app" ""
               world_newer in
  outcome run = Done (true, None) /\
  world run = world0 /\
  calls (events run)
  = [EvImagePull "registry.example.com/app:1.2"
       {| RegistryAuth := V1.encodeAuth marshal encode zeroAuthConfig;
          Platform := "linux/arm64" |} (Success newer_stream)].
Proof.
  apply (X11_detector_of_revision1_on_a_clean_stream (H:=Sim.runtime) (flags false)
           marshal encode 10 "registry.example.com/app:1.2" zeroAuthConfig "linux/arm64"
           "/app" "" world_newer world0 newer_stream).
  - reflexivity.
  - reflexivity.
  - vm_compute. lia.
Defined.

Lemma X12_witness :
  let opts := fallbackOptions (V1.encodeAuth marshal encode zeroAuthConfig) in
  let run := V1.decodeLoop (H:=Sim.runtime) (flags false) marshal encode 10
               ([Decoded "Pulling from app" ""] ++
                Decoded "" "no matching manifest for linux/arm64" ::
                [Decoded "Status: Downloaded newer image for somewhere else" ""])
               false "registry.example.com/app:1.2" zeroAuthConfig "/app" world_newer in
  outcome run = Done (false || false || true, None) /\
  calls (events run)
  = [EvImagePull "registry.example.com/app:1.2" opts (Success newer_stream)].
Proof.
  apply (X12_one_fallback_when_the_fallback_is_clean (H:=Sim.runtime) (flags false)
           marshal encode 10 [Decoded "Pulling from app" ""] ""
           "no matching manifest for linux/arm64"
           [Decoded "Status: Downloaded newer image for somewhere else" ""]
           false "registry.example.com/app:1.2" zeroAuthConfig "/app" world_newer).
  - reflexivity.
  - reflexivity.
  - reflexivity.
  - vm_compute. lia.
Defined.

Lemma X13_witness :
  V2.imageWithTag "localhost:5000/app:1.2" "latest" = "localhost" +:+ ":" +:+ "latest".
Proof.
  destruct (X13_probed_reference_is_cut_at_the_first_colon
              "localhost:5000/app:1.2" "latest" "latest") as (_ & _ & Hcut & _).
  apply (Hcut "localhost" "5000/app:1.2"); reflexivity.
Defined.

Lemma X14_witness :
  let ref := "registry.example.com/app:latest" in
  let run := V2.probeTags (H:=Sim.runtime) (flags false) parse marshal encode
               (V2.tagsToCheck "latest") "registry.example.com/app:1.2" zeroAuthConfig
               "linux/arm64" "app" "" "latest" "sha256:old" world0 in
  outcome run = Done true /\
  events run
  = [] ++
    events (V2.pullImageAndCheckUpdate (H:=Sim.runtime) (flags false) parse marshal encode
              ref zeroAuthConfig "linux/arm64" "app" "" "sha256:old" world0) ++
    [EvImageTag ref ref (Success tt);
     EvLog "[UPDATE] Retagged %s as latest" [VStr ref];
     EvImageRemove ref removeOptions (Success tt);
     EvLog "[UPDATE] Removed old tag %s" [VStr ref]].
Proof.
  apply (X14_update_on_the_first_probe (H:=Sim.runtime) (flags false) parse marshal encode
           "latest" "registry.example.com/app:1.2" zeroAuthConfig "linux/arm64" "app" ""
           "sha256:old" world0 world0
           (events (V2.pullImageAndCheckUpdate (H:=Sim.runtime) (flags false) parse marshal
                      encode "registry.example.com/app:latest" zeroAuthConfig "linux/arm64"
                      "app" "" "sha256:old" world0))).
  vm_compute. reflexivity.
Defined.

Lemma X15_witness :
  let tick := V2.checkContainers (H:=Sim.runtime) (flags true) parse marshal encode
                "registry.example.com" "" "" "" "http://hook" world0 in
  checked2 app (events tick) /\ checked2 redis (events tick).
Proof.
  destruct (X15_no_user_name_makes_every_container_eligible (H:=Sim.runtime) (flags true)
              parse marshal encode "registry.example.com" "" "" "http://hook" world0
              [app; redis]) as [_ Hall].
  specialize (Hall eq_refl ltac:(vm_compute; reflexivity)).
  split; apply Hall; [left | right; left]; reflexivity.
Defined.

Lemma X18_witness :
  let tick1 := V1.checkContainers (H:=Sim.runtime) (flags true) marshal encode 10
                 "registry.example.com" "alice" "secret" "http://hook" world_foreign in
  let tick2 := V2.checkContainers (H:=Sim.runtime) (flags true) parse marshal encode
                 "registry.example.com" "alice" "secret" "canary" "http://hook"
                 world_foreign in
  (outcome tick1 = Done None /\
   calls (events tick1) = [EvContainerList (V1.listOptions (flags true)) (Success [redis])]) /\
  (outcome tick2 = Done None /\
   calls (events tick2) = [EvContainerList (V2.listOptions (flags true)) (Success [redis])]).
Proof.
  apply (X18_tick_without_eligible_container (H:=Sim.runtime) (flags true) parse marshal
           encode 10 "registry.example.com" "alice" "secret" "canary" "http://hook"
           world_foreign [redis] [redis]).
  - reflexivity.
  - reflexivity.
  - constructor; [vm_compute; reflexivity | constructor].
  - constructor; [vm_compute; repeat split; reflexivity | constructor].
Defined.

Lemma X19_witness :
  let run1 := V1.main (H:=Sim.runtime) stopped_flags marshal encode 10 (env "alice") 2
                world0 in
  let run2 := V2.main (H:=Sim.runtime) stopped_flags parse marshal encode (env "alice") 2
                world0 in
  (outcome run1 = Panicked "non-positive interval for NewTicker" /\
   calls (events run1) = [EvNewClient (Success tt)]) /\
  (outcome run2 = Panicked "non-positive interval for NewTicker" /\
   calls (events run2) = [EvNewClient (Success tt)]).
Proof.
  apply (X19_refused_interval_panics_before_the_first_check (H:=Sim.runtime) stopped_flags
           parse marshal encode 10 (env "alice") 2 world0).
  - left. vm_compute. split; discriminate.
  - reflexivity.
  - vm_compute. discriminate.
  - vm_compute. discriminate.
Defined.

Lemma X20_witness :
  let tick := V1.checkContainers (H:=Sim.runtime) (flags true) marshal encode 10
                "registry.example.com" "alice" "secret" "http://hook" world_newer in
  let updated := successes (events tick) in
  let skipped := length (List.filter (foreign1 "registry.example.com") [app; redis]) in
  let eligible := V1.countEligible [app; redis] "registry.example.com" 0 in
  (skipped + eligible)%nat = length [app; redis] /\
  (updated <= eligible)%nat /\
  exists before,
    successes before = updated /\
    events tick
    = before ++ events
        ((if (eligible =? 0)%nat
          then logVerbose (flags true)
                 "No containers from registry %s found, skipping check"
                 [VStr "registry.example.com"]
          else if (0 <? updated)%nat
               then logInfo (flags true) summaryFormat
                      [VInt (Z.of_nat updated); VInt (Z.of_nat skipped)]
               else logVerbose (flags true)
                      "Check completed: no updates needed for %d containers"
                      [VInt (Z.of_nat eligible)]) world_newer).
Proof.
  apply (X20_summary_of_a_tick_of_revision1 (H:=Sim.runtime) (flags true) marshal encode 10
           "registry.example.com" "alice" "secret" "http://hook" world_newer [app; redis]).
  - reflexivity.
  - vm_compute. reflexivity.
Defined.

Lemma X21_witness :
  let tick := V2.checkContainers (H:=Sim.runtime) (flags true) parse marshal encode
                "registry.example.com" "alice" "secret" "" "http://hook" world0 in
  let updated := successes (events tick) in
  (updated <= length [app; redis])%nat /\
  ((0 < updated)%nat ->
   exists before,
     successes before = updated /\
     events tick
     = before ++ events (logInfo (flags true) summaryFormat
                           [VInt (Z.of_nat updated); VInt 0] world0)).
Proof.
  apply (X21_summary_of_a_tick_of_revision2 (H:=Sim.runtime) (flags true) parse marshal
           encode "registry.example.com" "alice" "secret" "" "http://hook" world0
           [app; redis]).
  - reflexivity.
  - vm_compute. reflexivity.
Defined.

Lemma X22_witness :
  count_ev is_list
    (events (V2.main (H:=Sim.runtime) (flags true) parse marshal encode (env "alice") 2
               world0)) = 3%nat.
Proof.
  destruct (X22_one_listing_per_check (H:=Sim.runtime) (flags true) parse marshal encode
              10 (env "alice") 2 world0) as (_ & _ & Hrunning).
  apply Hrunning. vm_compute. reflexivity.
Defined.

Lemma X24_witness :
  exists opts r,
    In (EvImagePull "sha256:latest" opts r)
       (events (V2.checkContainer (H:=Sim.runtime) (flags true) parse marshal encode
                  "" "http://hook" zeroAuthConfig pinned 0%nat world0)).
Proof.
  apply (X24_unresolved_digest_is_probed_as_sha256_latest (H:=Sim.runtime) (flags true)
           parse marshal encode "" "http://hook" zeroAuthConfig pinned "/pinned" [] 0%nat
           world0).
  - reflexivity.
  - reflexivity.
  - vm_compute. reflexivity.
  - eexists. vm_compute. reflexivity.
Defined.

End FurtherRuns.
